(** * Green AI Orchestrator: scoring, decision rules, history and monitors

    A shallow embedding of the decision pipeline of the orchestrator
    ([src/orchestrator/models.py], [scoring.py], [decision_engine.py]) and of
    the monitor layer it consumes ([src/monitors/*.py]), followed by the
    properties of that code.

    Number model.  A Python [float] is modelled by an exact rational ([Q]);
    equality of floats is equality of rationals ([==]).  The one irrational
    operation of the code, [x ** 0.5] in [calculate_confidence], is the real
    square root, so a confidence is a real number ([R]).  Rounding of binary
    floating point is not modelled there.  The checks of the weights of a
    configuration, which compare a sum of floats with a tolerance, are
    modelled on binary64 floats instead ([Float64]), and the readings that
    [validate_monitor_data] looks at include the infinities and NaN.  A
    Python [int] is a [Z] or, for a length or a count, a [nat].

    Dictionaries are finite maps ([gmap string _]); a raised exception is the
    [Raise] case of [result]. *)

From Stdlib Require Import QArith Qabs Qminmax Qround Qreals Reals Lra Lqa ZArith Lia.
From Stdlib Require PrimFloat.
From stdpp Require Import gmap strings list fin_maps.

Set Warnings "-register-all".

Open Scope Q_scope.

(** The comparisons [x < y] and [x <= y] of floats, as decisions. *)
#[global] Instance Qlt_decision (x y : Q) : Decision (x < y) :=
  match Qlt_le_dec x y with
  | left H => left H
  | right H => right (Qle_not_lt y x H)
  end.

#[global] Instance Qle_decision (x y : Q) : Decision (x <= y) :=
  match Qlt_le_dec y x with
  | left H => right (Qlt_not_le y x H)
  | right H => left H
  end.

(* ===================================================================== *)
(** ** Python runtime notions used by the code                            *)
(* ===================================================================== *)

Module Py.

(** The exception classes the modelled code raises or names in an
    [except] clause.  All of them derive from [Exception]. *)
Inductive exn :=
| ValueError | TypeError | RuntimeError | NameError | AttributeError
| ImportError | KeyError | OSError | TimeoutError
| SubprocessError | TimeoutExpired | JSONDecodeError.

(** [issubclass]: [TimeoutExpired] derives from [SubprocessError],
    [JSONDecodeError] from [ValueError] and [TimeoutError] from
    [OSError]. *)
Definition issubclass (e c : exn) : bool :=
  match e, c with
  | ValueError, ValueError | TypeError, TypeError
  | RuntimeError, RuntimeError | NameError, NameError
  | AttributeError, AttributeError | ImportError, ImportError
  | KeyError, KeyError | OSError, OSError | TimeoutError, TimeoutError
  | SubprocessError, SubprocessError | TimeoutExpired, TimeoutExpired
  | TimeoutExpired, SubprocessError | TimeoutError, OSError
  | JSONDecodeError, JSONDecodeError | JSONDecodeError, ValueError => true
  | _, _ => false
  end.

(** The outcome of running a piece of code: a value or a raised exception. *)
Inductive result (A : Type) :=
| Ok (a : A)
| Raise (e : exn).
Arguments Ok {A} a.
Arguments Raise {A} e.

Definition bind {A B} (m : result A) (k : A -> result B) : result B :=
  match m with
  | Ok a => k a
  | Raise e => Raise e
  end.

(** [try: body  except (classes): handler(e)]. *)
Definition try_except {A} (body : result A) (classes : list exn)
           (handler : exn -> result A) : result A :=
  match body with
  | Ok a => Ok a
  | Raise e => if existsb (issubclass e) classes then handler e else Raise e
  end.

(** [try: body  except Exception: handler(e)]: every modelled exception
    derives from [Exception]. *)
Definition try_except_Exception {A} (body : result A)
           (handler : exn -> result A) : result A :=
  match body with
  | Ok a => Ok a
  | Raise e => handler e
  end.

(** A value of a dictionary typed [Dict[str, Any]]. *)
Inductive value :=
| VNone
| VBool (b : bool)
| VFloat (q : Q)
| VStr (s : string)
| VDict (d : gmap string value).

(** [d.get(key, default)]. *)
Definition get {V} (d : gmap string V) (key : string) (dflt : V) : V :=
  default dflt (d !! key).

(** [sum(d.values())].  Python adds in insertion order and a [gmap] in key
    order; the rational obtained is the same up to [==]. *)
Definition sum_values (d : gmap string Q) : Q :=
  map_fold (fun _ v acc => acc + v) 0 d.

(** [sum(xs)] for a list of floats. *)
Definition sum_floats (xs : list Q) : Q := fold_left Qplus xs 0.

(** [d[key]]. *)
Definition getitem {V} (d : gmap string V) (key : string) : result V :=
  match d !! key with
  | Some v => Ok v
  | None => Raise KeyError
  end.

(** A value used as a number, as in a comparison with a float:
    [TypeError] unless it is a float or a bool. *)
Definition as_number (x : value) : result Q :=
  match x with
  | VFloat q => Ok q
  | VBool b => Ok (if b then 1 else 0)
  | VNone | VStr _ | VDict _ => Raise TypeError
  end.

(** [format(x, '.1f')] inside an f-string, of which only the failure
    matters: a string raises [ValueError], [None] and a dict [TypeError]. *)
Definition format_f (x : value) : result unit :=
  match x with
  | VFloat _ | VBool _ => Ok tt
  | VStr _ => Raise ValueError
  | VNone | VDict _ => Raise TypeError
  end.

(** [round(x, ndigits)] in exact arithmetic: to the nearest multiple of
    [10^-ndigits], ties to the even one. *)
Definition round (x : Q) (ndigits : nat) : Q :=
  let unit := inject_Z (10 ^ Z.of_nat ndigits) in
  let scaled := x * unit in
  let z := Qfloor scaled in
  let frac := scaled - inject_Z z in
  let nearest :=
    if decide (frac < 1 # 2) then z
    else if decide (1 # 2 < frac) then (z + 1)%Z
    else if Z.even z then z else (z + 1)%Z in
  inject_Z nearest / unit.

(** [min(xs)] and [max(xs)] on a non-empty list given as head and tail:
    the first smallest (largest) element is kept. *)
Definition min_list (x : Q) (xs : list Q) : Q :=
  fold_left (fun best y => if decide (y < best) then y else best) xs x.
Definition max_list (x : Q) (xs : list Q) : Q :=
  fold_left (fun best y => if decide (best < y) then y else best) xs x.

(** [xs[start:]] for a list, [start] possibly negative. *)
Definition slice_from {A} (xs : list A) (start : Z) : list A :=
  let len := Z.of_nat (length xs) in
  let i := if (start <? 0)%Z then Z.max (len + start) 0 else Z.min start len in
  drop (Z.to_nat i) xs.

End Py.

Import Py.

#[global] Instance result_ret : MRet result := fun _ a => Ok a.
#[global] Instance result_bind : MBind result := fun _ _ k m => bind m k.

(* ===================================================================== *)
(** ** models.py                                                          *)
(* ===================================================================== *)

(** [class ExecutionMode(Enum)]. *)
Inductive ExecutionMode := EDGE_ONLY | CLOUD_ONLY | HYBRID | DEFERRED.

#[global] Instance ExecutionMode_eq_dec : EqDecision ExecutionMode.
Proof. solve_decision. Defined.

Module ExecutionMode.
(** [mode.value]. *)
Definition value (m : ExecutionMode) : string :=
  match m with
  | EDGE_ONLY => "edge_only"
  | CLOUD_ONLY => "cloud_only"
  | HYBRID => "hybrid"
  | DEFERRED => "deferred"
  end.

(** [for mode in ExecutionMode], in definition order. *)
Definition members : list ExecutionMode :=
  [EDGE_ONLY; CLOUD_ONLY; HYBRID; DEFERRED].
End ExecutionMode.

(** [@dataclass class SystemContext]. *)
Module SystemContext.
Record t := mk {
  battery : Q;
  network : Q;
  carbon : Q;
  platform : string;
  timestamp : Q;
  additional_data : gmap string Py.value
}.
End SystemContext.

(** [@dataclass class Decision]. *)
Module Decision.
Record t := mk {
  score : Q;
  confidence : R;
  battery : Q;
  network : Q;
  carbon : Q;
  timestamp : Q;
  recommended_mode : ExecutionMode;
  explanation : string;
  tradeoffs : gmap string Q
}.
End Decision.

(** [@dataclass class OrchestratorConfig]. *)
Module OrchestratorConfig.
Record t := mk {
  weights : gmap string Q;
  threshold : Q;
  hard_edge_battery : Q;
  hard_cloud_battery : Q;
  use_real_battery : bool;
  use_real_network : bool;
  use_real_carbon : bool;
  carbon_zone : string;
  log_level : string;
  log_file : option string;
  version : string;
  decision_history_size : Z
}.

(** The field defaults: [OrchestratorConfig()]. *)
Definition default_weights : gmap string Q :=
  {[ "battery" := 0.4; "network" := 0.3; "carbon" := 0.3 ]}.

Definition default : t := {|
  weights := default_weights;
  threshold := 0.5;
  hard_edge_battery := 0.2;
  hard_cloud_battery := 0.8;
  use_real_battery := true;
  use_real_network := true;
  use_real_carbon := true;
  carbon_zone := "IN";
  log_level := "INFO";
  log_file := None;
  version := "1.0.0";
  decision_history_size := 1000
|}.

(** [self.weights = w]. *)
Definition set_weights (self : t) (w : gmap string Q) : t := {|
  weights := w;
  threshold := threshold self;
  hard_edge_battery := hard_edge_battery self;
  hard_cloud_battery := hard_cloud_battery self;
  use_real_battery := use_real_battery self;
  use_real_network := use_real_network self;
  use_real_carbon := use_real_carbon self;
  carbon_zone := carbon_zone self;
  log_level := log_level self;
  log_file := log_file self;
  version := version self;
  decision_history_size := decision_history_size self
|}.

(** [def validate(self)]: returns [None] or raises [ValueError].  The sum
    is the exact one here; the check as the floats decide it, and
    [update_weights], are in [Float64.OrchestratorConfig]. *)
Definition validate (self : t) : result unit :=
  if negb (bool_decide (0 <= threshold self) && bool_decide (threshold self <= 1))
  then Raise ValueError
  else
    let total_weight := sum_values (weights self) in
    if decide (0.001 < Qabs (total_weight - 1.0))
    then Raise ValueError
    else if bool_decide (weights self = ∅)
         then Raise ValueError
         else Ok tt.

End OrchestratorConfig.

(* ===================================================================== *)
(** ** The configuration file                                             *)
(* ===================================================================== *)

(** The dictionary that [load_config] returns for a JSON or YAML file
    whose values have the types that the code reads them at: the sections
    [orchestrator], [monitors] and [logging] with the keys that the code
    looks up.  A key that the file does not have is [None]. *)
Module ConfigData.

Record orchestrator_section := mk_orchestrator {
  weights : option (gmap string Q);
  threshold : option Q;
  hard_edge_battery : option Q;
  hard_cloud_battery : option Q
}.

(** The section of one monitor under [monitors]. *)
Record monitor_section := mk_monitor {
  enabled : option bool;
  zone : option string
}.

Record monitors_section := mk_monitors {
  battery : option monitor_section;
  network : option monitor_section;
  carbon : option monitor_section
}.

(** [file] is [Some None] for a key [file] that is null. *)
Record logging_section := mk_logging {
  level : option string;
  file : option (option string)
}.

Record t := mk {
  orchestrator : option orchestrator_section;
  monitors : option monitors_section;
  logging : option logging_section
}.

End ConfigData.

(* ===================================================================== *)
(** ** scoring.py                                                         *)
(* ===================================================================== *)

Module Scoring.

(** [def calculate_sustainability_score(monitor_values, weights)]. *)
Definition calculate_sustainability_score
           (monitor_values weights : gmap string Q) : Q :=
  let battery := get monitor_values "battery" 0.5 in
  let network := get monitor_values "network" 0.5 in
  let carbon := get monitor_values "carbon" 0.5 in
  let carbon_score := 1.0 - carbon in
  let score :=
    battery * get weights "battery" 0.4 +
    network * get weights "network" 0.3 +
    carbon_score * get weights "carbon" 0.3 in
  Qmax 0.0 (Qmin 1.0 score).

(** The first part of [calculate_confidence]: the local [confidence]
    before it is reassigned by the nonlinear scaling. *)
Definition combined_confidence (score : Q) (context : SystemContext.t) : Q :=
  let score_confidence := 1.0 - Qabs (score - 0.5) * 2 in
  let battery_confidence := 1.0 - Qabs (SystemContext.battery context - 0.5) * 2 in
  let network_confidence := SystemContext.network context in
  let carbon_confidence := 1.0 - Qabs (SystemContext.carbon context - 0.5) * 2 in
  (score_confidence + battery_confidence + network_confidence + carbon_confidence) / 4.

(** [def calculate_confidence(score, context)].  [c ** 0.5] of a negative
    float is a complex number, on which [min(1.0, _)] raises [TypeError]. *)
Definition calculate_confidence (score : Q) (context : SystemContext.t) : result R :=
  let confidence := combined_confidence score context in
  if decide (confidence < 0)
  then Raise TypeError
  else
    let confidence := sqrt (Q2R confidence) in
    Ok (Rmax 0 (Rmin 1 confidence)).

(** [def analyze_tradeoffs(battery, network, carbon)]. *)
Definition analyze_tradeoffs (battery network carbon : Q) : gmap string Q :=
  {[ "battery_vs_performance" := battery * 0.7 + (1 - battery) * 0.3;
     "network_vs_latency" := network * 0.6 + (1 - network) * 0.4;
     "carbon_vs_speed" := (1 - carbon) * 0.8 + carbon * 0.2;
     "overall_tradeoff" := (battery + network + (1 - carbon)) / 3 ]}.

End Scoring.

(* ===================================================================== *)
(** ** utils/validation.py                                                *)
(* ===================================================================== *)

Module Validation.

(** [validate_config] adds the weights of the file and is modelled with
    the other sum checks, in [Float64]. *)

(** A value of [monitor_values] as [validate_monitor_data] looks at it.
    A number is an [int] or a [float] (a [bool] is an [int], 0 or 1), and
    a float is finite, an infinity or NaN ([float("nan")]); anything else
    is not a number. *)
Inductive reading :=
| Finite (q : Q)
| Infinity (negative : bool)
| NaN
| NotNumber.

(** [isinstance(value, (int, float))]. *)
Definition is_number (value : reading) : bool :=
  match value with
  | Finite _ | Infinity _ | NaN => true
  | NotNumber => false
  end.

(** [value < 0] for a number: every comparison with NaN is false. *)
Definition below_zero (value : reading) : bool :=
  match value with
  | Finite q => bool_decide (q < 0)
  | Infinity negative => negative
  | NaN | NotNumber => false
  end.

(** [value > 1] for a number. *)
Definition above_one (value : reading) : bool :=
  match value with
  | Finite q => bool_decide (1 < q)
  | Infinity negative => negb negative
  | NaN | NotNumber => false
  end.

(** The finite number that a reading is, if it is one. *)
Definition finite (value : reading) : option Q :=
  match value with
  | Finite q => Some q
  | Infinity _ | NaN | NotNumber => None
  end.

(** The loop of [validate_monitor_data] over the monitors that remain. *)
Fixpoint validate_monitors (monitor_values : gmap string reading)
         (required_monitors : list string) : bool :=
  match required_monitors with
  | [] => true
  | monitor :: rest =>
      match monitor_values !! monitor with
      | None => false
      | Some value =>
          if negb (is_number value) then false
          else if below_zero value || above_one value then false
          else validate_monitors monitor_values rest
      end
  end.

(** [def validate_monitor_data(monitor_values)]. *)
Definition validate_monitor_data (monitor_values : gmap string reading) : bool :=
  validate_monitors monitor_values [ "battery"; "network"; "carbon" ].

End Validation.

(* ===================================================================== *)
(** ** monitors/battery_monitor.py, network_monitor.py, carbon_monitor.py *)
(* ===================================================================== *)

Module Monitors.

Section Builtins.

(** [float(s)] on a string: the number it denotes, if it parses. *)
Variable float_of_str : string -> option Q.

(** [float(x)]. *)
Definition float (x : value) : result Q :=
  match x with
  | VFloat q => Ok q
  | VBool b => Ok (if b then 1 else 0)
  | VStr s =>
      match float_of_str s with
      | Some q => Ok q
      | None => Raise ValueError
      end
  | VNone | VDict _ => Raise TypeError
  end.

(** *** class BatteryMonitor *)

(** [def _get_fallback_info(self)]; [now] is the value of [time.time()]. *)
Definition battery_fallback_info (now : Q) : gmap string value :=
  {[ "percentage" := VFloat 85.0;
     "is_charging" := VBool true;
     "status" := VStr "fallback";
     "source" := VStr "fallback";
     "timestamp" := VFloat now;
     "note" := VStr "Using fallback battery data" ]}.

(** [def get_info(self)] of [BatteryMonitor]; [raw] is the outcome of
    [self._get_raw_battery_info()], the probe of the concrete class. *)
Definition battery_get_info (raw : result (gmap string value)) (now : Q)
  : result (gmap string value) :=
  try_except_Exception
    (raw_info ← raw;
     let info : gmap string value :=
       {[ "percentage" := get raw_info "percentage" (VFloat 0.0);
          "is_charging" := get raw_info "is_charging" (VBool false);
          "status" := get raw_info "status" (VStr "unknown");
          "source" := get raw_info "source" (VStr "unknown");
          "timestamp" := VFloat now;
          "raw_data" := VDict raw_info ]} in
     p ← getitem info "percentage";
     p ← float p;
     let info := <["percentage" := VFloat (Qmax 0.0 (Qmin 100.0 p))]> info in
     Ok info)
    (fun e => Ok (battery_fallback_info now)).

(** *** class NetworkMonitor *)

Definition network_fallback_info (now : Q) : gmap string value :=
  {[ "speed_mbps" := VFloat 10.0;
     "latency_ms" := VFloat 100.0;
     "quality" := VFloat 0.5;
     "connected" := VBool true;
     "source" := VStr "fallback";
     "timestamp" := VFloat now;
     "note" := VStr "Using fallback network data" ]}.

(** [def get_info(self)] of [NetworkMonitor]; [raw] is the outcome of
    [self._get_raw_network_info()].  The f-string of the debug message is
    evaluated before the return and formats speed and latency as floats. *)
Definition network_get_info (raw : result (gmap string value)) (now : Q)
  : result (gmap string value) :=
  try_except_Exception
    (raw_info ← raw;
     let info : gmap string value :=
       {[ "speed_mbps" := get raw_info "speed_mbps" (VFloat 0.0);
          "latency_ms" := get raw_info "latency_ms" (VFloat 0.0);
          "quality" := get raw_info "quality" (VFloat 0.0);
          "connected" := get raw_info "connected" (VBool false);
          "source" := get raw_info "source" (VStr "unknown");
          "timestamp" := VFloat now;
          "raw_data" := VDict raw_info ]} in
     q ← getitem info "quality";
     q ← as_number q;
     let info := <["quality" := VFloat (Qmax 0.0 (Qmin 1.0 q))]> info in
     s ← getitem info "speed_mbps";
     _ ← format_f s;
     l ← getitem info "latency_ms";
     _ ← format_f l;
     Ok info)
    (fun e => Ok (network_fallback_info now)).

(** [def _calculate_quality(self, speed_mbps, latency_ms)]. *)
Definition _calculate_quality (speed_mbps latency_ms : Q) : Q :=
  let speed_score := Qmin 1.0 (speed_mbps / 200.0) in
  let latency_score := Qmax 0.0 (1.0 - latency_ms / 500.0) in
  let quality := 0.7 * speed_score + 0.3 * latency_score in
  Qmax 0.0 (Qmin 1.0 quality).

(** *** class CarbonMonitor *)

Definition carbon_fallback_info (zone : string) (now : Q) : gmap string value :=
  {[ "intensity" := VFloat 400.0;
     "is_green" := VBool false;
     "zone" := VStr zone;
     "source" := VStr "fallback";
     "timestamp" := VFloat now;
     "note" := VStr "Using fallback carbon data" ]}.

(** [def get_info(self, zone)] of [CarbonMonitor]; [raw] is the outcome
    of [self._get_raw_carbon_info(zone)]. *)
Definition carbon_get_info (raw : result (gmap string value))
           (zone : string) (now : Q) : result (gmap string value) :=
  try_except_Exception
    (raw_info ← raw;
     let info : gmap string value :=
       {[ "intensity" := get raw_info "intensity" (VFloat 0.0);
          "is_green" := get raw_info "is_green" (VBool false);
          "zone" := get raw_info "zone" (VStr zone);
          "source" := get raw_info "source" (VStr "unknown");
          "timestamp" := VFloat now;
          "raw_data" := VDict raw_info ]} in
     Ok info)
    (fun e => Ok (carbon_fallback_info zone now)).

(** *** class PingMonitor *)

(** The names bound in the namespace of [network_monitor.py]: its
    imports, its logger and its classes.  A builtin name is found in the
    builtins instead; [re] is in neither. *)
Definition network_monitor_globals : list string :=
  [ "subprocess"; "socket"; "time"; "logging"; "platform";
    "Dict"; "Any"; "Optional"; "Tuple"; "ABC"; "abstractmethod";
    "random"; "BaseMonitor"; "logger";
    "NetworkMonitor"; "SpeedTestMonitor"; "PingMonitor";
    "SimulatedNetworkMonitor" ].

(** Evaluating a global name of the module: [NameError] if unbound. *)
Definition load_global (name : string) : result unit :=
  if bool_decide (name ∈ network_monitor_globals)
  then Ok tt
  else Raise NameError.

(** [platform.system().lower()]. *)
Variable system : string.
(** [subprocess.run(cmd, capture_output=True, text=True, timeout=5)]:
    the [stdout] of the completed process, or the exception raised. *)
Variable subprocess_run : list string -> result string.
(** What [re.search(pattern, output)] with the standard [re] module
    yields: [group(1)] of the first match, if any. *)
Variable re_search : string -> string -> option string.
(** [random.uniform(a, b)]. *)
Variable random_uniform : Q -> Q -> Q.

Definition ping_hosts : list string :=
  [ "8.8.8.8"; "1.1.1.1"; "208.67.222.222" ].

(** The command line [cmd] that [_ping_host] builds. *)
Definition ping_command (host : string) : list string :=
  if String.eqb system "windows"
  then [ "ping"; "-n"; "4"; "-w"; "1000"; host ]
  else [ "ping"; "-c"; "4"; "-W"; "1"; host ].

(** [def _ping_host(self, host)]. *)
Definition _ping_host (host : string) : result Q :=
  let cmd := ping_command host in
  try_except
    (output ← subprocess_run cmd;
     _ ← load_global "re";
     let match_ :=
       if String.eqb system "windows"
       then re_search "Average = (\d+)ms" output
       else re_search "= [\d.]+\/([\d.]+)\/" output in
     match match_ with
     | Some group1 =>
         latency ← float (VStr group1);
         Ok latency
     | None => Raise RuntimeError
     end)
    [ SubprocessError; TimeoutError; ValueError ]
    (fun e => Raise e).

(** The body of the [try] of one iteration of the loop of
    [_get_raw_network_info]: [Some] reading when it returns, [None] when
    the iteration ends without returning. *)
Definition ping_attempt (host : string) : result (option (gmap string value)) :=
  latency ← _ping_host host;
  if decide (0 < latency) then
    let estimated_speed :=
      if decide (latency < 50) then 50 + random_uniform 0 50
      else if decide (latency < 100) then 20 + random_uniform 0 30
      else if decide (latency < 200) then 5 + random_uniform 0 15
      else 1 + random_uniform 0 4 in
    let quality := _calculate_quality estimated_speed latency in
    Ok (Some
          ({[ "speed_mbps" := VFloat (round estimated_speed 1);
              "latency_ms" := VFloat (round latency 1);
              "quality" := VFloat (round quality 3);
              "connected" := VBool true;
              "source" := VStr ("ping_" +:+ host);
              "ping_host" := VStr host;
              "note" := VStr "Speed estimated from latency" ]}
           : gmap string value))
  else Ok None.

(** The [for host in self.ping_hosts] loop followed by the final
    [raise RuntimeError]. *)
Fixpoint ping_loop (hosts : list string) : result (gmap string value) :=
  match hosts with
  | [] => Raise RuntimeError
  | host :: rest =>
      match ping_attempt host with
      | Ok (Some reading) => Ok reading
      | Ok None => ping_loop rest
      | Raise e => ping_loop rest
      end
  end.

(** [def _get_raw_network_info(self)] of [PingMonitor]. *)
Definition ping_get_raw_network_info : result (gmap string value) :=
  ping_loop ping_hosts.

(** [PingMonitor.get_info], inherited from [NetworkMonitor]. *)
Definition ping_get_info (now : Q) : result (gmap string value) :=
  network_get_info ping_get_raw_network_info now.

End Builtins.

End Monitors.

(* ===================================================================== *)
(** ** monitors/base_monitor.py                                           *)
(* ===================================================================== *)

Module BaseMonitor.

(** The attributes that [__init__] sets, [name] apart. *)
Record t := mk {
  last_update_time : Q;
  cache_ttl : Q;
  cache : gmap string value
}.

(** [def __init__(self, name)]. *)
Definition init : t :=
  {| last_update_time := 0; cache_ttl := 300; cache := ∅ |}.

(** [def get_cached_info(self)]: what the call returns or raises, and the
    object after it.  [now] is the value of [time.time()] and [get_info]
    the outcome of [self.get_info()], which is called only when the cache
    is not served. *)
Definition get_cached_info (self : t) (now : Q)
           (get_info : result (gmap string value))
  : result (gmap string value) * t :=
  if negb (bool_decide (cache self = ∅))
     && bool_decide (now - last_update_time self < cache_ttl self)
  then (Ok (cache self), self)
  else
    match get_info with
    | Ok info =>
        (Ok info,
         {| last_update_time := now; cache_ttl := cache_ttl self; cache := info |})
    | Raise e => (Raise e, self)
    end.

(** [def refresh(self)]. *)
Definition refresh (self : t) (get_info : result (gmap string value))
  : result (gmap string value) * t :=
  let self := {| last_update_time := last_update_time self;
                 cache_ttl := cache_ttl self;
                 cache := ∅ |} in
  (get_info, self).

(** [def set_cache_ttl(self, ttl)]. *)
Definition set_cache_ttl (self : t) (ttl : Q) : t :=
  {| last_update_time := last_update_time self;
     cache_ttl := ttl;
     cache := cache self |}.

End BaseMonitor.

(* ===================================================================== *)
(** ** The simulated monitors and [UniversalBatteryMonitor]               *)
(* ===================================================================== *)

(** Two operations of Python numbers that the simulated monitors use. *)
Module PyNum.

(** [int(x)] of a float: truncation towards zero. *)
Definition int (x : Q) : Z :=
  if decide (0 <= x) then Qfloor x else Qceiling x.

(** [x % m] of floats for a positive [m]: the result has the sign of
    [m]. *)
Definition float_mod (x m : Q) : Q :=
  x - m * inject_Z (Qfloor (x / m)).

End PyNum.

(** [class SimulatedBatteryMonitor]. *)
Module SimulatedBatteryMonitor.

Record t := mk {
  percentage : Q;
  is_charging : bool;
  discharge_rate : Q;
  charge_rate : Q;
  last_update : Q
}.

(** [def __init__(self, initial_percentage=85.0)]; [now] is the value of
    [time.time()]. *)
Definition init (initial_percentage now : Q) : t :=
  {| percentage := initial_percentage;
     is_charging := true;
     discharge_rate := 0.05;
     charge_rate := 0.5;
     last_update := now |}.

(** [def _get_raw_battery_info(self)]: the reading and the object after
    the call.  [current_time] is the value of [time.time()] and [random]
    the one of [random.random()]. *)
Definition _get_raw_battery_info (self : t) (current_time random : Q)
  : gmap string value * t :=
  let time_delta := current_time - last_update self in
  let state : Q * bool :=
    if is_charging self then
      let charge_amount := charge_rate self * (time_delta / 60) in
      let percentage := Qmin 100 (percentage self + charge_amount) in
      if decide (99.9 <= percentage) then (100.0, false)
      else (percentage, true)
    else
      let discharge_amount := discharge_rate self * (time_delta / 60) in
      let percentage := Qmax 0 (percentage self - discharge_amount) in
      if decide (percentage <= 20) then (percentage, true)
      else (percentage, false) in
  let percentage := fst state in
  let is_charging := snd state in
  let is_charging :=
    if decide (random < 0.05) then negb is_charging else is_charging in
  let status := if is_charging then "charging" else "discharging" in
  let status :=
    if decide (99.9 <= percentage) then "full"
    else if decide (percentage <= 5) then "critical"
    else status in
  ({[ "percentage" := VFloat (round percentage 1);
      "is_charging" := VBool is_charging;
      "status" := VStr status;
      "source" := VStr "simulation";
      "note" := VStr "Using simulated battery data for demonstration";
      "simulation_params" :=
        VDict {[ "discharge_rate" := VFloat (discharge_rate self);
                 "charge_rate" := VFloat (charge_rate self) ]} ]},
   {| percentage := percentage;
      is_charging := is_charging;
      discharge_rate := discharge_rate self;
      charge_rate := charge_rate self;
      last_update := current_time |}).

End SimulatedBatteryMonitor.

(** [class LinuxBatteryMonitor]. *)
Module LinuxBatteryMonitor.

(** [os.path.basename(path)] of a path without a trailing slash: what
    follows the last slash. *)
Fixpoint basename_from (path acc : string) : string :=
  match path with
  | EmptyString => acc
  | String c rest =>
      if String.eqb (String c "") "/" then basename_from rest ""
      else basename_from rest (acc +:+ String c "")
  end.

Definition basename (path : string) : string := basename_from path "".

(** [os.path.join(base_path, name)]. *)
Definition join (base_path name : string) : string :=
  base_path +:+ "/" +:+ name.

Section Host.

(** [os.path.exists(path)]. *)
Variable path_exists : string -> bool.
(** [with open(path, "r") as f: f.read()]: the content of the file, or
    the exception raised. *)
Variable read : string -> result string.
(** [s.strip()] and [s.lower()]. *)
Variable strip : string -> string.
Variable lower : string -> string.
(** [float(s)] on a string: the number it denotes, if it parses. *)
Variable float_of_str : string -> option Q.
(** [re.search(pattern, content, re.IGNORECASE)]: [group(1)] of the first
    match, if any. *)
Variable re_search : string -> string -> option string.

(** The body of the loop of [_read_from_sysfs] for one [base_path]:
    [Some] reading when it returns, [None] when the iteration ends with
    [continue] or falls through.  Without a status file the name
    [is_charging] is not bound when the dictionary is built:
    [UnboundLocalError], a [NameError]. *)
Definition sysfs_attempt (base_path : string)
  : result (option (gmap string value)) :=
  if negb (path_exists base_path) then Ok None
  else
    try_except
      (let capacity_file := join base_path "capacity" in
       let status_file := join base_path "status" in
       let present_file := join base_path "present" in
       present ←
         (if path_exists present_file then
            content ← read present_file;
            Ok (String.eqb (strip content) "1")
          else Ok true);
       if negb present then Ok None
       else if path_exists capacity_file then
         content ← read capacity_file;
         percentage ← Monitors.float float_of_str (VStr (strip content));
         if path_exists status_file then
           content ← read status_file;
           let raw_status := lower (strip content) in
           let status := raw_status in
           let is_charging := bool_decide (raw_status ∈ [ "charging"; "full" ]) in
           Ok (Some ({[ "percentage" := VFloat percentage;
                        "is_charging" := VBool is_charging;
                        "status" := VStr status;
                        "source" := VStr ("sysfs_" +:+ basename base_path);
                        "path" := VStr base_path ]} : gmap string value))
         else Raise NameError
       else Ok None)
      [ OSError; ValueError ]
      (fun e => Ok None).

(** What both readers return when no path gives a reading. *)
Definition no_reading : gmap string value :=
  {[ "percentage" := VFloat (-1); "is_charging" := VBool false ]}.

(** The loop of [_read_from_sysfs] over the paths that remain. *)
Fixpoint sysfs_loop (base_paths : list string) : result (gmap string value) :=
  match base_paths with
  | [] => Ok no_reading
  | base_path :: rest =>
      match sysfs_attempt base_path with
      | Ok (Some info) => Ok info
      | Ok None => sysfs_loop rest
      | Raise e => Raise e
      end
  end.

(** [def _read_from_sysfs(self)]. *)
Definition _read_from_sysfs : result (gmap string value) :=
  sysfs_loop [ "/sys/class/power_supply/BAT0";
               "/sys/class/power_supply/BAT1";
               "/sys/class/power_supply/BAT2" ].

(** The body of the loop of [_read_from_proc_acpi] for one [base_path]. *)
Definition proc_acpi_attempt (base_path : string)
  : result (option (gmap string value)) :=
  if negb (path_exists base_path) then Ok None
  else
    try_except
      (let state_file := join base_path "state" in
       let info_file := join base_path "info" in
       if path_exists state_file && path_exists info_file then
         state_content ← read state_file;
         let percentage_match :=
           re_search "remaining capacity:\s*(\d+)" state_content in
         percentage ←
           match percentage_match with
           | Some group1 => Monitors.float float_of_str (VStr group1)
           | None => Ok 0
           end;
         let status_match := re_search "charging state:\s*(\w+)" state_content in
         let status :=
           match status_match with
           | Some group1 => lower group1
           | None => "unknown"
           end in
         let is_charging :=
           bool_decide (status ∈ [ "charging"; "charged"; "full" ]) in
         Ok (Some ({[ "percentage" := VFloat percentage;
                      "is_charging" := VBool is_charging;
                      "status" := VStr status;
                      "source" := VStr ("proc_acpi_" +:+ basename base_path);
                      "path" := VStr base_path ]} : gmap string value))
       else Ok None)
      [ OSError; ValueError; AttributeError ]
      (fun e => Ok None).

Fixpoint proc_acpi_loop (base_paths : list string) : result (gmap string value) :=
  match base_paths with
  | [] => Ok no_reading
  | base_path :: rest =>
      match proc_acpi_attempt base_path with
      | Ok (Some info) => Ok info
      | Ok None => proc_acpi_loop rest
      | Raise e => Raise e
      end
  end.

(** [def _read_from_proc_acpi(self)]. *)
Definition _read_from_proc_acpi : result (gmap string value) :=
  proc_acpi_loop [ "/proc/acpi/battery/BAT0"; "/proc/acpi/battery/BAT1" ].

(** [def _get_raw_battery_info(self)]. *)
Definition _get_raw_battery_info : result (gmap string value) :=
  info ← _read_from_sysfs;
  percentage ← getitem info "percentage";
  percentage ← as_number percentage;
  if decide (0 <= percentage) then Ok info
  else
    info ← _read_from_proc_acpi;
    percentage ← getitem info "percentage";
    percentage ← as_number percentage;
    if decide (0 <= percentage) then Ok info
    else Raise RuntimeError.

(** [LinuxBatteryMonitor.get_info], inherited from [BatteryMonitor]. *)
Definition get_info (now : Q) : result (gmap string value) :=
  Monitors.battery_get_info float_of_str _get_raw_battery_info now.

(** A host whose first battery of sysfs can be read: its directory exists,
    it is not marked absent, and its capacity file holds a number. *)
Definition first_battery_has_capacity (capacity : Q) : Prop :=
  path_exists "/sys/class/power_supply/BAT0" = true
  /\ (path_exists "/sys/class/power_supply/BAT0/present" = false
      \/ exists content,
           read "/sys/class/power_supply/BAT0/present" = Ok content
           /\ strip content = "1")
  /\ path_exists "/sys/class/power_supply/BAT0/capacity" = true
  /\ exists content,
       read "/sys/class/power_supply/BAT0/capacity" = Ok content
       /\ float_of_str (strip content) = Some capacity.

End Host.

End LinuxBatteryMonitor.

(** [class UniversalBatteryMonitor]. *)
Module UniversalBatteryMonitor.

(** The objects of [self.platform_monitors]: the monitor of the platform,
    if the platform is a known one, and a [SimulatedBatteryMonitor]. *)
Inductive member := Platform | Simulated.

#[global] Instance member_eq_dec : EqDecision member.
Proof. solve_decision. Defined.

Record t := mk {
  platform_monitors : list member;
  current_monitor : option member;
  (** the state of the [SimulatedBatteryMonitor] of [platform_monitors] *)
  simulated : SimulatedBatteryMonitor.t
}.

(** [def __init__(self)] with [_initialize_monitors]; [system] is
    [platform.system()] and [now] the value of [time.time()]. *)
Definition init (system : string) (now : Q) : t :=
  {| platform_monitors :=
       (if String.eqb system "Darwin" then [Platform]
        else if String.eqb system "Linux" then [Platform]
        else if String.eqb system "Windows" then [Platform]
        else [])
       ++ [Simulated];
     current_monitor := None;
     simulated := SimulatedBatteryMonitor.init 85.0 now |}.

(** What the host answers during one call: [is_available()] and
    [_get_raw_battery_info()] of the platform monitor, the clock, the
    random numbers drawn by the simulated monitor of the list and by a
    [SimulatedBatteryMonitor()] created during the call, and the clock at
    that creation. *)
Record Env := mk_env {
  platform_is_available : bool;
  platform_raw : result (gmap string value);
  current_time : Q;
  random : Q;
  created : Q;
  fresh_random : Q
}.

Definition set_current (self : t) (m : option member) : t :=
  {| platform_monitors := platform_monitors self;
     current_monitor := m;
     simulated := simulated self |}.

(** [monitor.is_available()] of a member of the list. *)
Definition member_is_available (env : Env) (m : member) : bool :=
  match m with
  | Platform => platform_is_available env
  | Simulated => true
  end.

(** [monitor._get_raw_battery_info()] of a member of the list. *)
Definition member_raw (self : t) (env : Env) (m : member)
  : result (gmap string value) * t :=
  match m with
  | Platform => (platform_raw env, self)
  | Simulated =>
      let r := SimulatedBatteryMonitor._get_raw_battery_info
                 (simulated self) (current_time env) (random env) in
      (Ok (fst r),
       {| platform_monitors := platform_monitors self;
          current_monitor := current_monitor self;
          simulated := snd r |})
  end.

(** [SimulatedBatteryMonitor()._get_raw_battery_info()]. *)
Definition fresh_reading (env : Env) : gmap string value :=
  fst (SimulatedBatteryMonitor._get_raw_battery_info
         (SimulatedBatteryMonitor.init 85.0 (created env))
         (current_time env) (fresh_random env)).

(** The loop of [is_available]: the first available member. *)
Fixpoint first_available (env : Env) (ms : list member) : option member :=
  match ms with
  | [] => None
  | m :: rest =>
      if member_is_available env m then Some m else first_available env rest
  end.

(** [def is_available(self)]. *)
Definition is_available (self : t) (env : Env) : bool * t :=
  match first_available env (platform_monitors self) with
  | Some m => (true, set_current self (Some m))
  | None => (false, self)
  end.

(** The loop [for monitor in self.platform_monitors] of the handler in
    [_get_raw_battery_info]: the reading that it returns, if any. *)
Fixpoint try_other_monitors (self : t) (env : Env) (ms : list member)
  : option (gmap string value) * t :=
  match ms with
  | [] => (None, self)
  | m :: rest =>
      if negb (bool_decide (Some m = current_monitor self))
         && member_is_available env m
      then
        let self := set_current self (Some m) in
        let r := member_raw self env m in
        match fst r with
        | Ok info => (Some info, snd r)
        | Raise _ => try_other_monitors (snd r) env rest
        end
      else try_other_monitors self env rest
  end.

(** [def _get_raw_battery_info(self)].  [self.current_monitor] that is
    still [None] inside the [try] raises [AttributeError], which the
    handler catches. *)
Definition _get_raw_battery_info (self : t) (env : Env)
  : result (gmap string value) * t :=
  let checked : bool * t :=
    match current_monitor self with
    | None => is_available self env
    | Some _ => (true, self)
    end in
  let self := snd checked in
  if negb (fst checked) then (Ok (fresh_reading env), self)
  else
    let r :=
      match current_monitor self with
      | Some m => member_raw self env m
      | None => (Raise AttributeError, self)
      end in
    match fst r with
    | Ok info => (Ok info, snd r)
    | Raise _ =>
        let o := try_other_monitors (snd r) env (platform_monitors (snd r)) in
        match fst o with
        | Some info => (Ok info, snd o)
        | None => (Ok (fresh_reading env), snd o)
        end
    end.

End UniversalBatteryMonitor.

(** [class SimulatedNetworkMonitor]. *)
Module SimulatedNetworkMonitor.

Record t := mk {
  base_speed : Q;
  base_latency : Q;
  last_update : Q
}.

(** [def __init__(self)]. *)
Definition init (now : Q) : t :=
  {| base_speed := 50.0; base_latency := 30.0; last_update := now |}.

(** [def _get_raw_network_info(self)]: the reading and the object after
    the call.  The three draws are, in the order of the calls,
    [random.uniform(-10, 10)], [random.uniform(-5, 5)] and
    [random.random()]. *)
Definition _get_raw_network_info (self : t) (current_time : Q)
           (speed_draw latency_draw connected_draw : Q)
  : gmap string value * t :=
  let speed_variation := speed_draw in
  let latency_variation := latency_draw in
  let slowdown := bool_decide (PyNum.int current_time mod 300 < 30)%Z in
  let speed_variation :=
    if slowdown then speed_variation - 30 else speed_variation in
  let latency_variation :=
    if slowdown then latency_variation + 50 else latency_variation in
  let speed := Qmax 0.1 (base_speed self + speed_variation) in
  let latency := Qmax 1.0 (base_latency self + latency_variation) in
  let connected := bool_decide (0.05 < connected_draw) in
  let speed := if connected then speed else 0.0 in
  let latency := if connected then latency else 1000.0 in
  let quality := Monitors._calculate_quality speed latency in
  ({[ "speed_mbps" := VFloat (round speed 1);
      "latency_ms" := VFloat (round latency 1);
      "quality" := VFloat (round quality 3);
      "connected" := VBool connected;
      "source" := VStr "simulation";
      "note" := VStr "Using simulated network data for demonstration";
      "simulation_params" :=
        VDict {[ "base_speed" := VFloat (base_speed self);
                 "base_latency" := VFloat (base_latency self) ]} ]},
   {| base_speed := base_speed self;
      base_latency := base_latency self;
      last_update := current_time |}).

End SimulatedNetworkMonitor.

(** [class SimulatedCarbonMonitor], with [_is_green_grid] of
    [CarbonMonitor]. *)
Module SimulatedCarbonMonitor.

(** [self.zone_intensities]. *)
Definition zone_intensities : gmap string Q :=
  {[ "IN" := 650; "US-CAL" := 250; "DE" := 350; "FR" := 50;
     "SE" := 30; "CN" := 700; "GB" := 200 ]}.

(** [def _is_green_grid(self, intensity, threshold=300.0)]. *)
Definition _is_green_grid (intensity threshold : Q) : bool :=
  bool_decide (intensity <= threshold).

(** [def _get_raw_carbon_info(self, zone)]; [current_time] is the value
    of [time.time()] and [draw] the one of [random.uniform(-0.1, 0.1)]. *)
Definition _get_raw_carbon_info (zone : string) (current_time draw : Q)
  : gmap string value :=
  let base_intensity := get zone_intensities zone 400 in
  let hour_of_day := PyNum.float_mod current_time 86400 / 3600 in
  let daily_variation :=
    0.3 * base_intensity * (1 - Qabs (hour_of_day - 14) / 14) in
  let daily_variation :=
    if bool_decide (hour_of_day < 4) || bool_decide (20 < hour_of_day)
    then daily_variation * -0.5
    else daily_variation in
  let random_variation := draw * base_intensity in
  let intensity := base_intensity + daily_variation + random_variation in
  let intensity := Qmax 10 intensity in
  let is_green := _is_green_grid intensity 300.0 in
  {[ "intensity" := VFloat (round intensity 1);
     "is_green" := VBool is_green;
     "zone" := VStr zone;
     "source" := VStr "simulation";
     "note" := VStr "Using simulated carbon data for demonstration";
     "simulation_params" :=
       VDict {[ "base_intensity" := VFloat base_intensity;
                "daily_variation" := VFloat (round daily_variation 1);
                "hour_of_day" := VFloat (round hour_of_day 1) ]} ]}.

End SimulatedCarbonMonitor.

(* ===================================================================== *)
(** ** The concrete monitor classes and monitors/factory.py               *)
(* ===================================================================== *)

Module MonitorFactory.

(** The concrete classes of the three monitor modules. *)
Inductive MonitorClass :=
| MacOSBatteryMonitor | LinuxBatteryMonitor | WindowsBatteryMonitor
| UniversalBatteryMonitor | SimulatedBatteryMonitor
| SpeedTestMonitor | PingMonitor | SimulatedNetworkMonitor
| ElectricityMapsMonitor | SimulatedCarbonMonitor.

(** The attributes [BaseMonitor] gives every instance: the fields set by
    [__init__] and the methods of the class. *)
Definition BaseMonitor_attributes : list string :=
  [ "name"; "last_update_time"; "cache_ttl"; "cache";
    "is_available"; "get_info"; "get_cached_info"; "refresh"; "set_cache_ttl" ].

Definition BatteryMonitor_attributes : list string :=
  BaseMonitor_attributes ++ [ "_get_raw_battery_info"; "_get_fallback_info" ].

Definition NetworkMonitor_attributes : list string :=
  BaseMonitor_attributes ++
  [ "_get_raw_network_info"; "_get_fallback_info"; "_calculate_quality" ].

Definition CarbonMonitor_attributes : list string :=
  BaseMonitor_attributes ++
  [ "_get_raw_carbon_info"; "_get_fallback_info"; "_is_green_grid" ].

(** The attribute names of an instance of each class, as [hasattr] sees
    them.  The names inherited from [object] and [ABC] ([__class__],
    [__str__], [_abc_impl], ...) are left out. *)
Definition attributes (c : MonitorClass) : list string :=
  match c with
  | MacOSBatteryMonitor | WindowsBatteryMonitor => BatteryMonitor_attributes
  | LinuxBatteryMonitor =>
      BatteryMonitor_attributes ++ [ "_read_from_sysfs"; "_read_from_proc_acpi" ]
  | UniversalBatteryMonitor =>
      BatteryMonitor_attributes ++
      [ "platform_monitors"; "current_monitor"; "_initialize_monitors" ]
  | SimulatedBatteryMonitor =>
      BatteryMonitor_attributes ++
      [ "percentage"; "is_charging"; "discharge_rate"; "charge_rate"; "last_update" ]
  | SpeedTestMonitor =>
      NetworkMonitor_attributes ++
      [ "speedtest_available"; "_check_speedtest_availability" ]
  | PingMonitor => NetworkMonitor_attributes ++ [ "ping_hosts"; "_ping_host" ]
  | SimulatedNetworkMonitor =>
      NetworkMonitor_attributes ++ [ "base_speed"; "base_latency"; "last_update" ]
  | ElectricityMapsMonitor => CarbonMonitor_attributes ++ [ "api_key"; "base_url" ]
  | SimulatedCarbonMonitor =>
      CarbonMonitor_attributes ++ [ "zone_intensities"; "last_update" ]
  end.

(** What the construction of the monitors consults on the host. *)
Record Host := mk_host {
  (** [platform.system()] *)
  platform_system : string;
  (** whether one of the battery paths of sysfs or /proc/acpi exists *)
  battery_path_exists : bool;
  (** the outcome of [import speedtest] *)
  import_speedtest : result unit;
  (** [os.getenv("ELECTRICITY_MAPS_API_KEY")] *)
  getenv_api_key : option string
}.

(** [is_available()] of the battery monitors that read one platform, and of
    the simulated one. *)
Definition platform_battery_available (c : MonitorClass) (host : Host) : bool :=
  match c with
  | MacOSBatteryMonitor => String.eqb (platform_system host) "Darwin"
  | LinuxBatteryMonitor =>
      String.eqb (platform_system host) "Linux" && battery_path_exists host
  | WindowsBatteryMonitor => String.eqb (platform_system host) "Windows"
  | _ => true
  end.

(** [self.platform_monitors] after [UniversalBatteryMonitor._initialize_monitors]. *)
Definition platform_monitors (host : Host) : list MonitorClass :=
  (if String.eqb (platform_system host) "Darwin" then [ MacOSBatteryMonitor ]
   else if String.eqb (platform_system host) "Linux" then [ LinuxBatteryMonitor ]
   else if String.eqb (platform_system host) "Windows" then [ WindowsBatteryMonitor ]
   else [])
  ++ [ SimulatedBatteryMonitor ].

(** [is_available()] of a battery monitor; the universal one asks its
    platform monitors in turn. *)
Definition battery_is_available (c : MonitorClass) (host : Host) : bool :=
  match c with
  | UniversalBatteryMonitor =>
      existsb (fun m => platform_battery_available m host) (platform_monitors host)
  | _ => platform_battery_available c host
  end.

(** [def create_battery_monitor(use_universal, use_simulation)];
    [system] is [platform.system()]. *)
Definition create_battery_monitor (use_universal use_simulation : bool)
           (system : string) : MonitorClass :=
  if use_simulation then SimulatedBatteryMonitor
  else if use_universal then UniversalBatteryMonitor
  else if String.eqb system "Darwin" then MacOSBatteryMonitor
  else if String.eqb system "Linux" then LinuxBatteryMonitor
  else if String.eqb system "Windows" then WindowsBatteryMonitor
  else SimulatedBatteryMonitor.

(** [SpeedTestMonitor()] followed by [monitor.is_available()]:
    [import_speedtest] is the outcome of [import speedtest], of which the
    constructor catches [ImportError] only. *)
Definition SpeedTestMonitor_is_available (import_speedtest : result unit)
  : result bool :=
  try_except (_ ← import_speedtest; Ok true) [ ImportError ] (fun e => Ok false).

(** [def create_network_monitor(use_speedtest, fallback_to_ping, use_simulation)]. *)
Definition create_network_monitor
           (use_speedtest fallback_to_ping use_simulation : bool)
           (import_speedtest : result unit) : MonitorClass :=
  if use_simulation then SimulatedNetworkMonitor
  else
    let after_speedtest :=
      if fallback_to_ping then PingMonitor else SimulatedNetworkMonitor in
    if use_speedtest then
      match SpeedTestMonitor_is_available import_speedtest with
      | Ok true => SpeedTestMonitor
      | Ok false => after_speedtest
      | Raise e => after_speedtest
      end
    else after_speedtest.

(** Truth value of an [Optional[str]]. *)
Definition truthy (s : option string) : bool :=
  match s with
  | Some s => negb (String.eqb s "")
  | None => false
  end.

(** [def create_carbon_monitor(api_key, use_simulation_if_no_key, zone,
    use_simulation)].  Inside [if api_key:] the monitor keeps the key it is
    given, so its [is_available()] holds. *)
Definition create_carbon_monitor (api_key : option string)
           (use_simulation_if_no_key : bool) (zone : string)
           (use_simulation : bool) : result MonitorClass :=
  if use_simulation then Ok SimulatedCarbonMonitor
  else if truthy api_key then Ok ElectricityMapsMonitor
  else if use_simulation_if_no_key then Ok SimulatedCarbonMonitor
  else Raise ValueError.

(** The dictionary that [create_all_monitors] is given, for values of the
    types that the code reads them at.  A key that is absent is [None];
    a section that is absent reads as the empty dictionary, all of whose
    keys are absent. *)
Record AllConfig := mk_all_config {
  (** [config.get("api_keys", {}).get("electricity_maps")] *)
  api_keys_electricity_maps : option string;
  battery_enabled : option bool;
  battery_use_universal : option bool;
  battery_use_simulation : option bool;
  network_enabled : option bool;
  network_use_speedtest : option bool;
  network_fallback_to_ping : option bool;
  network_use_simulation : option bool;
  carbon_enabled : option bool;
  carbon_zone : option string;
  carbon_use_simulation : option bool
}.

(** [def create_all_monitors(config)]: the class of the monitor stored
    under each key, or the exception of [create_carbon_monitor]. *)
Definition create_all_monitors (config : AllConfig) (host : Host)
  : result (gmap string MonitorClass) :=
  let monitors : gmap string MonitorClass := ∅ in
  let api_key := api_keys_electricity_maps config in
  let api_key := if negb (truthy api_key) then getenv_api_key host else api_key in
  let monitors :=
    if default true (battery_enabled config) then
      <["battery" :=
          create_battery_monitor (default true (battery_use_universal config))
                                 (default false (battery_use_simulation config))
                                 (platform_system host)]> monitors
    else monitors in
  let monitors :=
    if default true (network_enabled config) then
      <["network" :=
          create_network_monitor (default true (network_use_speedtest config))
                                 (default true (network_fallback_to_ping config))
                                 (default false (network_use_simulation config))
                                 (import_speedtest host)]> monitors
    else monitors in
  if default true (carbon_enabled config) then
    let zone := default "IN" (carbon_zone config) in
    monitor ← create_carbon_monitor
                api_key
                (default true (carbon_use_simulation config))
                zone
                (default false (carbon_use_simulation config));
    Ok (<["carbon" := monitor]> monitors)
  else Ok monitors.

End MonitorFactory.

(* ===================================================================== *)
(** ** orchestrator/decision_engine.py                                    *)
(* ===================================================================== *)

Module DynamicGreenOrchestrator.

(** What an attribute of a monitor object is to [make_decision], which
    expects floats: a method that returns a float when called now, a field
    that holds a float, or anything else. *)
Inductive attribute :=
| FloatMethod (returns : Q)
| FloatField (holds : Q)
| Other.

(** [hasattr(obj, name)]. *)
Definition hasattr (obj : gmap string attribute) (name : string) : bool :=
  bool_decide (is_Some (obj !! name)).

(** [obj.name()].  A value that is not a float makes the arithmetic of the
    scoring raise [TypeError]; nothing is observable in between, so the
    error is raised here. *)
Definition call (obj : gmap string attribute) (name : string) : result Q :=
  match obj !! name with
  | Some (FloatMethod q) => Ok q
  | Some (FloatField _) | Some Other => Raise TypeError
  | None => Raise AttributeError
  end.

(** [obj.name]. *)
Definition getattr (obj : gmap string attribute) (name : string) : result Q :=
  match obj !! name with
  | Some (FloatField q) => Ok q
  | Some (FloatMethod _) | Some Other => Raise TypeError
  | None => Raise AttributeError
  end.

(** An object is an instance of a monitor class when it has the attributes
    of that class, whatever their current values. *)
Definition instance_of (obj : gmap string attribute)
           (c : MonitorFactory.MonitorClass) : Prop :=
  dom obj = list_to_set (MonitorFactory.attributes c).

(** The state of an orchestrator object. *)
Record t := mk {
  config : OrchestratorConfig.t;
  platform_info : gmap string string;
  monitors : gmap string (gmap string attribute);
  decision_history : list Decision.t
}.

(** [def _initialize_monitors(self)]: the class of the monitor stored under
    each key.  Of the factory functions only [create_carbon_monitor] can
    raise. *)
Definition _initialize_monitors (config : OrchestratorConfig.t)
           (host : MonitorFactory.Host)
  : result (gmap string MonitorFactory.MonitorClass) :=
  let system := MonitorFactory.platform_system host in
  let battery :=
    if OrchestratorConfig.use_real_battery config then
      let monitor := MonitorFactory.create_battery_monitor true false system in
      if negb (MonitorFactory.battery_is_available monitor host)
      then MonitorFactory.create_battery_monitor true false system
      else monitor
    else MonitorFactory.create_battery_monitor false false system in
  let network :=
    if OrchestratorConfig.use_real_network config then
      MonitorFactory.create_network_monitor
        true true false (MonitorFactory.import_speedtest host)
    else
      MonitorFactory.create_network_monitor
        false false false (MonitorFactory.import_speedtest host) in
  carbon ←
    (if OrchestratorConfig.use_real_carbon config then
       let api_key := MonitorFactory.getenv_api_key host in
       try_except_Exception
         (MonitorFactory.create_carbon_monitor
            api_key true (OrchestratorConfig.carbon_zone config) false)
         (fun e => MonitorFactory.create_carbon_monitor None true "IN" false)
     else MonitorFactory.create_carbon_monitor None true "IN" false);
  Ok ({[ "battery" := battery; "network" := network; "carbon" := carbon ]}
      : gmap string MonitorFactory.MonitorClass).

(** One of the three blocks that open [make_decision] (battery, network,
    carbon), which differ only in the three names probed.  A monitor
    object is true in a condition. *)
Definition read_status (monitor : option (gmap string attribute))
           (method read field : string) : result Q :=
  match monitor with
  | Some m =>
      if hasattr m method then call m method
      else if hasattr m read then call m read
      else if hasattr m field then getattr m field
      else Ok 0.5
  | None => Ok 0.5
  end.

(** The [if]/[elif] chain of [make_decision] that determines the
    execution mode and its explanation. *)
Definition determine_mode (config : OrchestratorConfig.t)
           (battery_status network_status score : Q) : ExecutionMode * string :=
  if decide (battery_status < OrchestratorConfig.hard_edge_battery config)
  then (CLOUD_ONLY, "Battery too low for edge processing")
  else if bool_decide (OrchestratorConfig.hard_cloud_battery config < battery_status)
          && bool_decide (0.7 < network_status)
  then (EDGE_ONLY, "High battery and good network for edge processing")
  else if decide (OrchestratorConfig.threshold config < score)
  then (HYBRID, "Good conditions for hybrid processing")
  else (DEFERRED, "Poor conditions, defer processing").

(** [self.decision_history.append(decision)] and the limit on its size. *)
Definition append_history (self : t) (decision : Decision.t) : t :=
  let history := decision_history self ++ [decision] in
  let size := OrchestratorConfig.decision_history_size (config self) in
  let history :=
    if (size <? Z.of_nat (length history))%Z
    then slice_from history (- size)
    else history in
  {| config := config self;
     platform_info := platform_info self;
     monitors := monitors self;
     decision_history := history |}.

(** [def make_decision(self)]: the decision returned and the object after
    the call; [now] is the value of [time.time()] during the call. *)
Definition make_decision (self : t) (now : Q) : result (Decision.t * t) :=
  battery_status ←
    read_status (monitors self !! "battery") "get_level" "read" "battery_level";
  network_status ←
    read_status (monitors self !! "network") "get_speed" "read" "network_quality";
  carbon_status ←
    read_status (monitors self !! "carbon")
                "get_carbon_intensity" "read" "carbon_intensity";
  let monitor_values : gmap string Q :=
    {[ "battery" := battery_status;
       "network" := network_status;
       "carbon" := carbon_status ]} in
  let score :=
    Scoring.calculate_sustainability_score
      monitor_values (OrchestratorConfig.weights (config self)) in
  let context :=
    SystemContext.mk battery_status network_status carbon_status
                     (get (platform_info self) "system" "unknown") now ∅ in
  confidence ← Scoring.calculate_confidence score context;
  let tradeoffs :=
    Scoring.analyze_tradeoffs battery_status network_status carbon_status in
  let mode_and_explanation :=
    determine_mode (config self) battery_status network_status score in
  let recommended_mode := fst mode_and_explanation in
  let explanation := snd mode_and_explanation in
  let decision :=
    Decision.mk score confidence battery_status network_status carbon_status
                now recommended_mode explanation tradeoffs in
  Ok (decision, append_history self decision).

(** The monitor objects change between calls: a call is given by the
    state of the monitors when it is made and by its time. *)
Definition with_monitors (self : t)
           (ms : gmap string (gmap string attribute)) : t :=
  {| config := config self;
     platform_info := platform_info self;
     monitors := ms;
     decision_history := decision_history self |}.

(** A sequence of calls of [make_decision]: the decisions returned, in
    order, and the final object. *)
Fixpoint make_decisions (self : t)
         (calls : list (gmap string (gmap string attribute) * Q))
  : result (list Decision.t * t) :=
  match calls with
  | [] => Ok ([], self)
  | (ms, now) :: rest =>
      '(d, self) ← make_decision (with_monitors self ms) now;
      '(ds, self) ← make_decisions self rest;
      Ok (d :: ds, self)
  end.

(** A value of the dictionary returned by [get_statistics]. *)
Inductive statistic :=
| SInt (n : nat)
| SFloat (q : Q)
| SReal (r : R)
| SCounts (d : gmap string nat).

(** [sum(confidences)]. *)
Definition sum_reals (xs : list R) : R := fold_left Rplus xs 0%R.

(** [def get_statistics(self)]. *)
Definition get_statistics (self : t) : gmap string statistic :=
  match decision_history self with
  | [] => ∅
  | d0 :: ds =>
      let scores := Decision.score <$> decision_history self in
      let confidences := Decision.confidence <$> decision_history self in
      {[ "total_decisions" := SInt (length (decision_history self));
         "average_score" :=
           SFloat (sum_floats scores / inject_Z (Z.of_nat (length scores)));
         "average_confidence" :=
           SReal (sum_reals confidences / INR (length confidences));
         "min_score" := SFloat (min_list (Decision.score d0) (Decision.score <$> ds));
         "max_score" := SFloat (max_list (Decision.score d0) (Decision.score <$> ds));
         "mode_distribution" :=
           SCounts
             (list_to_map
                ((fun mode =>
                    (ExecutionMode.value mode,
                     length (filter (fun d => Decision.recommended_mode d = mode)
                                    (decision_history self))))
                   <$> ExecutionMode.members)) ]}
  end.

(** The loop [for key, value in orch_config["weights"].items()] of
    [_create_config_from_data]: a key that [config.weights] has takes the
    value of the file. *)
Definition load_weights (file_weights weights : gmap string Q) : gmap string Q :=
  map_fold (fun key value weights =>
              if bool_decide (is_Some (weights !! key))
              then <[key := value]> weights
              else weights)
           weights file_weights.

(** [def _create_config_from_data(self)], field by field: every field is
    assigned on its own, starting from [OrchestratorConfig()].
    [config_data] is [self.config_data], [None] when no file was loaded. *)
Definition _create_config_from_data (config_data : option ConfigData.t)
  : OrchestratorConfig.t :=
  let config := OrchestratorConfig.default in
  let orch_config := config_data ≫= ConfigData.orchestrator in
  let monitors_config := config_data ≫= ConfigData.monitors in
  let log_config := config_data ≫= ConfigData.logging in
  {| OrchestratorConfig.weights :=
       match orch_config ≫= ConfigData.weights with
       | Some file_weights =>
           load_weights file_weights (OrchestratorConfig.weights config)
       | None => OrchestratorConfig.weights config
       end;
     OrchestratorConfig.threshold :=
       default (OrchestratorConfig.threshold config)
               (orch_config ≫= ConfigData.threshold);
     OrchestratorConfig.hard_edge_battery :=
       default (OrchestratorConfig.hard_edge_battery config)
               (orch_config ≫= ConfigData.hard_edge_battery);
     OrchestratorConfig.hard_cloud_battery :=
       default (OrchestratorConfig.hard_cloud_battery config)
               (orch_config ≫= ConfigData.hard_cloud_battery);
     OrchestratorConfig.use_real_battery :=
       match monitors_config ≫= ConfigData.battery with
       | Some section => default true (ConfigData.enabled section)
       | None => OrchestratorConfig.use_real_battery config
       end;
     OrchestratorConfig.use_real_network :=
       match monitors_config ≫= ConfigData.network with
       | Some section => default true (ConfigData.enabled section)
       | None => OrchestratorConfig.use_real_network config
       end;
     OrchestratorConfig.use_real_carbon :=
       match monitors_config ≫= ConfigData.carbon with
       | Some section => default true (ConfigData.enabled section)
       | None => OrchestratorConfig.use_real_carbon config
       end;
     OrchestratorConfig.carbon_zone :=
       match monitors_config ≫= ConfigData.carbon with
       | Some section => default "IN" (ConfigData.zone section)
       | None => OrchestratorConfig.carbon_zone config
       end;
     OrchestratorConfig.log_level :=
       match log_config with
       | Some section => default "INFO" (ConfigData.level section)
       | None => OrchestratorConfig.log_level config
       end;
     OrchestratorConfig.log_file :=
       default (OrchestratorConfig.log_file config)
               (log_config ≫= ConfigData.file);
     OrchestratorConfig.version := OrchestratorConfig.version config;
     OrchestratorConfig.decision_history_size :=
       OrchestratorConfig.decision_history_size config |}.

(** [def get_recent_decisions(self, count)]. *)
Definition get_recent_decisions (self : t) (count : Z) : list Decision.t :=
  match decision_history self with
  | [] => []
  | _ :: _ => slice_from (decision_history self) (- count)
  end.

End DynamicGreenOrchestrator.

(* ===================================================================== *)
(** ** The checks of the configuration, in binary64                       *)
(* ===================================================================== *)

(** The checks of the weights add floats and compare the sum with a
    tolerance of 0.001, so their outcome depends on the rounding of every
    addition and on the order of the additions.  They are modelled here
    on Python's floats themselves, the binary64 numbers of IEEE 754 with
    their infinities and NaN ([PrimFloat.float]; a decimal constant is
    rounded to the nearest float, as Python does), and on dictionaries in
    the order of their keys. *)
Module Float64.

Import PrimFloat.

#[local] Set Warnings "-inexact-float".

(** [sum(values)]: the values are added from left to right, starting from
    the integer 0 (Python 3.8 to 3.11, the versions that [setup.py]
    names). *)
Definition sum (values : list float) : float := fold_left add values 0%float.

(** A [Dict[str, float]]: its items in the order of insertion, no key
    twice. *)
Abbreviation dict := (list (string * float)) (only parsing).

(** [d.keys()] and [d.values()]. *)
Definition keys (d : dict) : list string := d.*1.
Definition values (d : dict) : list float := d.*2.

(** [key in d]. *)
Definition contains (d : dict) (key : string) : bool :=
  bool_decide (key ∈ keys d).

(** [d[key] = value]: a key that [d] has keeps its place; a new key goes
    to the end. *)
Fixpoint setitem (d : dict) (key : string) (value : float) : dict :=
  match d with
  | [] => [(key, value)]
  | (k, v) :: rest =>
      if decide (k = key) then (k, value) :: rest
      else (k, v) :: setitem rest key value
  end.

(** [d.get(key, default)]. *)
Fixpoint get (d : dict) (key : string) (default : float) : float :=
  match d with
  | [] => default
  | (k, v) :: rest => if decide (k = key) then v else get rest key default
  end.


(** [@dataclass class OrchestratorConfig] with its two methods. *)
Module OrchestratorConfig.

Record t := mk {
  weights : dict;
  threshold : float;
  hard_edge_battery : float;
  hard_cloud_battery : float;
  use_real_battery : bool;
  use_real_network : bool;
  use_real_carbon : bool;
  carbon_zone : string;
  log_level : string;
  log_file : option string;
  version : string;
  decision_history_size : Z
}.

(** The field defaults: [OrchestratorConfig()]. *)
Definition default_weights : dict :=
  [ ("battery", 0.4%float); ("network", 0.3%float); ("carbon", 0.3%float) ].

Definition default : t := {|
  weights := default_weights;
  threshold := 0.5%float;
  hard_edge_battery := 0.2%float;
  hard_cloud_battery := 0.8%float;
  use_real_battery := true;
  use_real_network := true;
  use_real_carbon := true;
  carbon_zone := "IN";
  log_level := "INFO";
  log_file := None;
  version := "1.0.0";
  decision_history_size := 1000
|}.

(** [self.weights = w]. *)
Definition set_weights (self : t) (w : dict) : t := {|
  weights := w;
  threshold := threshold self;
  hard_edge_battery := hard_edge_battery self;
  hard_cloud_battery := hard_cloud_battery self;
  use_real_battery := use_real_battery self;
  use_real_network := use_real_network self;
  use_real_carbon := use_real_carbon self;
  carbon_zone := carbon_zone self;
  log_level := log_level self;
  log_file := log_file self;
  version := version self;
  decision_history_size := decision_history_size self
|}.

(** [def validate(self)]: returns [None] or raises [ValueError]. *)
Definition validate (self : t) : result unit :=
  if negb ((0 <=? threshold self)%float && (threshold self <=? 1)%float)
  then Raise ValueError
  else
    let total_weight := sum (values (weights self)) in
    if (0.001 <? abs (total_weight - 1.0))%float
    then Raise ValueError
    else match weights self with
         | [] => Raise ValueError
         | _ :: _ => Ok tt
         end.


End OrchestratorConfig.

(** The dictionary that [load_config] returns, as [ConfigData] has it,
    with the numbers of its [orchestrator] section as floats and its
    weights in the order of the file. *)
Module ConfigData.

Record orchestrator_section := mk_orchestrator {
  weights : option dict;
  threshold : option float;
  hard_edge_battery : option float;
  hard_cloud_battery : option float
}.

Record t := mk {
  orchestrator : option orchestrator_section;
  monitors : option ConfigData.monitors_section;
  logging : option ConfigData.logging_section
}.

End ConfigData.

(** The messages that [validate_config] collects, by what they report:
    [f"Missing required section: {section}"], [f"Missing weight: {weight}"]
    and [f"Weights must sum to 1.0, got {total}"]. *)
Inductive error :=
| MissingSection (section : string)
| MissingWeight (weight : string)
| WeightSum (total : float).

(** [def validate_config(config_data)] of [utils/validation.py]. *)
Definition validate_config (config_data : ConfigData.t) : bool * list error :=
  let errors : list error := [] in
  let errors :=
    errors
    ++ (if bool_decide (is_Some (ConfigData.orchestrator config_data)) then []
        else [MissingSection "orchestrator"])
    ++ (if bool_decide (is_Some (ConfigData.monitors config_data)) then []
        else [MissingSection "monitors"]) in
  let errors :=
    match ConfigData.orchestrator config_data with
    | Some orch =>
        match ConfigData.weights orch with
        | Some weights =>
            let errors :=
              errors
              ++ flat_map (fun weight =>
                             if contains weights weight
                             then [] else [MissingWeight weight])
                          [ "battery"; "network"; "carbon" ] in
            let total := sum (values weights) in
            if (0.001 <? abs (total - 1.0))%float
            then errors ++ [WeightSum total]
            else errors
        | None => errors
        end
    | None => errors
    end in
  (Nat.eqb (length errors) 0, errors).

(** The loop [for key, value in orch_config["weights"].items()] of
    [_create_config_from_data]: a key that [config.weights] has takes the
    value of the file, in its place in [config.weights]. *)
Definition load_weights (file_weights weights : dict) : dict :=
  fold_left (fun weights item =>
               if contains weights item.1
               then setitem weights item.1 item.2
               else weights)
            file_weights weights.

(** [def _create_config_from_data(self)] of [DynamicGreenOrchestrator],
    field by field, starting from [OrchestratorConfig()]. *)
Definition _create_config_from_data (config_data : option ConfigData.t)
  : OrchestratorConfig.t :=
  let config := OrchestratorConfig.default in
  let orch_config := config_data ≫= ConfigData.orchestrator in
  let monitors_config := config_data ≫= ConfigData.monitors in
  let log_config := config_data ≫= ConfigData.logging in
  {| OrchestratorConfig.weights :=
       match orch_config ≫= ConfigData.weights with
       | Some file_weights =>
           load_weights file_weights (OrchestratorConfig.weights config)
       | None => OrchestratorConfig.weights config
       end;
     OrchestratorConfig.threshold :=
       default (OrchestratorConfig.threshold config)
               (orch_config ≫= ConfigData.threshold);
     OrchestratorConfig.hard_edge_battery :=
       default (OrchestratorConfig.hard_edge_battery config)
               (orch_config ≫= ConfigData.hard_edge_battery);
     OrchestratorConfig.hard_cloud_battery :=
       default (OrchestratorConfig.hard_cloud_battery config)
               (orch_config ≫= ConfigData.hard_cloud_battery);
     OrchestratorConfig.use_real_battery :=
       match monitors_config ≫= ConfigData.battery with
       | Some section => default true (ConfigData.enabled section)
       | None => OrchestratorConfig.use_real_battery config
       end;
     OrchestratorConfig.use_real_network :=
       match monitors_config ≫= ConfigData.network with
       | Some section => default true (ConfigData.enabled section)
       | None => OrchestratorConfig.use_real_network config
       end;
     OrchestratorConfig.use_real_carbon :=
       match monitors_config ≫= ConfigData.carbon with
       | Some section => default true (ConfigData.enabled section)
       | None => OrchestratorConfig.use_real_carbon config
       end;
     OrchestratorConfig.carbon_zone :=
       match monitors_config ≫= ConfigData.carbon with
       | Some section => default "IN" (ConfigData.zone section)
       | None => OrchestratorConfig.carbon_zone config
       end;
     OrchestratorConfig.log_level :=
       match log_config with
       | Some section => default "INFO" (ConfigData.level section)
       | None => OrchestratorConfig.log_level config
       end;
     OrchestratorConfig.log_file :=
       default (OrchestratorConfig.log_file config)
               (log_config ≫= ConfigData.file);
     OrchestratorConfig.version := OrchestratorConfig.version config;
     OrchestratorConfig.decision_history_size :=
       OrchestratorConfig.decision_history_size config |}.

End Float64.

(* ===================================================================== *)
(** ** The specification's own formulations                               *)
(* ===================================================================== *)

Module Spec.

(** Clamping to the interval [[0,1]]. *)
Definition clamp01 (x : Q) : Q :=
  if decide (x < 0) then 0 else if decide (1 < x) then 1 else x.

(** The value of a signal, [0.5] when the mapping has none. *)
Definition signal (monitor_values : gmap string Q) (name : string) : Q :=
  match monitor_values !! name with
  | Some v => v
  | None => 0.5
  end.

(** The weight of a signal, with the defaults battery 0.4, network 0.3
    and carbon 0.3 for a missing key. *)
Definition weight (weights : gmap string Q) (name : string) : Q :=
  match weights !! name with
  | Some w => w
  | None => if String.eqb name "battery" then 0.4 else 0.3
  end.

(** The score of the specification:
    battery·w_battery + network·w_network + (1−carbon)·w_carbon, clamped. *)
Definition score (monitor_values weights : gmap string Q) : Q :=
  clamp01 (signal monitor_values "battery" * weight weights "battery"
           + signal monitor_values "network" * weight weights "network"
           + (1 - signal monitor_values "carbon") * weight weights "carbon").

(** Weights none of which is negative. *)
Definition nonnegative (weights : gmap string Q) : Prop :=
  forall k w, weights !! k = Some w -> 0 <= w.

(** A value of the interval [[0,1]]. *)
Definition in_unit (x : Q) : Prop := 0 <= x /\ x <= 1.

(** A reading of a magnitude that the arithmetic of the scoring does not
    take out of the range of binary64. *)
Definition far_from_overflow (x : Q) : Prop := Qabs x <= 10 ^ 300.

(** A reading passes the range check of [validate_monitor_data] when it
    is NaN or a finite number between 0 and 1. *)
Definition accepted_reading (value : Validation.reading) : Prop :=
  value = Validation.NaN
  \/ exists q, value = Validation.Finite q /\ in_unit q.

(** The last [n] elements of a list. *)
Definition last_n {A} (n : nat) (xs : list A) : list A :=
  drop (length xs - n) xs.

(** Monitors from which [make_decision] reads three signals in [[0,1]]. *)
Definition readable (ms : gmap string (gmap string DynamicGreenOrchestrator.attribute))
  : Prop :=
  exists b n c,
    DynamicGreenOrchestrator.read_status
      (ms !! "battery") "get_level" "read" "battery_level" = Ok b /\
    DynamicGreenOrchestrator.read_status
      (ms !! "network") "get_speed" "read" "network_quality" = Ok n /\
    DynamicGreenOrchestrator.read_status
      (ms !! "carbon") "get_carbon_intensity" "read" "carbon_intensity" = Ok c /\
    in_unit b /\ in_unit n /\ in_unit c.

(** The number of decisions of a history that recommend [mode]. *)
Fixpoint count_mode (mode : ExecutionMode) (history : list Decision.t) : nat :=
  match history with
  | [] => 0
  | d :: rest =>
      (if decide (Decision.recommended_mode d = mode) then 1 else 0)
      + count_mode mode rest
  end.

End Spec.

(* ===================================================================== *)
(** ** Concrete orchestrators, used to instantiate the properties         *)
(* ===================================================================== *)

Module Examples.

Import DynamicGreenOrchestrator.

(** A monitor object with one method, which returns [x]. *)
Definition reporting (method : string) (x : Q) : gmap string attribute :=
  {[ method := FloatMethod x ]}.

(** An orchestrator with an empty history whose three monitors report
    [b], [n] and [c] through the first name that [make_decision] probes. *)
Definition orchestrator (config : OrchestratorConfig.t) (b n c : Q) : t :=
  {| config := config;
     platform_info := {[ "system" := "Linux" ]};
     monitors := {[ "battery" := reporting "get_level" b;
                    "network" := reporting "get_speed" n;
                    "carbon" := reporting "get_carbon_intensity" c ]};
     decision_history := [] |}.

(** An instance of a monitor class: none of its attributes is a float or
    a method returning one. *)
Definition instance (c : MonitorFactory.MonitorClass) : gmap string attribute :=
  list_to_map ((fun name => (name, Other)) <$> MonitorFactory.attributes c).

(** A Linux host with a battery, without speedtest-cli and without an API
    key. *)
Definition linux_host : MonitorFactory.Host :=
  MonitorFactory.mk_host "Linux" true (Raise ImportError) None.

(** The orchestrator that [__init__] builds on a host under the default
    configuration: its monitors are the ones of [_initialize_monitors] and
    its history is empty. *)
Definition factory_orchestrator (host : MonitorFactory.Host) : t :=
  {| config := OrchestratorConfig.default;
     platform_info := {[ "system" := MonitorFactory.platform_system host ]};
     monitors :=
       match _initialize_monitors OrchestratorConfig.default host with
       | Ok classes => instance <$> classes
       | Raise _ => ∅
       end;
     decision_history := [] |}.

(** The default configuration with a history of at most two decisions. *)
Definition small_history_config : OrchestratorConfig.t :=
  OrchestratorConfig.mk OrchestratorConfig.default_weights 0.5 0.2 0.8
                        true true true "IN" "INFO" None "1.0.0" 2.

(** An orchestrator whose history holds one decision. *)
Definition one_decision_orchestrator : t :=
  {| config := OrchestratorConfig.default;
     platform_info := {[ "system" := "Linux" ]};
     monitors := ∅;
     decision_history :=
       [ Decision.mk 0.5 1 0.5 0.5 0.5 0 DEFERRED
                     "Poor conditions, defer processing" ∅ ] |}.

End Examples.

(* ===================================================================== *)
(** * Properties                                                          *)
(* ===================================================================== *)

(** Reduce the sequencing of [result] computations in the goal. *)
Ltac run_bind := cbn [mbind result_bind bind].

(** ** Scoring *)

Section ScoringProperties.

Import Scoring.

Lemma Qmax_Qmin_bounds (x : Q) :
  0 <= Qmax 0.0 (Qmin 1.0 x) /\ Qmax 0.0 (Qmin 1.0 x) <= 1.
Proof.
  split.
  - pose proof (Q.le_max_l 0.0 (Qmin 1.0 x)). lra.
  - apply Q.max_lub; [lra |].
    pose proof (Q.le_min_l 1.0 x). lra.
Qed.

Lemma Qmax_Qmin_clamp (x : Q) : Qmax 0.0 (Qmin 1.0 x) == Spec.clamp01 x.
Proof.
  unfold Spec.clamp01.
  destruct (decide (x < 0)) as [Hneg | Hnn].
  - rewrite (Q.min_r 1.0 x) by lra. rewrite Q.max_l by lra. lra.
  - destruct (decide (1 < x)) as [Hbig | Hsmall].
    + rewrite (Q.min_l 1.0 x) by lra. rewrite Q.max_r by lra. lra.
    + rewrite (Q.min_r 1.0 x) by lra. apply Q.max_r. lra.
Qed.

Lemma clamp01_compat (x y : Q) : x == y -> Spec.clamp01 x == Spec.clamp01 y.
Proof.
  intros Hxy. unfold Spec.clamp01.
  destruct (decide (x < 0)), (decide (y < 0)); try lra;
    destruct (decide (1 < x)), (decide (1 < y)); lra.
Qed.

Lemma Qmax_Qmin_mono (x y : Q) :
  x <= y -> Qmax 0.0 (Qmin 1.0 x) <= Qmax 0.0 (Qmin 1.0 y).
Proof.
  intros Hxy.
  apply Q.max_le_compat_l. apply Q.min_le_compat_l. exact Hxy.
Qed.

Lemma get_signal (m : gmap string Q) (k : string) : get m k 0.5 = Spec.signal m k.
Proof. unfold get, Spec.signal. destruct (m !! k); reflexivity. Qed.

Lemma get_weight_battery (w : gmap string Q) : get w "battery" 0.4 = Spec.weight w "battery".
Proof. unfold get, Spec.weight. destruct (w !! "battery"); reflexivity. Qed.

Lemma get_weight_network (w : gmap string Q) : get w "network" 0.3 = Spec.weight w "network".
Proof. unfold get, Spec.weight. destruct (w !! "network"); reflexivity. Qed.

Lemma get_weight_carbon (w : gmap string Q) : get w "carbon" 0.3 = Spec.weight w "carbon".
Proof. unfold get, Spec.weight. destruct (w !! "carbon"); reflexivity. Qed.

Lemma weight_nonnegative (w : gmap string Q) (k : string) :
  Spec.nonnegative w -> 0 <= Spec.weight w k.
Proof.
  intros Hw. unfold Spec.weight.
  destruct (w !! k) as [x|] eqn:E.
  - exact (Hw k x E).
  - destruct (String.eqb k "battery"); lra.
Qed.

Lemma score_in_unit (monitor_values weights : gmap string Q) :
  Spec.in_unit (calculate_sustainability_score monitor_values weights).
Proof. unfold calculate_sustainability_score. apply Qmax_Qmin_bounds. Qed.

(** C3.  [calculate_sustainability_score] is the weighted sum
    battery·w_battery + network·w_network + (1−carbon)·w_carbon clamped to
    [[0,1]], a missing signal counting 0.5 and a missing weight 0.4, 0.3 or
    0.3; and its result lies in [[0,1]], for every mapping of values and of
    weights (so in particular for non-negative weights that sum to 1 within
    0.001 and signals in [[0,1]]). *)
Theorem calculate_sustainability_score_spec (monitor_values weights : gmap string Q) :
  calculate_sustainability_score monitor_values weights
    == Spec.score monitor_values weights
  /\ 0 <= calculate_sustainability_score monitor_values weights
  /\ calculate_sustainability_score monitor_values weights <= 1.
Proof.
  unfold calculate_sustainability_score, Spec.score.
  rewrite !get_signal, get_weight_battery, get_weight_network, get_weight_carbon.
  split.
  - rewrite Qmax_Qmin_clamp. apply clamp01_compat. lra.
  - apply Qmax_Qmin_bounds.
Qed.

Lemma get_insert_eq (m : gmap string Q) (k : string) (x d : Q) :
  get (<[k := x]> m) k d = x.
Proof. unfold get. rewrite lookup_insert_eq. reflexivity. Qed.

Lemma get_insert_ne (m : gmap string Q) (k k' : string) (x d : Q) :
  k <> k' -> get (<[k := x]> m) k' d = get m k' d.
Proof. intros Hne. unfold get. rewrite lookup_insert_ne by exact Hne. reflexivity. Qed.

Lemma default_weights_nonnegative : Spec.nonnegative OrchestratorConfig.default_weights.
Proof.
  change (map_Forall (fun (_ : string) (w : Q) => 0 <= w)
                     OrchestratorConfig.default_weights).
  apply (bool_decide_unpack _). vm_compute. exact I.
Qed.

(** C8.  With weights none of which is negative, the score does not
    decrease when battery or network grows and does not increase when
    carbon grows, the weights and the other entries of the mapping being
    the same.  (Neither the sum of the weights nor the range of the inputs
    is needed.) *)
Theorem calculate_sustainability_score_monotone
        (monitor_values weights : gmap string Q) (x y : Q) :
  Spec.nonnegative weights ->
  x <= y ->
  calculate_sustainability_score (<["battery" := x]> monitor_values) weights
    <= calculate_sustainability_score (<["battery" := y]> monitor_values) weights
  /\ calculate_sustainability_score (<["network" := x]> monitor_values) weights
     <= calculate_sustainability_score (<["network" := y]> monitor_values) weights
  /\ calculate_sustainability_score (<["carbon" := y]> monitor_values) weights
     <= calculate_sustainability_score (<["carbon" := x]> monitor_values) weights.
Proof.
  intros Hw Hxy.
  pose proof (weight_nonnegative weights "battery" Hw) as Hb.
  pose proof (weight_nonnegative weights "network" Hw) as Hn.
  pose proof (weight_nonnegative weights "carbon" Hw) as Hc.
  unfold calculate_sustainability_score.
  rewrite get_weight_battery, get_weight_network, get_weight_carbon.
  repeat split; apply Qmax_Qmin_mono.
  - rewrite !get_insert_eq, !get_insert_ne by discriminate.
    pose proof (Qmult_le_compat_r x y _ Hxy Hb). lra.
  - rewrite !get_insert_eq, !get_insert_ne by discriminate.
    pose proof (Qmult_le_compat_r x y _ Hxy Hn). lra.
  - rewrite !get_insert_eq, !get_insert_ne by discriminate.
    assert (H1 : 1.0 - y <= 1.0 - x) by lra.
    pose proof (Qmult_le_compat_r _ _ _ H1 Hc). lra.
Qed.

Lemma calculate_sustainability_score_monotone_witness :
  Spec.nonnegative OrchestratorConfig.default_weights
  /\ 0.2 <= 0.7
  /\ calculate_sustainability_score
       (<["battery" := 0.2]> {[ "network" := 0.5; "carbon" := 0.5 ]})
       OrchestratorConfig.default_weights
     <= calculate_sustainability_score
          (<["battery" := 0.7]> {[ "network" := 0.5; "carbon" := 0.5 ]})
          OrchestratorConfig.default_weights.
Proof.
  pose proof default_weights_nonnegative as Hw.
  assert (Hxy : 0.2 <= 0.7) by (vm_compute; discriminate).
  split; [exact Hw | split; [exact Hxy |]].
  exact (proj1 (calculate_sustainability_score_monotone
                  {[ "network" := 0.5; "carbon" := 0.5 ]}
                  OrchestratorConfig.default_weights 0.2 0.7 Hw Hxy)).
Defined.

(** The sub-confidence [1 - 2·|x - 0.5|] of a value of [[0,1]]. *)
Lemma sub_confidence_bounds (x : Q) :
  Spec.in_unit x ->
  0 <= 1.0 - Qabs (x - 0.5) * 2 /\ 1.0 - Qabs (x - 0.5) * 2 <= 1.
Proof.
  intros [H0 H1].
  pose proof (Qabs_nonneg (x - 0.5)) as Hnn.
  assert (Hle : Qabs (x - 0.5) <= 0.5).
  { apply Qabs_Qle_condition. lra. }
  lra.
Qed.

Lemma combined_confidence_bounds (score : Q) (context : SystemContext.t) :
  Spec.in_unit score ->
  Spec.in_unit (SystemContext.battery context) ->
  Spec.in_unit (SystemContext.network context) ->
  Spec.in_unit (SystemContext.carbon context) ->
  0 <= combined_confidence score context /\ combined_confidence score context <= 1.
Proof.
  intros Hs Hb [Hn0 Hn1] Hc.
  pose proof (sub_confidence_bounds _ Hs).
  pose proof (sub_confidence_bounds _ Hb).
  pose proof (sub_confidence_bounds _ Hc).
  unfold combined_confidence.
  split.
  - apply Qle_shift_div_l; lra.
  - apply Qle_shift_div_r; lra.
Qed.

Lemma Rmax_Rmin_bounds (x : R) : (0 <= Rmax 0 (Rmin 1 x) <= 1)%R.
Proof.
  split.
  - apply Rmax_l.
  - apply Rmax_lub; [Lra.lra | apply Rmin_l].
Qed.

Lemma calculate_confidence_value (score : Q) (context : SystemContext.t) :
  0 <= combined_confidence score context ->
  calculate_confidence score context
  = Ok (Rmax 0 (Rmin 1 (sqrt (Q2R (combined_confidence score context))))).
Proof.
  intros Hnn. unfold calculate_confidence.
  destruct (decide (combined_confidence score context < 0)) as [Hneg | _].
  - exfalso. lra.
  - reflexivity.
Qed.

(** The range of [calculate_confidence].  For a score and a context in
    [[0,1]] it returns a value of [[0,1]]; so it does at score 0.5,
    battery 0.5, network 0 and carbon 0.5, where the mean of the four
    sub-confidences (1, 1, 0 and 1) is 0.75 before the square root. *)
Theorem calculate_confidence_in_unit (score : Q) (context : SystemContext.t) :
  Spec.in_unit score ->
  Spec.in_unit (SystemContext.battery context) ->
  Spec.in_unit (SystemContext.network context) ->
  Spec.in_unit (SystemContext.carbon context) ->
  (exists r, calculate_confidence score context = Ok r /\ (0 <= r <= 1)%R)
  /\ (let point :=
        SystemContext.mk 0.5 0 0.5 (SystemContext.platform context)
                         (SystemContext.timestamp context)
                         (SystemContext.additional_data context) in
      combined_confidence 0.5 point == 0.75
      /\ exists r, calculate_confidence 0.5 point = Ok r
                   /\ r = sqrt (3 / 4) /\ (0 <= r <= 1)%R).
Proof.
  intros Hs Hb Hn Hc. split.
  - destruct (combined_confidence_bounds score context Hs Hb Hn Hc) as [H0 _].
    eexists. split; [apply calculate_confidence_value; exact H0 |].
    apply Rmax_Rmin_bounds.
  - cbv zeta.
    set (point := SystemContext.mk _ _ _ _ _ _).
    assert (Hmean : combined_confidence 0.5 point == 0.75) by (vm_compute; reflexivity).
    split; [exact Hmean |].
    assert (Hreal : Q2R (combined_confidence 0.5 point) = (3 / 4)%R).
    { rewrite (Qeq_eqR _ _ Hmean). unfold Q2R; simpl. Lra.lra. }
    assert (Hsqrt : (0 <= sqrt (3 / 4) <= 1)%R).
    { split; [apply sqrt_pos |].
      rewrite <- sqrt_1. apply sqrt_le_1_alt. Lra.lra. }
    exists (sqrt (3 / 4)). split; [| split; [reflexivity | exact Hsqrt]].
    rewrite calculate_confidence_value by (rewrite Hmean; lra).
    rewrite Hreal. f_equal.
    rewrite Rmin_right by Lra.lra. apply Rmax_right. Lra.lra.
Qed.

Lemma calculate_confidence_in_unit_witness :
  exists r,
    calculate_confidence 0.87 (SystemContext.mk 0.9 0.8 0.1 "Linux" 0 ∅) = Ok r
    /\ (0 <= r <= 1)%R.
Proof.
  refine (proj1 (calculate_confidence_in_unit
                   0.87 (SystemContext.mk 0.9 0.8 0.1 "Linux" 0 ∅) _ _ _ _));
    split; vm_compute; discriminate.
Defined.

(** C4.  The code at score 0.5, battery 0.5, network 0 and carbon 0.5:
    the sub-confidences of the score, the battery and the carbon are 1
    each, the mean of the four is 0.75 and not 0, and the value returned
    is the square root of 3/4.  Each sub-confidence [1 - 2|x - 0.5|] is
    highest in the middle and 0 at the extremes, where the comments of
    the function say that extreme values are the more certain ones. *)
Theorem calculate_confidence_at_midpoint :
  let point := SystemContext.mk 0.5 0 0.5 "Linux" 0 ∅ in
  1.0 - Qabs (0.5 - 0.5) * 2 == 1
  /\ combined_confidence 0.5 point == 0.75
  /\ ~ combined_confidence 0.5 point == 0
  /\ calculate_confidence 0.5 point = Ok (sqrt (3 / 4))
  /\ combined_confidence 1 (SystemContext.mk 1 0 1 "Linux" 0 ∅) == 0.
Proof.
  cbv zeta.
  set (point := SystemContext.mk _ _ _ _ _ _).
  assert (Hmean : combined_confidence 0.5 point == 0.75) by (vm_compute; reflexivity).
  split; [vm_compute; reflexivity |].
  split; [exact Hmean |].
  split; [rewrite Hmean; vm_compute; discriminate |].
  split; [| vm_compute; reflexivity].
  assert (Hreal : Q2R (combined_confidence 0.5 point) = (3 / 4)%R).
  { rewrite (Qeq_eqR _ _ Hmean). unfold Q2R; simpl. Lra.lra. }
  assert (Hsqrt : (0 <= sqrt (3 / 4) <= 1)%R).
  { split; [apply sqrt_pos |].
    rewrite <- sqrt_1. apply sqrt_le_1_alt. Lra.lra. }
  rewrite calculate_confidence_value by (rewrite Hmean; lra).
  rewrite Hreal. f_equal.
  rewrite Rmin_right by Lra.lra. apply Rmax_right. Lra.lra.
Qed.

End ScoringProperties.

(** ** Configuration checks *)

Section ConfigProperties.

Import PrimFloat.
Import Float64.OrchestratorConfig.

#[local] Set Warnings "-inexact-float".










End ConfigProperties.

(** ** Monitors *)

Section MonitorProperties.

Import Monitors.

(** No call of [_ping_host] returns: either [subprocess.run] raises, or
    the name [re] is looked up and is unbound. *)
Lemma ping_host_raises (float_of_str : string -> option Q) (system : string)
      (subprocess_run : list string -> result string)
      (re_search : string -> string -> option string) (host : string) :
  match subprocess_run (ping_command system host) with
  | Ok _ => _ping_host float_of_str system subprocess_run re_search host
            = Raise NameError
  | Raise e => _ping_host float_of_str system subprocess_run re_search host
               = Raise e
  end.
Proof.
  unfold _ping_host.
  destruct (subprocess_run (ping_command system host)) as [output | e].
  - reflexivity.
  - unfold try_except. cbn [mbind result_bind bind].
    match goal with
    | |- context [existsb ?f ?l] => destruct (existsb f l)
    end; reflexivity.
Qed.

Lemma ping_attempt_raises (float_of_str : string -> option Q) (system : string)
      (subprocess_run : list string -> result string)
      (re_search : string -> string -> option string)
      (random_uniform : Q -> Q -> Q) (host : string) :
  exists e,
    ping_attempt float_of_str system subprocess_run re_search random_uniform host
    = Raise e.
Proof.
  unfold ping_attempt.
  pose proof (ping_host_raises float_of_str system subprocess_run re_search host) as H.
  destruct (subprocess_run (ping_command system host)) as [output | e];
    rewrite H; eexists; reflexivity.
Qed.

Lemma ping_loop_raises (float_of_str : string -> option Q) (system : string)
      (subprocess_run : list string -> result string)
      (re_search : string -> string -> option string)
      (random_uniform : Q -> Q -> Q) (hosts : list string) :
  ping_loop float_of_str system subprocess_run re_search random_uniform hosts
  = Raise RuntimeError.
Proof.
  induction hosts as [| host rest IH]; [reflexivity |].
  cbn [ping_loop].
  destruct (ping_attempt_raises float_of_str system subprocess_run re_search
                                random_uniform host) as [e He].
  rewrite He. exact IH.
Qed.

(** C9.  [get_info] of the battery, network and carbon monitors returns a
    reading for every outcome of the probe of the concrete class; when the
    probe raises, the reading is the fallback one: battery 85.0 percent and
    charging; network 10.0 Mbps, 100 ms, quality 0.5 and connected; carbon
    400.0 and not green.  A reading that is not the fallback one carries
    the dictionary the probe returned. *)
Theorem get_info_never_raises (float_of_str : string -> option Q)
        (raw : result (gmap string value)) (e : exn) (zone : string) (now : Q) :
  ((exists info, battery_get_info float_of_str raw now = Ok info
                 /\ (info = battery_fallback_info now
                     \/ exists raw_info, raw = Ok raw_info
                                         /\ info !! "raw_data" = Some (VDict raw_info)))
   /\ (exists info, network_get_info raw now = Ok info
                    /\ (info = network_fallback_info now
                        \/ exists raw_info, raw = Ok raw_info
                                            /\ info !! "raw_data" = Some (VDict raw_info)))
   /\ (exists info, carbon_get_info raw zone now = Ok info
                    /\ (info = carbon_fallback_info zone now
                        \/ exists raw_info, raw = Ok raw_info
                                            /\ info !! "raw_data" = Some (VDict raw_info))))
  /\ (battery_get_info float_of_str (Raise e) now = Ok (battery_fallback_info now)
      /\ network_get_info (Raise e) now = Ok (network_fallback_info now)
      /\ carbon_get_info (Raise e) zone now = Ok (carbon_fallback_info zone now))
  /\ (battery_fallback_info now !! "percentage" = Some (VFloat 85.0)
      /\ battery_fallback_info now !! "is_charging" = Some (VBool true))
  /\ (network_fallback_info now !! "speed_mbps" = Some (VFloat 10.0)
      /\ network_fallback_info now !! "latency_ms" = Some (VFloat 100.0)
      /\ network_fallback_info now !! "quality" = Some (VFloat 0.5)
      /\ network_fallback_info now !! "connected" = Some (VBool true))
  /\ (carbon_fallback_info zone now !! "intensity" = Some (VFloat 400.0)
      /\ carbon_fallback_info zone now !! "is_green" = Some (VBool false)).
Proof.
  split; [| split; [| split; [| split]]].
  - split; [| split].
    + unfold battery_get_info, try_except_Exception.
      destruct raw as [raw_info | e']; run_bind.
      * destruct (getitem _ "percentage") as [p | e1]; run_bind;
          [| eexists; split; [reflexivity | left; reflexivity]].
        destruct (float float_of_str p) as [q | e2]; run_bind;
          [| eexists; split; [reflexivity | left; reflexivity]].
        eexists. split; [reflexivity |]. right. exists raw_info.
        split; [reflexivity |]. rewrite lookup_insert_ne by discriminate.
        reflexivity.
      * eexists. split; [reflexivity | left; reflexivity].
    + unfold network_get_info, try_except_Exception.
      destruct raw as [raw_info | e']; run_bind.
      * destruct (getitem _ "quality") as [p | e1]; run_bind;
          [| eexists; split; [reflexivity | left; reflexivity]].
        destruct (as_number p) as [q | e2]; run_bind;
          [| eexists; split; [reflexivity | left; reflexivity]].
        destruct (getitem _ "speed_mbps") as [s | e3]; run_bind;
          [| eexists; split; [reflexivity | left; reflexivity]].
        destruct (format_f s) as [[] | e4]; run_bind;
          [| eexists; split; [reflexivity | left; reflexivity]].
        destruct (getitem _ "latency_ms") as [l | e5]; run_bind;
          [| eexists; split; [reflexivity | left; reflexivity]].
        destruct (format_f l) as [[] | e6]; run_bind;
          [| eexists; split; [reflexivity | left; reflexivity]].
        eexists. split; [reflexivity |]. right. exists raw_info.
        split; [reflexivity |]. rewrite lookup_insert_ne by discriminate.
        reflexivity.
      * eexists. split; [reflexivity | left; reflexivity].
    + unfold carbon_get_info, try_except_Exception.
      destruct raw as [raw_info | e']; run_bind.
      * eexists. split; [reflexivity |]. right. exists raw_info.
        split; reflexivity.
      * eexists. split; [reflexivity | left; reflexivity].
  - repeat split.
  - split; reflexivity.
  - repeat split; reflexivity.
  - split; reflexivity.
Qed.

(** C10.  The namespace of [network_monitor.py] does not bind [re]; a
    call of [_ping_host] whose [subprocess.run] completes raises
    [NameError], and every call raises; [_get_raw_network_info] of
    [PingMonitor] ends with [RuntimeError]; and [PingMonitor.get_info]
    returns the fallback reading: 10.0 Mbps, 100 ms, quality 0.5. *)
Theorem ping_monitor_always_falls_back
        (float_of_str : string -> option Q) (system : string)
        (subprocess_run : list string -> result string)
        (re_search : string -> string -> option string)
        (random_uniform : Q -> Q -> Q) (host : string) (now : Q) :
  ("re" ∉ network_monitor_globals)
  /\ (forall output,
        subprocess_run (ping_command system host) = Ok output ->
        _ping_host float_of_str system subprocess_run re_search host = Raise NameError)
  /\ (exists e, _ping_host float_of_str system subprocess_run re_search host = Raise e)
  /\ ping_get_raw_network_info float_of_str system subprocess_run re_search
                               random_uniform
     = Raise RuntimeError
  /\ ping_get_info float_of_str system subprocess_run re_search random_uniform now
     = Ok (network_fallback_info now)
  /\ network_fallback_info now !! "speed_mbps" = Some (VFloat 10.0)
  /\ network_fallback_info now !! "latency_ms" = Some (VFloat 100.0)
  /\ network_fallback_info now !! "quality" = Some (VFloat 0.5).
Proof.
  pose proof (ping_host_raises float_of_str system subprocess_run re_search host) as Hp.
  split; [| split; [| split; [| split; [| repeat split]]]].
  - apply (bool_decide_eq_false_1 _). vm_compute. reflexivity.
  - intros output Hrun. rewrite Hrun in Hp. exact Hp.
  - destruct (subprocess_run (ping_command system host)); eexists; exact Hp.
  - apply ping_loop_raises.
  - unfold ping_get_info, ping_get_raw_network_info.
    rewrite ping_loop_raises. reflexivity.
Qed.

End MonitorProperties.

(** A run on a host where every ping completes with a parseable summary
    line still raises [NameError]. *)
Lemma ping_monitor_always_falls_back_witness :
  Monitors._ping_host
    (fun _ => Some 17.456) "linux"
    (fun _ => Ok "rtt min/avg/max/mdev = 15.123/17.456/20.789/2.123 ms")
    (fun _ _ => Some "17.456") "8.8.8.8"
  = Raise NameError.
Proof.
  refine (proj1 (proj2 (ping_monitor_always_falls_back
                          (fun _ => Some 17.456) "linux"
                          (fun _ => Ok "rtt min/avg/max/mdev = 15.123/17.456/20.789/2.123 ms")
                          (fun _ _ => Some "17.456") (fun a b => a) "8.8.8.8" 0))
                _ _).
  reflexivity.
Defined.

(** ** The decision engine *)

Section DecisionProperties.

Import DynamicGreenOrchestrator.

Lemma mbind_Ok {A B} (a : A) (k : A -> result B) : (Ok a ≫= k) = k a.
Proof. reflexivity. Qed.

Lemma mbind_Raise {A B} (e : exn) (k : A -> result B) : (Raise e ≫= k) = Raise e.
Proof. reflexivity. Qed.

(** What [make_decision] returns when its three readings lie in [[0,1]]:
    the call succeeds, and the decision is the one computed from them. *)
Lemma make_decision_value (self : t) (now b n c : Q) :
  read_status (monitors self !! "battery") "get_level" "read" "battery_level" = Ok b ->
  read_status (monitors self !! "network") "get_speed" "read" "network_quality" = Ok n ->
  read_status (monitors self !! "carbon")
              "get_carbon_intensity" "read" "carbon_intensity" = Ok c ->
  Spec.in_unit b -> Spec.in_unit n -> Spec.in_unit c ->
  let score :=
    Scoring.calculate_sustainability_score
      {[ "battery" := b; "network" := n; "carbon" := c ]}
      (OrchestratorConfig.weights (config self)) in
  exists r : R,
    (0 <= r <= 1)%R
    /\ let d :=
         Decision.mk score r b n c now
                     (determine_mode (config self) b n score).1
                     (determine_mode (config self) b n score).2
                     (Scoring.analyze_tradeoffs b n c) in
       make_decision self now = Ok (d, append_history self d).
Proof.
  intros Hb Hn Hc Ub Un Uc. cbv zeta.
  pose proof (score_in_unit {[ "battery" := b; "network" := n; "carbon" := c ]}
                            (OrchestratorConfig.weights (config self))) as Us.
  destruct (combined_confidence_bounds
              _ (SystemContext.mk b n c (get (platform_info self) "system" "unknown")
                                  now ∅) Us Ub Un Uc) as [Hc0 _].
  eexists. split; [apply Rmax_Rmin_bounds |].
  unfold make_decision.
  rewrite Hb, mbind_Ok, Hn, mbind_Ok, Hc, mbind_Ok. cbv zeta.
  rewrite (calculate_confidence_value _ _ Hc0), mbind_Ok.
  reflexivity.
Qed.

(** C2, as the code has it.  For readings in [[0,1]] and any
    configuration, [make_decision] returns a decision whose mode and
    explanation follow the four rules in order, with strict comparisons:
    battery below [hard_edge_battery] gives CLOUD_ONLY; otherwise battery
    above [hard_cloud_battery] and network above 0.7 give EDGE_ONLY;
    otherwise a score above the threshold gives HYBRID; otherwise
    DEFERRED.  The explanations are the strings of the code, which begin
    with a capital letter.  Battery 0.1 under [hard_edge_battery] 0.2
    gives CLOUD_ONLY whatever the rest. *)
Theorem make_decision_rules (self : t) (now b n c : Q) :
  read_status (monitors self !! "battery") "get_level" "read" "battery_level" = Ok b ->
  read_status (monitors self !! "network") "get_speed" "read" "network_quality" = Ok n ->
  read_status (monitors self !! "carbon")
              "get_carbon_intensity" "read" "carbon_intensity" = Ok c ->
  Spec.in_unit b -> Spec.in_unit n -> Spec.in_unit c ->
  exists d self',
    make_decision self now = Ok (d, self')
    /\ Decision.score d
       = Scoring.calculate_sustainability_score
           {[ "battery" := b; "network" := n; "carbon" := c ]}
           (OrchestratorConfig.weights (config self))
    /\ (b < OrchestratorConfig.hard_edge_battery (config self) ->
        Decision.recommended_mode d = CLOUD_ONLY
        /\ Decision.explanation d = "Battery too low for edge processing")
    /\ (~ b < OrchestratorConfig.hard_edge_battery (config self) ->
        OrchestratorConfig.hard_cloud_battery (config self) < b /\ 0.7 < n ->
        Decision.recommended_mode d = EDGE_ONLY
        /\ Decision.explanation d
           = "High battery and good network for edge processing")
    /\ (~ b < OrchestratorConfig.hard_edge_battery (config self) ->
        ~ (OrchestratorConfig.hard_cloud_battery (config self) < b /\ 0.7 < n) ->
        OrchestratorConfig.threshold (config self) < Decision.score d ->
        Decision.recommended_mode d = HYBRID
        /\ Decision.explanation d = "Good conditions for hybrid processing")
    /\ (~ b < OrchestratorConfig.hard_edge_battery (config self) ->
        ~ (OrchestratorConfig.hard_cloud_battery (config self) < b /\ 0.7 < n) ->
        ~ OrchestratorConfig.threshold (config self) < Decision.score d ->
        Decision.recommended_mode d = DEFERRED
        /\ Decision.explanation d = "Poor conditions, defer processing")
    /\ (b == 0.1 -> OrchestratorConfig.hard_edge_battery (config self) == 0.2 ->
        Decision.recommended_mode d = CLOUD_ONLY).
Proof.
  intros Hb Hn Hc Ub Un Uc.
  destruct (make_decision_value self now b n c Hb Hn Hc Ub Un Uc) as (r & _ & Hd).
  cbv zeta in Hd.
  eexists. eexists. split; [exact Hd |].
  cbn [Decision.score Decision.recommended_mode Decision.explanation].
  set (score := Scoring.calculate_sustainability_score _ _).
  split; [reflexivity |].
  unfold determine_mode.
  destruct (decide (b < OrchestratorConfig.hard_edge_battery (config self)))
    as [Hlow | Hnlow].
  { cbn [fst snd]. repeat split; try reflexivity; intros; contradiction. }
  destruct (bool_decide (OrchestratorConfig.hard_cloud_battery (config self) < b))
    eqn:Hhigh;
    [destruct (bool_decide (0.7 < n)) eqn:Hnet |]; cbn [andb fst snd].
  - apply bool_decide_eq_true in Hhigh, Hnet.
    repeat split; try reflexivity; intros; try contradiction;
      try (exfalso; tauto); exfalso; lra.
  - apply bool_decide_eq_true in Hhigh. apply bool_decide_eq_false in Hnet.
    destruct (decide (OrchestratorConfig.threshold (config self) < score));
      cbn [fst snd]; repeat split; try reflexivity; intros;
      try contradiction; try (exfalso; tauto); exfalso; lra.
  - apply bool_decide_eq_false in Hhigh.
    destruct (decide (OrchestratorConfig.threshold (config self) < score));
      cbn [fst snd]; repeat split; try reflexivity; intros;
      try contradiction; try (exfalso; tauto); exfalso; lra.
Qed.

Lemma example_readings (config : OrchestratorConfig.t) (b n c : Q) :
  read_status (monitors (Examples.orchestrator config b n c) !! "battery")
              "get_level" "read" "battery_level" = Ok b
  /\ read_status (monitors (Examples.orchestrator config b n c) !! "network")
                 "get_speed" "read" "network_quality" = Ok n
  /\ read_status (monitors (Examples.orchestrator config b n c) !! "carbon")
                 "get_carbon_intensity" "read" "carbon_intensity" = Ok c.
Proof. repeat split. Qed.

Lemma make_decision_rules_witness :
  exists d self',
    make_decision (Examples.orchestrator OrchestratorConfig.default 0.9 0.8 0.1) 0
    = Ok (d, self')
    /\ Decision.recommended_mode d = EDGE_ONLY
    /\ Decision.explanation d = "High battery and good network for edge processing".
Proof.
  destruct (example_readings OrchestratorConfig.default 0.9 0.8 0.1) as (Hb & Hn & Hc).
  assert (Ub : Spec.in_unit 0.9) by (split; vm_compute; discriminate).
  assert (Un : Spec.in_unit 0.8) by (split; vm_compute; discriminate).
  assert (Uc : Spec.in_unit 0.1) by (split; vm_compute; discriminate).
  destruct (make_decision_rules _ 0 0.9 0.8 0.1 Hb Hn Hc Ub Un Uc)
    as (d & self' & Hd & _ & _ & Hedge & _).
  exists d, self'. split; [exact Hd |].
  apply Hedge.
  - vm_compute. discriminate.
  - split; vm_compute; reflexivity.
Defined.

(** C2, as stated, fails on the explanation: at battery 0.1, network
    0.95 and carbon 0.05 the mode is CLOUD_ONLY and the explanation is not
    the all-lower-case string of the claim. *)
Lemma explanation_is_capitalised :
  exists d self',
    make_decision (Examples.orchestrator OrchestratorConfig.default 0.1 0.95 0.05) 0
    = Ok (d, self')
    /\ Decision.recommended_mode d = CLOUD_ONLY
    /\ Decision.explanation d = "Battery too low for edge processing"
    /\ Decision.explanation d <> "battery too low for edge processing".
Proof.
  destruct (example_readings OrchestratorConfig.default 0.1 0.95 0.05) as (Hb & Hn & Hc).
  assert (Ub : Spec.in_unit 0.1) by (split; vm_compute; discriminate).
  assert (Un : Spec.in_unit 0.95) by (split; vm_compute; discriminate).
  assert (Uc : Spec.in_unit 0.05) by (split; vm_compute; discriminate).
  destruct (make_decision_value _ 0 0.1 0.95 0.05 Hb Hn Hc Ub Un Uc) as (r & _ & Hd).
  cbv zeta in Hd.
  eexists. eexists. split; [exact Hd |].
  cbn [Decision.recommended_mode Decision.explanation].
  repeat split; try discriminate.
Qed.

End DecisionProperties.

(** ** Monitors built by the factory *)

Section FactoryMonitors.

Import DynamicGreenOrchestrator.

Lemma hasattr_instance (m : gmap string attribute)
      (c : MonitorFactory.MonitorClass) (name : string) :
  instance_of m c ->
  hasattr m name = bool_decide (name ∈ MonitorFactory.attributes c).
Proof.
  intros Hm. unfold hasattr. apply bool_decide_ext.
  rewrite <- elem_of_dom, Hm, elem_of_list_to_set. reflexivity.
Qed.

(** No class of the monitor modules has an attribute that [make_decision]
    probes. *)
Lemma probed_names_absent (c : MonitorFactory.MonitorClass) (name : string) :
  name ∈ [ "get_level"; "read"; "battery_level"; "get_speed"; "network_quality";
           "get_carbon_intensity"; "carbon_intensity" ] ->
  bool_decide (name ∈ MonitorFactory.attributes c) = false.
Proof.
  intros Hname.
  repeat (apply elem_of_cons in Hname as [-> | Hname];
          [destruct c; vm_compute; reflexivity |]).
  apply elem_of_nil in Hname. contradiction.
Qed.

Lemma read_status_instance (monitor : option (gmap string attribute))
      (method field : string) :
  (forall m, monitor = Some m -> exists c, instance_of m c) ->
  (method, field) ∈ [ ("get_level", "battery_level");
                      ("get_speed", "network_quality");
                      ("get_carbon_intensity", "carbon_intensity") ] ->
  read_status monitor method "read" field = Ok 0.5.
Proof.
  intros Hinst Hnames.
  destruct monitor as [m |]; [| reflexivity].
  destruct (Hinst m eq_refl) as [c Hc].
  unfold read_status.
  rewrite !(hasattr_instance m c _ Hc).
  repeat (apply elem_of_cons in Hnames as [[= -> ->] | Hnames];
          [rewrite !probed_names_absent by (apply (bool_decide_unpack _); vm_compute; exact I);
           reflexivity |]).
  apply elem_of_nil in Hnames. contradiction.
Qed.

Lemma instance_of_instance (c : MonitorFactory.MonitorClass) :
  instance_of (Examples.instance c) c.
Proof.
  unfold instance_of, Examples.instance.
  rewrite dom_list_to_map_L. f_equal.
  rewrite <- list_fmap_compose. apply list_fmap_id.
Qed.

(** On a Linux host without speedtest-cli and without an API key the
    orchestrator gets the universal battery monitor, the ping monitor and
    the simulated carbon monitor. *)
Example initialize_monitors_linux :
  _initialize_monitors OrchestratorConfig.default Examples.linux_host
  = Ok {[ "battery" := MonitorFactory.UniversalBatteryMonitor;
          "network" := MonitorFactory.PingMonitor;
          "carbon" := MonitorFactory.SimulatedCarbonMonitor ]}.
Proof. vm_compute. reflexivity. Qed.

(** C1.  When every monitor of the orchestrator is an instance of one of
    the monitor classes, [make_decision] succeeds and reads 0.5 for
    battery, network and carbon; with the default weights 0.4, 0.3 and
    0.3, threshold 0.5 and battery bounds 0.2 and 0.8, the score is 0.5
    and the mode DEFERRED. *)
Theorem factory_monitors_read_defaults (self : t) (now : Q) :
  (forall k m, monitors self !! k = Some m -> exists c, instance_of m c) ->
  exists d self',
    make_decision self now = Ok (d, self')
    /\ Decision.battery d = 0.5
    /\ Decision.network d = 0.5
    /\ Decision.carbon d = 0.5
    /\ (OrchestratorConfig.weights (config self) = OrchestratorConfig.default_weights ->
        OrchestratorConfig.threshold (config self) == 0.5 ->
        OrchestratorConfig.hard_edge_battery (config self) == 0.2 ->
        OrchestratorConfig.hard_cloud_battery (config self) == 0.8 ->
        Decision.score d == 0.5 /\ Decision.recommended_mode d = DEFERRED).
Proof.
  intros Hinst.
  assert (Hb : read_status (monitors self !! "battery")
                           "get_level" "read" "battery_level" = Ok 0.5).
  { apply read_status_instance; [apply Hinst |].
    apply (bool_decide_unpack _). vm_compute. exact I. }
  assert (Hn : read_status (monitors self !! "network")
                           "get_speed" "read" "network_quality" = Ok 0.5).
  { apply read_status_instance; [apply Hinst |].
    apply (bool_decide_unpack _). vm_compute. exact I. }
  assert (Hc : read_status (monitors self !! "carbon")
                           "get_carbon_intensity" "read" "carbon_intensity" = Ok 0.5).
  { apply read_status_instance; [apply Hinst |].
    apply (bool_decide_unpack _). vm_compute. exact I. }
  assert (U : Spec.in_unit 0.5) by (split; vm_compute; discriminate).
  destruct (make_decision_value self now 0.5 0.5 0.5 Hb Hn Hc U U U) as (r & _ & Hd).
  cbv zeta in Hd.
  eexists. eexists. split; [exact Hd |].
  cbn [Decision.battery Decision.network Decision.carbon Decision.score
       Decision.recommended_mode].
  split; [reflexivity | split; [reflexivity | split; [reflexivity |]]].
  intros Hw Ht He Hh. rewrite Hw.
  assert (Hs : Scoring.calculate_sustainability_score
                 {[ "battery" := 0.5; "network" := 0.5; "carbon" := 0.5 ]}
                 OrchestratorConfig.default_weights == 0.5)
    by (vm_compute; reflexivity).
  split; [exact Hs |].
  unfold determine_mode.
  destruct (decide (0.5 < OrchestratorConfig.hard_edge_battery (config self)))
    as [Hlow | _]; [exfalso; lra |].
  rewrite (bool_decide_eq_false_2
             (OrchestratorConfig.hard_cloud_battery (config self) < 0.5)) by lra.
  cbn [andb].
  destruct (decide (OrchestratorConfig.threshold (config self) < _)) as [Hgt | _];
    [exfalso; lra | reflexivity].
Qed.

(** The monitors that [_initialize_monitors] builds are instances of
    monitor classes, on every host. *)
Lemma factory_orchestrator_monitors (host : MonitorFactory.Host)
      (k : string) (m : gmap string attribute) :
  monitors (Examples.factory_orchestrator host) !! k = Some m ->
  exists c, instance_of m c.
Proof.
  unfold Examples.factory_orchestrator. cbn [monitors].
  destruct (_initialize_monitors OrchestratorConfig.default host) as [classes | e].
  - intros H. apply lookup_fmap_Some in H as (c & <- & _).
    exists c. apply instance_of_instance.
  - rewrite lookup_empty. discriminate.
Qed.

Lemma factory_monitors_read_defaults_witness :
  exists d self',
    make_decision (Examples.factory_orchestrator Examples.linux_host) 0 = Ok (d, self')
    /\ Decision.score d == 0.5
    /\ Decision.recommended_mode d = DEFERRED.
Proof.
  destruct (factory_monitors_read_defaults
              (Examples.factory_orchestrator Examples.linux_host) 0
              (factory_orchestrator_monitors Examples.linux_host))
    as (d & self' & Hd & _ & _ & _ & Hdefault).
  exists d, self'. split; [exact Hd |].
  apply Hdefault; reflexivity.
Defined.

End FactoryMonitors.

(** ** The decision history *)

Section HistoryProperties.

Import DynamicGreenOrchestrator.

Lemma last_n_short {A} (n : nat) (xs : list A) :
  (length xs <= n)%nat -> Spec.last_n n xs = xs.
Proof.
  intros Hlen. unfold Spec.last_n.
  replace (length xs - n)%nat with 0%nat by lia. reflexivity.
Qed.

Lemma last_n_length {A} (n : nat) (xs : list A) :
  length (Spec.last_n n xs) = Nat.min n (length xs).
Proof. unfold Spec.last_n. rewrite length_drop. lia. Qed.

(** Trimming, appending and trimming again is appending and trimming. *)
Lemma last_n_snoc {A} (n : nat) (xs : list A) (x : A) :
  (1 <= n)%nat ->
  Spec.last_n n (Spec.last_n n xs ++ [x]) = Spec.last_n n (xs ++ [x]).
Proof.
  intros Hn.
  destruct (Nat.le_gt_cases (length xs) n) as [Hshort | Hlong].
  - rewrite (last_n_short n xs Hshort). reflexivity.
  - unfold Spec.last_n at 1 3.
    rewrite !length_app, last_n_length. cbn [length].
    replace (Nat.min n (length xs) + 1 - n)%nat with 1%nat by lia.
    rewrite !drop_app_le.
    + unfold Spec.last_n. rewrite drop_drop. f_equal. f_equal. lia.
    + lia.
    + rewrite last_n_length. lia.
Qed.

(** One append: the history becomes the last [N] of the old history
    followed by the new decision. *)
Lemma append_history_last_n (self : t) (d : Decision.t) :
  (1 <= OrchestratorConfig.decision_history_size (config self))%Z ->
  decision_history (append_history self d)
  = Spec.last_n (Z.to_nat (OrchestratorConfig.decision_history_size (config self)))
                (decision_history self ++ [d]).
Proof.
  intros HN. unfold append_history. cbn [decision_history].
  set (N := OrchestratorConfig.decision_history_size (config self)) in *.
  set (h := decision_history self ++ [d]).
  destruct (N <? Z.of_nat (length h))%Z eqn:Hcmp.
  - apply Z.ltb_lt in Hcmp. unfold slice_from, Spec.last_n.
    replace (- N <? 0)%Z with true by (symmetry; apply Z.ltb_lt; lia).
    f_equal. lia.
  - apply Z.ltb_ge in Hcmp. symmetry. apply last_n_short. lia.
Qed.

Lemma append_history_config (self : t) (d : Decision.t) :
  config (append_history self d) = config self.
Proof. reflexivity. Qed.

(** A call that returns has appended the decision it returns and nothing
    else has changed. *)
Lemma make_decision_appends (self self' : t) (now : Q) (d : Decision.t) :
  make_decision self now = Ok (d, self') -> self' = append_history self d.
Proof.
  unfold make_decision.
  destruct (read_status (monitors self !! "battery") _ _ _) as [b | e];
    [rewrite mbind_Ok | rewrite mbind_Raise; discriminate].
  destruct (read_status (monitors self !! "network") _ _ _) as [n | e];
    [rewrite mbind_Ok | rewrite mbind_Raise; discriminate].
  destruct (read_status (monitors self !! "carbon") _ _ _) as [c | e];
    [rewrite mbind_Ok | rewrite mbind_Raise; discriminate].
  cbv zeta.
  destruct (Scoring.calculate_confidence _ _) as [r | e];
    [rewrite mbind_Ok | rewrite mbind_Raise; discriminate].
  intros H. injection H as <- <-. reflexivity.
Qed.

(** The invariant of a run: when the history is the last [N] of what was
    appended so far, it still is after the run. *)
Lemma make_decisions_last_n (calls : list (gmap string (gmap string attribute) * Q)) :
  forall (self self' : t) (appended ds : list Decision.t),
    (1 <= OrchestratorConfig.decision_history_size (config self))%Z ->
    decision_history self
    = Spec.last_n (Z.to_nat (OrchestratorConfig.decision_history_size (config self)))
                  appended ->
    make_decisions self calls = Ok (ds, self') ->
    length ds = length calls
    /\ config self' = config self
    /\ decision_history self'
       = Spec.last_n (Z.to_nat (OrchestratorConfig.decision_history_size (config self)))
                     (appended ++ ds).
Proof.
  induction calls as [| [ms now] rest IH]; intros self self' appended ds HN Hhist Hrun.
  - cbn [make_decisions] in Hrun. injection Hrun as <- <-.
    rewrite app_nil_r. repeat split. exact Hhist.
  - cbn [make_decisions] in Hrun.
    destruct (make_decision (with_monitors self ms) now) as [[d self1] | e] eqn:Hd;
      [rewrite mbind_Ok in Hrun | rewrite mbind_Raise in Hrun; discriminate].
    cbn beta iota in Hrun.
    destruct (make_decisions self1 rest) as [[ds' self2] | e] eqn:Hrest;
      [rewrite mbind_Ok in Hrun | rewrite mbind_Raise in Hrun; discriminate].
    cbn beta iota in Hrun. injection Hrun as <- <-.
    apply make_decision_appends in Hd.
    assert (Hcfg : config self1 = config self) by (rewrite Hd; reflexivity).
    destruct (IH self1 self2 (appended ++ [d]) ds') as (Hlen & Hcfg' & Hhist').
    + rewrite Hcfg. exact HN.
    + rewrite Hcfg, Hd.
      rewrite append_history_last_n by exact HN.
      cbn [config with_monitors decision_history].
      rewrite Hhist. apply last_n_snoc. lia.
    + exact Hrest.
    + rewrite Hcfg in Hcfg', Hhist'.
      rewrite <- app_assoc in Hhist'.
      repeat split; [cbn [length]; lia | exact Hcfg' | exact Hhist'].
Qed.

(** Calls whose readings lie in [[0,1]] all return. *)
Lemma make_decisions_returns (calls : list (gmap string (gmap string attribute) * Q)) :
  forall self : t,
    Forall (fun call => Spec.readable call.1) calls ->
    exists ds self', make_decisions self calls = Ok (ds, self').
Proof.
  induction calls as [| [ms now] rest IH]; intros self Hcalls.
  - exists [], self. reflexivity.
  - apply Forall_cons in Hcalls as [Hcall Hrest].
    destruct Hcall as (b & n & c & Hb & Hn & Hc & Ub & Un & Uc).
    cbn [fst] in Hb, Hn, Hc.
    destruct (make_decision_value (with_monitors self ms) now b n c
                                  Hb Hn Hc Ub Un Uc) as (r & _ & Hd).
    cbv zeta in Hd.
    set (d := Decision.mk _ _ _ _ _ _ _ _ _) in Hd.
    set (self1 := append_history (with_monitors self ms) d) in Hd.
    destruct (IH self1 Hrest) as (ds & self' & Hrun).
    exists (d :: ds), self'.
    cbn [make_decisions]. rewrite Hd, mbind_Ok.
    cbn beta iota. rewrite Hrun, mbind_Ok. reflexivity.
Qed.

(** C6.  With a capacity [N >= 1] and an empty history at the start, after
    [N + k] calls of [make_decision] that returned, the history holds
    exactly the last [N] decisions returned, in the order of the calls: the
    first [k] are the ones evicted.  Calls whose readings lie in [[0,1]]
    all return. *)
Theorem history_keeps_last_decisions
        (self : t) (calls : list (gmap string (gmap string attribute) * Q)) (k : nat) :
  (1 <= OrchestratorConfig.decision_history_size (config self))%Z ->
  decision_history self = [] ->
  length calls
  = (Z.to_nat (OrchestratorConfig.decision_history_size (config self)) + k)%nat ->
  (forall ds self',
      make_decisions self calls = Ok (ds, self') ->
      length ds = length calls
      /\ decision_history self' = drop k ds
      /\ ds = take k ds ++ decision_history self'
      /\ length (decision_history self')
         = Z.to_nat (OrchestratorConfig.decision_history_size (config self)))
  /\ (Forall (fun call => Spec.readable call.1) calls ->
      exists ds self', make_decisions self calls = Ok (ds, self')).
Proof.
  intros HN Hempty Hlen. split; [| apply make_decisions_returns].
  intros ds self' Hrun.
  destruct (make_decisions_last_n calls self self' [] ds HN) as (Hlends & _ & Hhist);
    [rewrite Hempty; reflexivity | exact Hrun |].
  cbn [app] in Hhist. unfold Spec.last_n in Hhist.
  replace (length ds - _)%nat with k in Hhist by lia.
  rewrite Hhist.
  repeat split; [exact Hlends | | ].
  - symmetry. apply take_drop.
  - rewrite length_drop. lia.
Qed.

Lemma example_readable (b n c : Q) :
  Spec.in_unit b -> Spec.in_unit n -> Spec.in_unit c ->
  Spec.readable {[ "battery" := Examples.reporting "get_level" b;
                   "network" := Examples.reporting "get_speed" n;
                   "carbon" := Examples.reporting "get_carbon_intensity" c ]}.
Proof.
  intros Ub Un Uc. exists b, n, c.
  split; [reflexivity | split; [reflexivity | split; [reflexivity |]]].
  repeat split; first [apply Ub | apply Un | apply Uc].
Qed.

Lemma history_keeps_last_decisions_witness :
  let low := {[ "battery" := Examples.reporting "get_level" 0.1;
                "network" := Examples.reporting "get_speed" 0.95;
                "carbon" := Examples.reporting "get_carbon_intensity" 0.05 ]} in
  let mid := {[ "battery" := Examples.reporting "get_level" 0.5;
                "network" := Examples.reporting "get_speed" 0.5;
                "carbon" := Examples.reporting "get_carbon_intensity" 0.5 ]} in
  let high := {[ "battery" := Examples.reporting "get_level" 0.9;
                 "network" := Examples.reporting "get_speed" 0.8;
                 "carbon" := Examples.reporting "get_carbon_intensity" 0.1 ]} in
  exists ds self',
    make_decisions (Examples.orchestrator Examples.small_history_config 0.5 0.5 0.5)
                   [ (low, 1); (mid, 2); (high, 3) ]
    = Ok (ds, self')
    /\ length ds = 3%nat
    /\ decision_history self' = drop 1 ds.
Proof.
  intros low mid high.
  assert (U1 : Spec.in_unit 0.1) by (split; vm_compute; discriminate).
  assert (U2 : Spec.in_unit 0.95) by (split; vm_compute; discriminate).
  assert (U3 : Spec.in_unit 0.05) by (split; vm_compute; discriminate).
  assert (U4 : Spec.in_unit 0.5) by (split; vm_compute; discriminate).
  assert (U5 : Spec.in_unit 0.9) by (split; vm_compute; discriminate).
  assert (U6 : Spec.in_unit 0.8) by (split; vm_compute; discriminate).
  destruct (history_keeps_last_decisions
              (Examples.orchestrator Examples.small_history_config 0.5 0.5 0.5)
              [ (low, 1); (mid, 2); (high, 3) ] 1)
    as (Hkept & Hreturns).
  - vm_compute. discriminate.
  - reflexivity.
  - reflexivity.
  - destruct Hreturns as (ds & self' & Hrun).
    { repeat apply Forall_cons_2; try apply Forall_nil_2;
        apply example_readable; assumption. }
    destruct (Hkept ds self' Hrun) as (Hlen & Hhist & _).
    exists ds, self'. repeat split; assumption.
Defined.

End HistoryProperties.

(** ** Statistics *)

Section StatisticsProperties.

Import DynamicGreenOrchestrator.

(** [min(xs)] is an element of the list and a lower bound of it. *)
Lemma min_list_spec (xs : list Q) :
  forall x : Q,
    min_list x xs ∈ x :: xs /\ forall y, y ∈ x :: xs -> min_list x xs <= y.
Proof.
  unfold min_list.
  induction xs as [| z zs IH]; intros x; cbn [fold_left].
  - split; [apply list_elem_of_here |].
    intros y Hy. apply list_elem_of_singleton in Hy. subst y. lra.
  - destruct (decide (z < x)) as [Hlt | Hge].
    + destruct (IH z) as [Hin Hlow]. split.
      * apply elem_of_cons in Hin as [-> | Hin].
        -- apply list_elem_of_further, list_elem_of_here.
        -- do 2 apply list_elem_of_further. exact Hin.
      * intros y Hy.
        apply elem_of_cons in Hy as [-> | Hy].
        -- pose proof (Hlow z (list_elem_of_here _ _)). lra.
        -- apply Hlow. exact Hy.
    + destruct (IH x) as [Hin Hlow]. split.
      * apply elem_of_cons in Hin as [-> | Hin].
        -- apply list_elem_of_here.
        -- do 2 apply list_elem_of_further. exact Hin.
      * intros y Hy.
        apply elem_of_cons in Hy as [-> | Hy];
          [apply Hlow, list_elem_of_here |].
        apply elem_of_cons in Hy as [-> | Hy].
        -- pose proof (Hlow x (list_elem_of_here _ _)). lra.
        -- apply Hlow, list_elem_of_further, Hy.
Qed.

(** [max(xs)] is an element of the list and an upper bound of it. *)
Lemma max_list_spec (xs : list Q) :
  forall x : Q,
    max_list x xs ∈ x :: xs /\ forall y, y ∈ x :: xs -> y <= max_list x xs.
Proof.
  unfold max_list.
  induction xs as [| z zs IH]; intros x; cbn [fold_left].
  - split; [apply list_elem_of_here |].
    intros y Hy. apply list_elem_of_singleton in Hy. subst y. lra.
  - destruct (decide (x < z)) as [Hlt | Hge].
    + destruct (IH z) as [Hin Hup]. split.
      * apply elem_of_cons in Hin as [-> | Hin].
        -- apply list_elem_of_further, list_elem_of_here.
        -- do 2 apply list_elem_of_further. exact Hin.
      * intros y Hy.
        apply elem_of_cons in Hy as [-> | Hy].
        -- pose proof (Hup z (list_elem_of_here _ _)). lra.
        -- apply Hup. exact Hy.
    + destruct (IH x) as [Hin Hup]. split.
      * apply elem_of_cons in Hin as [-> | Hin].
        -- apply list_elem_of_here.
        -- do 2 apply list_elem_of_further. exact Hin.
      * intros y Hy.
        apply elem_of_cons in Hy as [-> | Hy];
          [apply Hup, list_elem_of_here |].
        apply elem_of_cons in Hy as [-> | Hy].
        -- pose proof (Hup x (list_elem_of_here _ _)). lra.
        -- apply Hup, list_elem_of_further, Hy.
Qed.

Lemma filter_mode_length (mode : ExecutionMode) (history : list Decision.t) :
  length (filter (fun d => Decision.recommended_mode d = mode) history)
  = Spec.count_mode mode history.
Proof.
  induction history as [| d rest IH]; [reflexivity |].
  rewrite filter_cons. cbn [Spec.count_mode].
  destruct (decide (Decision.recommended_mode d = mode));
    cbn [length]; rewrite IH; reflexivity.
Qed.

Lemma count_mode_total (history : list Decision.t) :
  (Spec.count_mode EDGE_ONLY history + Spec.count_mode CLOUD_ONLY history
   + Spec.count_mode HYBRID history + Spec.count_mode DEFERRED history
   = length history)%nat.
Proof.
  induction history as [| d rest IH]; [reflexivity |].
  cbn [Spec.count_mode length].
  destruct (Decision.recommended_mode d);
    repeat (destruct (decide _) as [? | ?]; try discriminate; try contradiction);
    lia.
Qed.

(** The keys of the dictionary that [get_statistics] returns for a
    history that is not empty. *)
Lemma get_statistics_keys (self : t) :
  decision_history self <> [] ->
  dom (get_statistics self)
  = list_to_set [ "total_decisions"; "average_score"; "average_confidence";
                  "min_score"; "max_score"; "mode_distribution" ].
Proof.
  intros Hne. unfold get_statistics.
  destruct (decision_history self) as [| d0 ds]; [contradiction |].
  rewrite !dom_insert_L, dom_singleton_L. cbn [list_to_set foldr].
  set_solver.
Qed.

(** C7, as the code has it.  For an empty history [get_statistics]
    returns the empty dictionary.  For any other history it returns
    exactly six entries: the number of decisions, the mean of the scores,
    the mean of the confidences, the smallest and the largest score, and
    the number of decisions per execution mode, with all four modes as
    keys and 0 for a mode that never occurred. *)
Theorem get_statistics_contents (self : t) :
  (decision_history self = [] -> get_statistics self = ∅)
  /\ (decision_history self <> [] ->
      let history := decision_history self in
      let scores := Decision.score <$> history in
      let confidences := Decision.confidence <$> history in
      dom (get_statistics self)
      = list_to_set [ "total_decisions"; "average_score"; "average_confidence";
                      "min_score"; "max_score"; "mode_distribution" ]
      /\ get_statistics self !! "total_decisions" = Some (SInt (length history))
      /\ (exists mean,
            get_statistics self !! "average_score" = Some (SFloat mean)
            /\ mean * inject_Z (Z.of_nat (length history)) == sum_floats scores)
      /\ (exists mean,
            get_statistics self !! "average_confidence" = Some (SReal mean)
            /\ (mean * INR (length history) = sum_reals confidences)%R)
      /\ (exists lowest,
            get_statistics self !! "min_score" = Some (SFloat lowest)
            /\ lowest ∈ scores /\ forall s, s ∈ scores -> lowest <= s)
      /\ (exists highest,
            get_statistics self !! "max_score" = Some (SFloat highest)
            /\ highest ∈ scores /\ forall s, s ∈ scores -> s <= highest)
      /\ (exists counts,
            get_statistics self !! "mode_distribution" = Some (SCounts counts)
            /\ dom counts = list_to_set (ExecutionMode.value <$> ExecutionMode.members)
            /\ (forall mode,
                  counts !! ExecutionMode.value mode
                  = Some (Spec.count_mode mode history))
            /\ (Spec.count_mode EDGE_ONLY history + Spec.count_mode CLOUD_ONLY history
                + Spec.count_mode HYBRID history + Spec.count_mode DEFERRED history
                = length history)%nat)).
Proof.
  split.
  - intros Hempty. unfold get_statistics. rewrite Hempty. reflexivity.
  - intros Hne. cbv zeta.
    split; [apply get_statistics_keys; exact Hne |].
    unfold get_statistics.
    destruct (decision_history self) as [| d0 ds] eqn:Hh; [contradiction |].
    assert (Hlen : (0 < length (d0 :: ds))%nat) by (cbn [length]; lia).
    split; [reflexivity |].
    split; [| split; [| split; [| split; [| ]]]].
    + eexists. split; [reflexivity |].
      rewrite length_fmap. field.
      intros H0. unfold Qeq in H0. cbn [Qnum Qden inject_Z] in H0. lia.
    + eexists. split; [reflexivity |].
      rewrite length_fmap. field.
      apply not_0_INR. lia.
    + eexists. split; [reflexivity |].
      rewrite fmap_cons.
      apply (min_list_spec (Decision.score <$> ds) (Decision.score d0)).
    + eexists. split; [reflexivity |].
      rewrite fmap_cons.
      apply (max_list_spec (Decision.score <$> ds) (Decision.score d0)).
    + eexists. split; [reflexivity |].
      cbn [fmap list_fmap ExecutionMode.members ExecutionMode.value list_to_map foldr
           fst snd].
      split; [| split].
      * rewrite !dom_insert_L, dom_empty_L. cbn [list_to_set foldr]. set_solver.
      * intros mode. rewrite <- filter_mode_length.
        destruct mode; reflexivity.
      * apply count_mode_total.
Qed.

Lemma get_statistics_contents_witness :
  dom (get_statistics Examples.one_decision_orchestrator)
  = list_to_set [ "total_decisions"; "average_score"; "average_confidence";
                  "min_score"; "max_score"; "mode_distribution" ]
  /\ get_statistics Examples.one_decision_orchestrator !! "total_decisions"
     = Some (SInt 1).
Proof.
  assert (Hne : decision_history Examples.one_decision_orchestrator <> [])
    by discriminate.
  destruct (proj2 (get_statistics_contents Examples.one_decision_orchestrator) Hne)
    as (Hdom & Htotal & _).
  split; [exact Hdom | exact Htotal].
Defined.

(** C7, as stated, fails: for the empty history no mode key is present,
    and for a history of one decision six entries are returned, none of
    them a minimum or maximum of the confidence or a statistic of battery,
    network or carbon. *)
Lemma get_statistics_reports_less :
  get_statistics (Examples.factory_orchestrator Examples.linux_host)
  !! "mode_distribution" = None
  /\ size (get_statistics Examples.one_decision_orchestrator) = 6%nat
  /\ dom (get_statistics Examples.one_decision_orchestrator)
     = list_to_set [ "total_decisions"; "average_score"; "average_confidence";
                     "min_score"; "max_score"; "mode_distribution" ].
Proof.
  assert (Hne : decision_history Examples.one_decision_orchestrator <> [])
    by discriminate.
  pose proof (get_statistics_keys _ Hne) as Hdom.
  split; [reflexivity | split; [| exact Hdom]].
  rewrite <- size_dom, Hdom. reflexivity.
Qed.

End StatisticsProperties.

(** ** Binary64 spot checks *)

(** The exact-rational model agrees with binary64 arithmetic on the
    constants of the default configuration. *)
Module Binary64.

Import PrimFloat.

(* Decimal constants are rounded to the nearest binary64 value, as
   Python does. *)
#[local] Set Warnings "-inexact-float".

(** The score at the default readings, in the order in which the code
    evaluates it, is exactly 0.5 in binary64 too. *)
Example default_score :
  eqb (0.5 * 0.4 + 0.5 * 0.3 + (1 - 0.5) * 0.3)%float 0.5%float = true.
Proof. vm_compute. reflexivity. Qed.

(** [sum] of the default weights is exactly 1.0, and the weights 0.5,
    0.5, 0.1 are off by more than 0.001. *)
Example weight_sums :
  eqb (0 + 0.4 + 0.3 + 0.3)%float 1%float = true
  /\ ltb 0.001%float (abs (0 + 0.5 + 0.5 + 0.1 - 1))%float = true.
Proof. split; vm_compute; reflexivity. Qed.

End Binary64.

(* ===================================================================== *)
(** * Further properties of the code                                      *)
(* ===================================================================== *)

(** ** Scoring: tradeoffs and the shape of the confidence *)

Section MoreScoringProperties.

Import Scoring.

(** [analyze_tradeoffs] returns its four metrics for every input; each is
    affine in its signal, and for signals in [[0,1]] the battery metric stays
    within [[0.3,0.7]], the network metric within [[0.4,0.6]], the carbon
    metric within [[0.2,0.8]] and the overall one within [[0,1]]. *)
Theorem analyze_tradeoffs_ranges (battery network carbon : Q) :
  Spec.in_unit battery -> Spec.in_unit network -> Spec.in_unit carbon ->
  exists bp nl cs overall,
    analyze_tradeoffs battery network carbon !! "battery_vs_performance" = Some bp
    /\ analyze_tradeoffs battery network carbon !! "network_vs_latency" = Some nl
    /\ analyze_tradeoffs battery network carbon !! "carbon_vs_speed" = Some cs
    /\ analyze_tradeoffs battery network carbon !! "overall_tradeoff" = Some overall
    /\ size (analyze_tradeoffs battery network carbon) = 4%nat
    /\ bp == 0.3 + 0.4 * battery
    /\ nl == 0.4 + 0.2 * network
    /\ cs == 0.8 - 0.6 * carbon
    /\ overall * 3 == battery + network + (1 - carbon)
    /\ (0.3 <= bp /\ bp <= 0.7)
    /\ (0.4 <= nl /\ nl <= 0.6)
    /\ (0.2 <= cs /\ cs <= 0.8)
    /\ (0 <= overall /\ overall <= 1).
Proof.
  intros [Hb0 Hb1] [Hn0 Hn1] [Hc0 Hc1].
  do 4 eexists.
  split; [reflexivity |]. split; [reflexivity |].
  split; [reflexivity |]. split; [reflexivity |].
  split; [reflexivity |].
  repeat split; try lra.
  - field.
  - apply Qle_shift_div_l; lra.
  - apply Qle_shift_div_r; lra.
Qed.

Lemma analyze_tradeoffs_ranges_witness :
  exists bp, analyze_tradeoffs 0.9 0.8 0.1 !! "battery_vs_performance" = Some bp
             /\ bp == 0.66.
Proof.
  assert (U1 : Spec.in_unit 0.9) by (split; vm_compute; discriminate).
  assert (U2 : Spec.in_unit 0.8) by (split; vm_compute; discriminate).
  assert (U3 : Spec.in_unit 0.1) by (split; vm_compute; discriminate).
  destruct (analyze_tradeoffs_ranges 0.9 0.8 0.1 U1 U2 U3)
    as (bp & nl & cs & ov & Hbp & _ & _ & _ & _ & Hval & _).
  exists bp. split; [exact Hbp |]. rewrite Hval. vm_compute. reflexivity.
Defined.

Lemma Q2R_unit (x : Q) : 0 <= x -> x <= 1 -> (0 <= Q2R x <= 1)%R.
Proof.
  intros H0 H1. split.
  - rewrite <- RMicromega.Q2R_0. apply Qle_Rle. exact H0.
  - rewrite <- RMicromega.Q2R_1. apply Qle_Rle. exact H1.
Qed.

(** For a score and a context in [[0,1]] the clamp of
    [calculate_confidence] is idle: the value is the square root of the
    mean of the sub-confidences. *)
Lemma calculate_confidence_sqrt (score : Q) (context : SystemContext.t) :
  Spec.in_unit score ->
  Spec.in_unit (SystemContext.battery context) ->
  Spec.in_unit (SystemContext.network context) ->
  Spec.in_unit (SystemContext.carbon context) ->
  calculate_confidence score context
  = Ok (sqrt (Q2R (combined_confidence score context))).
Proof.
  intros Hs Hb Hn Hc.
  destruct (combined_confidence_bounds score context Hs Hb Hn Hc) as [H0 H1].
  rewrite (calculate_confidence_value score context H0).
  destruct (Q2R_unit _ H0 H1) as [R0 R1].
  assert (Hsq : (0 <= sqrt (Q2R (combined_confidence score context)) <= 1)%R).
  { split; [apply sqrt_pos |].
    rewrite <- sqrt_1. apply sqrt_le_1_alt. exact R1. }
  f_equal. rewrite Rmin_right by apply Hsq. apply Rmax_right. apply Hsq.
Qed.

(** The confidence is highest in the middle: for scores and contexts in
    [[0,1]] it does not increase when the score, the battery or the carbon
    moves away from 0.5 or when the network quality drops; and its square
    is the mean of the four sub-confidences. *)
Theorem calculate_confidence_highest_at_midpoint
        (s1 s2 : Q) (c1 c2 : SystemContext.t) :
  Spec.in_unit s1 -> Spec.in_unit s2 ->
  Spec.in_unit (SystemContext.battery c1) -> Spec.in_unit (SystemContext.battery c2) ->
  Spec.in_unit (SystemContext.network c1) -> Spec.in_unit (SystemContext.network c2) ->
  Spec.in_unit (SystemContext.carbon c1) -> Spec.in_unit (SystemContext.carbon c2) ->
  Qabs (s1 - 0.5) <= Qabs (s2 - 0.5) ->
  Qabs (SystemContext.battery c1 - 0.5) <= Qabs (SystemContext.battery c2 - 0.5) ->
  SystemContext.network c2 <= SystemContext.network c1 ->
  Qabs (SystemContext.carbon c1 - 0.5) <= Qabs (SystemContext.carbon c2 - 0.5) ->
  exists r1 r2 : R,
    calculate_confidence s1 c1 = Ok r1
    /\ calculate_confidence s2 c2 = Ok r2
    /\ (r2 <= r1)%R
    /\ (r1 * r1)%R = Q2R (combined_confidence s1 c1)
    /\ (r2 * r2)%R = Q2R (combined_confidence s2 c2).
Proof.
  intros Us1 Us2 Ub1 Ub2 Un1 Un2 Uc1 Uc2 Hs Hb Hn Hc.
  destruct (combined_confidence_bounds s1 c1 Us1 Ub1 Un1 Uc1) as [H10 H11].
  destruct (combined_confidence_bounds s2 c2 Us2 Ub2 Un2 Uc2) as [H20 H21].
  assert (Hle : combined_confidence s2 c2 <= combined_confidence s1 c1).
  { unfold combined_confidence.
    apply Qle_shift_div_l; [lra |].
    match goal with
    | |- ?x / 4 * 4 <= _ => assert (Hx : x / 4 * 4 == x) by field
    end.
    rewrite Hx. lra. }
  do 2 eexists.
  split; [apply calculate_confidence_sqrt; assumption |].
  split; [apply calculate_confidence_sqrt; assumption |].
  split; [| split].
  - apply sqrt_le_1_alt. apply Qle_Rle. exact Hle.
  - apply sqrt_sqrt. apply (Q2R_unit _ H10 H11).
  - apply sqrt_sqrt. apply (Q2R_unit _ H20 H21).
Qed.

Lemma calculate_confidence_highest_at_midpoint_witness :
  exists r1 r2 : R,
    calculate_confidence 0.5 (SystemContext.mk 0.5 1 0.5 "Linux" 0 ∅) = Ok r1
    /\ calculate_confidence 0.9 (SystemContext.mk 1 0.2 0 "Linux" 0 ∅) = Ok r2
    /\ (r2 <= r1)%R.
Proof.
  destruct (calculate_confidence_highest_at_midpoint
              0.5 0.9 (SystemContext.mk 0.5 1 0.5 "Linux" 0 ∅)
              (SystemContext.mk 1 0.2 0 "Linux" 0 ∅))
    as (r1 & r2 & H1 & H2 & Hle & _);
    try (split; vm_compute; discriminate);
    try (vm_compute; discriminate).
  exists r1, r2. repeat split; assumption.
Defined.

End MoreScoringProperties.

(** ** The decision engine: what a call returns and what it leaves behind *)

Section MoreEngineProperties.

Import DynamicGreenOrchestrator.

(** What a call of [make_decision] that returns has computed. *)
Lemma make_decision_inv (self self' : t) (now : Q) (d : Decision.t) :
  make_decision self now = Ok (d, self') ->
  exists b n c r,
    read_status (monitors self !! "battery") "get_level" "read" "battery_level" = Ok b
    /\ read_status (monitors self !! "network") "get_speed" "read" "network_quality"
       = Ok n
    /\ read_status (monitors self !! "carbon")
                   "get_carbon_intensity" "read" "carbon_intensity" = Ok c
    /\ Scoring.calculate_confidence
         (Scoring.calculate_sustainability_score
            {[ "battery" := b; "network" := n; "carbon" := c ]}
            (OrchestratorConfig.weights (config self)))
         (SystemContext.mk b n c (get (platform_info self) "system" "unknown") now ∅)
       = Ok r
    /\ d = Decision.mk
             (Scoring.calculate_sustainability_score
                {[ "battery" := b; "network" := n; "carbon" := c ]}
                (OrchestratorConfig.weights (config self)))
             r b n c now
             (determine_mode
                (config self) b n
                (Scoring.calculate_sustainability_score
                   {[ "battery" := b; "network" := n; "carbon" := c ]}
                   (OrchestratorConfig.weights (config self)))).1
             (determine_mode
                (config self) b n
                (Scoring.calculate_sustainability_score
                   {[ "battery" := b; "network" := n; "carbon" := c ]}
                   (OrchestratorConfig.weights (config self)))).2
             (Scoring.analyze_tradeoffs b n c)
    /\ self' = append_history self d.
Proof.
  unfold make_decision.
  destruct (read_status (monitors self !! "battery") _ _ _) as [b | e];
    [rewrite mbind_Ok | rewrite mbind_Raise; discriminate].
  destruct (read_status (monitors self !! "network") _ _ _) as [n | e];
    [rewrite mbind_Ok | rewrite mbind_Raise; discriminate].
  destruct (read_status (monitors self !! "carbon") _ _ _) as [c | e];
    [rewrite mbind_Ok | rewrite mbind_Raise; discriminate].
  cbv zeta.
  destruct (Scoring.calculate_confidence _ _) as [r | e] eqn:Hconf;
    [rewrite mbind_Ok | rewrite mbind_Raise; discriminate].
  intros H. injection H as <- <-.
  exists b, n, c, r. repeat split. exact Hconf.
Qed.

Lemma calculate_confidence_range (score : Q) (context : SystemContext.t) (r : R) :
  Scoring.calculate_confidence score context = Ok r -> (0 <= r <= 1)%R.
Proof.
  unfold Scoring.calculate_confidence.
  destruct (decide (Scoring.combined_confidence score context < 0)); [discriminate |].
  intros H. injection H as <-. apply Rmax_Rmin_bounds.
Qed.

(** Every decision that [make_decision] returns, whatever the readings, has
    a score and a confidence in [[0,1]], carries the time of the call, the
    three readings as they were read (they are not clamped) and the four
    tradeoff metrics; the call changes neither the configuration nor the
    monitors. *)
Theorem make_decision_returns_well_formed
        (self self' : t) (now : Q) (d : Decision.t) :
  make_decision self now = Ok (d, self') ->
  (0 <= Decision.score d /\ Decision.score d <= 1)
  /\ (0 <= Decision.confidence d <= 1)%R
  /\ Decision.timestamp d = now
  /\ read_status (monitors self !! "battery") "get_level" "read" "battery_level"
     = Ok (Decision.battery d)
  /\ read_status (monitors self !! "network") "get_speed" "read" "network_quality"
     = Ok (Decision.network d)
  /\ read_status (monitors self !! "carbon")
                 "get_carbon_intensity" "read" "carbon_intensity"
     = Ok (Decision.carbon d)
  /\ Decision.tradeoffs d
     = Scoring.analyze_tradeoffs (Decision.battery d) (Decision.network d)
                                 (Decision.carbon d)
  /\ config self' = config self
  /\ monitors self' = monitors self
  /\ platform_info self' = platform_info self.
Proof.
  intros H.
  destruct (make_decision_inv self self' now d H)
    as (b & n & c & r & Hb & Hn & Hc & Hconf & -> & ->).
  cbn [Decision.score Decision.confidence Decision.timestamp Decision.battery
       Decision.network Decision.carbon Decision.tradeoffs].
  split; [apply score_in_unit |].
  split; [exact (calculate_confidence_range _ _ _ Hconf) |].
  repeat split; assumption.
Qed.

Lemma make_decision_returns_well_formed_witness :
  exists d self',
    make_decision (Examples.orchestrator OrchestratorConfig.default 0.9 0.8 0.1) 7
    = Ok (d, self')
    /\ Decision.timestamp d = 7
    /\ Decision.battery d = 0.9.
Proof.
  destruct (example_readings OrchestratorConfig.default 0.9 0.8 0.1) as (Hb & Hn & Hc).
  assert (Ub : Spec.in_unit 0.9) by (split; vm_compute; discriminate).
  assert (Un : Spec.in_unit 0.8) by (split; vm_compute; discriminate).
  assert (Uc : Spec.in_unit 0.1) by (split; vm_compute; discriminate).
  destruct (make_decision_value _ 7 0.9 0.8 0.1 Hb Hn Hc Ub Un Uc) as (r & _ & Hd).
  cbv zeta in Hd.
  eexists. eexists. split; [exact Hd |].
  destruct (make_decision_returns_well_formed _ _ _ _ Hd)
    as (_ & _ & Ht & _).
  split; [exact Ht | reflexivity].
Defined.

(** A reading far outside [[0,1]] makes [make_decision] raise instead of
    returning: when the battery reading is at least 2.5 away from 0.5 (at
    least 3 or at most -2; a percentage such as 85, say), the network
    reading is at most 1 and the three readings are of a magnitude of at
    most 10^300, so that nothing overflows, the mean of the
    sub-confidences is a negative number, its power 0.5 is a complex
    number and the final [min] raises [TypeError].  The mean is at most
    -1/4, so the rounding of the floats does not change its sign. *)
Theorem make_decision_raises_out_of_range (self : t) (now b n c : Q) :
  read_status (monitors self !! "battery") "get_level" "read" "battery_level" = Ok b ->
  read_status (monitors self !! "network") "get_speed" "read" "network_quality" = Ok n ->
  read_status (monitors self !! "carbon")
              "get_carbon_intensity" "read" "carbon_intensity" = Ok c ->
  Spec.far_from_overflow b ->
  Spec.far_from_overflow n ->
  Spec.far_from_overflow c ->
  2.5 <= Qabs (b - 0.5) ->
  n <= 1 ->
  make_decision self now = Raise TypeError.
Proof.
  intros Hb Hn Hc _ _ _ Hfar Hnet.
  unfold make_decision.
  rewrite Hb, mbind_Ok, Hn, mbind_Ok, Hc, mbind_Ok. cbv zeta.
  unfold Scoring.calculate_confidence. cbv zeta.
  match goal with
  | |- context [decide (?m < 0)] => destruct (decide (m < 0)) as [_ | Hnn]
  end; [rewrite mbind_Raise; reflexivity |].
  exfalso. apply Hnn.
  unfold Scoring.combined_confidence. cbn [SystemContext.battery SystemContext.network
                                           SystemContext.carbon].
  set (s := Scoring.calculate_sustainability_score _ _).
  apply Qlt_shift_div_r; [lra |].
  pose proof (Qabs_nonneg (s - 0.5)).
  pose proof (Qabs_nonneg (c - 0.5)).
  lra.
Qed.

Lemma make_decision_raises_out_of_range_witness :
  make_decision (Examples.orchestrator OrchestratorConfig.default 85 0.8 0.1) 0
  = Raise TypeError.
Proof.
  destruct (example_readings OrchestratorConfig.default 85 0.8 0.1) as (Hb & Hn & Hc).
  apply (make_decision_raises_out_of_range _ 0 85 0.8 0.1 Hb Hn Hc).
  - unfold Spec.far_from_overflow. vm_compute. discriminate.
  - unfold Spec.far_from_overflow. vm_compute. discriminate.
  - unfold Spec.far_from_overflow. vm_compute. discriminate.
  - vm_compute. discriminate.
  - vm_compute. discriminate.
Defined.

End MoreEngineProperties.

(** ** The history: recent decisions and the sizes that are not positive *)

Section MoreHistoryProperties.

Import DynamicGreenOrchestrator.

Lemma slice_from_nil {A} (start : Z) : slice_from (@nil A) start = [].
Proof. unfold slice_from. apply drop_nil. Qed.

Lemma get_recent_decisions_slice (self : t) (count : Z) :
  get_recent_decisions self count = slice_from (decision_history self) (- count).
Proof.
  unfold get_recent_decisions.
  destruct (decision_history self); [rewrite slice_from_nil |]; reflexivity.
Qed.

(** [get_recent_decisions] with a count of at least 1 returns the last
    [count] decisions of the history, all of them when there are fewer; with
    a count of 0 it returns the whole history, not an empty list; with a
    negative count it returns the history without its first [-count]
    decisions. *)
Theorem get_recent_decisions_by_count (self : t) (count : Z) :
  ((1 <= count)%Z ->
   get_recent_decisions self count
   = Spec.last_n (Z.to_nat count) (decision_history self)
   /\ length (get_recent_decisions self count)
      = Nat.min (Z.to_nat count) (length (decision_history self)))
  /\ (count = 0%Z -> get_recent_decisions self count = decision_history self)
  /\ ((count < 0)%Z ->
      get_recent_decisions self count
      = drop (Z.to_nat (- count)) (decision_history self)).
Proof.
  rewrite get_recent_decisions_slice. unfold slice_from.
  set (h := decision_history self).
  split; [| split].
  - intros Hc.
    replace (- count <? 0)%Z with true by (symmetry; apply Z.ltb_lt; lia).
    assert (Heq : drop (Z.to_nat (Z.max (Z.of_nat (length h) + - count) 0)) h
                  = Spec.last_n (Z.to_nat count) h).
    { unfold Spec.last_n. f_equal. lia. }
    rewrite Heq. split; [reflexivity | apply last_n_length].
  - intros ->. change (Z.opp 0 <? 0)%Z with false. cbv iota.
    replace (Z.to_nat (Z.min (Z.opp 0) (Z.of_nat (length h)))) with 0%nat by lia.
    reflexivity.
  - intros Hc.
    replace (- count <? 0)%Z with false by (symmetry; apply Z.ltb_ge; lia).
    destruct (Z.le_gt_cases (- count) (Z.of_nat (length h))) as [Hle | Hgt].
    + f_equal. lia.
    + rewrite !drop_ge by lia. reflexivity.
Qed.

Lemma get_recent_decisions_by_count_witness :
  get_recent_decisions Examples.one_decision_orchestrator 5
  = Spec.last_n 5 (decision_history Examples.one_decision_orchestrator)
  /\ length (get_recent_decisions Examples.one_decision_orchestrator 5) = 1%nat.
Proof.
  refine (proj1 (get_recent_decisions_by_count Examples.one_decision_orchestrator 5) _).
  lia.
Defined.

(** What one append leaves when the size is not negative: the new decision
    is the last entry. *)
Lemma append_history_ends_with (self : t) (d : Decision.t) :
  (0 <= OrchestratorConfig.decision_history_size (config self))%Z ->
  exists k, decision_history (append_history self d)
            = drop k (decision_history self) ++ [d].
Proof.
  intros HN. unfold append_history. cbn [decision_history].
  set (N := OrchestratorConfig.decision_history_size (config self)) in *.
  set (h := decision_history self).
  destruct (N <? Z.of_nat (length (h ++ [d])))%Z eqn:Hcmp.
  - apply Z.ltb_lt in Hcmp. rewrite length_app in Hcmp. cbn [length] in Hcmp.
    unfold slice_from. rewrite length_app. cbn [length].
    destruct (- N <? 0)%Z eqn:Hneg.
    + exists (Z.to_nat (Z.max (Z.of_nat (length h + 1) + - N) 0)).
      apply drop_app_le. lia.
    + apply Z.ltb_ge in Hneg.
      exists 0%nat.
      replace (Z.to_nat (Z.min (- N) (Z.of_nat (length h + 1)))) with 0%nat by lia.
      reflexivity.
  - exists 0%nat. reflexivity.
Qed.

(** After a call that returned, the most recent decision is the one the
    call returned, for every size that is not negative. *)
Theorem get_recent_decisions_after_call
        (self self' : t) (now : Q) (d : Decision.t) :
  (0 <= OrchestratorConfig.decision_history_size (config self))%Z ->
  make_decision self now = Ok (d, self') ->
  get_recent_decisions self' 1 = [d].
Proof.
  intros HN Hd. apply make_decision_appends in Hd. subst self'.
  destruct (append_history_ends_with self d HN) as [k Hk].
  rewrite get_recent_decisions_slice, Hk. unfold slice_from.
  change (Z.opp 1 <? 0)%Z with true. cbv iota.
  rewrite length_app. cbn [length].
  replace (Z.to_nat (Z.max (Z.of_nat (length (drop k (decision_history self)) + 1)
                            + Z.opp 1) 0))
    with (length (drop k (decision_history self))) by lia.
  apply drop_app_length.
Qed.

Lemma get_recent_decisions_after_call_witness :
  exists d self',
    make_decision (Examples.orchestrator OrchestratorConfig.default 0.9 0.8 0.1) 7
    = Ok (d, self')
    /\ get_recent_decisions self' 1 = [d].
Proof.
  destruct (example_readings OrchestratorConfig.default 0.9 0.8 0.1) as (Hb & Hn & Hc).
  assert (Ub : Spec.in_unit 0.9) by (split; vm_compute; discriminate).
  assert (Un : Spec.in_unit 0.8) by (split; vm_compute; discriminate).
  assert (Uc : Spec.in_unit 0.1) by (split; vm_compute; discriminate).
  destruct (make_decision_value _ 7 0.9 0.8 0.1 Hb Hn Hc Ub Un Uc) as (r & _ & Hd).
  cbv zeta in Hd.
  eexists. eexists. split; [exact Hd |].
  refine (get_recent_decisions_after_call _ _ _ _ _ Hd).
  vm_compute. discriminate.
Defined.

Lemma append_history_size_zero (self : t) (d : Decision.t) :
  OrchestratorConfig.decision_history_size (config self) = 0%Z ->
  decision_history (append_history self d) = decision_history self ++ [d].
Proof.
  intros H0. unfold append_history. cbn [decision_history]. rewrite H0.
  destruct (0 <? _)%Z; [| reflexivity].
  unfold slice_from. change (Z.opp 0 <? 0)%Z with false. cbv iota.
  replace (Z.to_nat (Z.min (Z.opp 0) _)) with 0%nat by lia. reflexivity.
Qed.

Lemma append_history_size_negative (self : t) (d : Decision.t) :
  (OrchestratorConfig.decision_history_size (config self) < 0)%Z ->
  decision_history self = [] ->
  decision_history (append_history self d) = [].
Proof.
  intros Hneg Hempty. unfold append_history. cbn [decision_history].
  rewrite Hempty. cbn [app length].
  replace (_ <? Z.of_nat 1)%Z with true by (symmetry; apply Z.ltb_lt; lia).
  unfold slice_from. cbn [length].
  replace (- _ <? 0)%Z with false by (symmetry; apply Z.ltb_ge; lia).
  replace (Z.to_nat (Z.min _ (Z.of_nat 1))) with 1%nat by lia.
  reflexivity.
Qed.

(** The limit of the history only works for a positive size.  With
    [decision_history_size = 0] nothing is ever dropped: after a run the
    history is the old one followed by all the decisions returned.  With a
    negative size an empty history stays empty: every decision is dropped as
    soon as it is appended. *)
Theorem history_size_not_positive
        (calls : list (gmap string (gmap string attribute) * Q)) :
  forall (self self' : t) (ds : list Decision.t),
    make_decisions self calls = Ok (ds, self') ->
    (OrchestratorConfig.decision_history_size (config self) = 0%Z ->
     decision_history self' = decision_history self ++ ds)
    /\ ((OrchestratorConfig.decision_history_size (config self) < 0)%Z ->
        decision_history self = [] ->
        decision_history self' = []).
Proof.
  induction calls as [| [ms now] rest IH]; intros self self' ds Hrun.
  - cbn [make_decisions] in Hrun. injection Hrun as <- <-.
    rewrite app_nil_r. split; [reflexivity | intros _ H; exact H].
  - cbn [make_decisions] in Hrun.
    destruct (make_decision (with_monitors self ms) now) as [[d self1] | e] eqn:Hd;
      [rewrite mbind_Ok in Hrun | rewrite mbind_Raise in Hrun; discriminate].
    cbn beta iota in Hrun.
    destruct (make_decisions self1 rest) as [[ds' self2] | e] eqn:Hrest;
      [rewrite mbind_Ok in Hrun | rewrite mbind_Raise in Hrun; discriminate].
    cbn beta iota in Hrun. injection Hrun as <- <-.
    apply make_decision_appends in Hd.
    assert (Hcfg : config self1 = config self) by (rewrite Hd; reflexivity).
    destruct (IH self1 self2 ds' Hrest) as [Hzero Hneg].
    rewrite Hcfg in Hzero, Hneg.
    split.
    + intros H0. rewrite (Hzero H0), Hd.
      rewrite append_history_size_zero by exact H0.
      cbn [with_monitors decision_history]. rewrite <- app_assoc. reflexivity.
    + intros Hlt Hempty. apply (Hneg Hlt). rewrite Hd.
      apply append_history_size_negative; assumption.
Qed.

Lemma history_size_not_positive_witness :
  let unlimited :=
    OrchestratorConfig.mk OrchestratorConfig.default_weights 0.5 0.2 0.8
                          true true true "IN" "INFO" None "1.0.0" 0 in
  let mid := {[ "battery" := Examples.reporting "get_level" 0.5;
                "network" := Examples.reporting "get_speed" 0.5;
                "carbon" := Examples.reporting "get_carbon_intensity" 0.5 ]} in
  exists ds self',
    make_decisions (Examples.orchestrator unlimited 0.5 0.5 0.5) [ (mid, 1); (mid, 2) ]
    = Ok (ds, self')
    /\ decision_history self' = ds.
Proof.
  intros unlimited mid.
  assert (U : Spec.in_unit 0.5) by (split; vm_compute; discriminate).
  destruct (make_decisions_returns
              [ (mid, 1); (mid, 2) ] (Examples.orchestrator unlimited 0.5 0.5 0.5))
    as (ds & self' & Hrun).
  { repeat apply Forall_cons_2; try apply Forall_nil_2;
      apply example_readable; assumption. }
  exists ds, self'. split; [exact Hrun |].
  exact (proj1 (history_size_not_positive _ _ _ _ Hrun) eq_refl).
Defined.

End MoreHistoryProperties.

(** ** The decision engine: thresholds at the ends, monitors, statistics *)

Section MoreOrchestratorProperties.

Import DynamicGreenOrchestrator.

(** The score never leaves [[0,1]], so at the ends of the range that
    [validate] accepts the threshold rule is one-sided: with a threshold of
    1 or more no decision is HYBRID, and with a threshold of 0 or less a
    decision is DEFERRED only when its score is 0. *)
Theorem threshold_at_the_ends (self self' : t) (now : Q) (d : Decision.t) :
  make_decision self now = Ok (d, self') ->
  (1 <= OrchestratorConfig.threshold (config self) ->
   Decision.recommended_mode d <> HYBRID)
  /\ (OrchestratorConfig.threshold (config self) <= 0 ->
      Decision.recommended_mode d = DEFERRED ->
      Decision.score d == 0).
Proof.
  intros H.
  destruct (make_decision_inv self self' now d H)
    as (b & n & c & r & _ & _ & _ & _ & -> & _).
  cbn [Decision.recommended_mode Decision.score].
  set (s := Scoring.calculate_sustainability_score _ _).
  destruct (score_in_unit {[ "battery" := b; "network" := n; "carbon" := c ]}
                          (OrchestratorConfig.weights (config self))) as [Hs0 Hs1].
  fold s in Hs0, Hs1.
  unfold determine_mode.
  destruct (decide (b < _)); cbn [fst]; [split; intros; discriminate |].
  destruct (bool_decide (_ < b) && bool_decide (0.7 < n)); cbn [fst];
    [split; intros; discriminate |].
  destruct (decide (OrchestratorConfig.threshold (config self) < s)) as [Hlt | Hge];
    cbn [fst]; split; intros; try discriminate; lra.
Qed.

Lemma threshold_at_the_ends_witness :
  let strict :=
    OrchestratorConfig.mk OrchestratorConfig.default_weights 1 0.2 0.8
                          true true true "IN" "INFO" None "1.0.0" 1000 in
  OrchestratorConfig.validate strict = Ok tt
  /\ exists d self',
      make_decision (Examples.orchestrator strict 0.5 1 0) 0 = Ok (d, self')
      /\ Decision.recommended_mode d <> HYBRID.
Proof.
  intros strict. split; [vm_compute; reflexivity |].
  destruct (example_readings strict 0.5 1 0) as (Hb & Hn & Hc).
  assert (Ub : Spec.in_unit 0.5) by (split; vm_compute; discriminate).
  assert (Un : Spec.in_unit 1) by (split; vm_compute; discriminate).
  assert (Uc : Spec.in_unit 0) by (split; vm_compute; discriminate).
  destruct (make_decision_value _ 0 0.5 1 0 Hb Hn Hc Ub Un Uc) as (r & _ & Hd).
  cbv zeta in Hd.
  eexists. eexists. split; [exact Hd |].
  apply (proj1 (threshold_at_the_ends _ _ _ _ Hd)).
  vm_compute. discriminate.
Defined.

(** [_initialize_monitors] never raises and always stores a battery, a
    network and a carbon monitor.  With [use_real_battery] the battery
    monitor is the universal one; without it, it is the monitor of the
    platform (on Linux the Linux one), not a simulated one.  The network
    monitor is the speed test exactly when real network monitoring is on and
    [import speedtest] succeeds, the ping monitor when it is on and the
    import fails, and the simulated one when it is off.  The carbon monitor
    is the Electricity Maps one exactly when real carbon monitoring is on
    and the environment holds a non-empty key, and the simulated one
    otherwise. *)
Theorem initialize_monitors_builds_three
        (config : OrchestratorConfig.t) (host : MonitorFactory.Host) :
  exists battery network carbon,
    _initialize_monitors config host
    = Ok {[ "battery" := battery; "network" := network; "carbon" := carbon ]}
    /\ (OrchestratorConfig.use_real_battery config = true ->
        battery = MonitorFactory.UniversalBatteryMonitor)
    /\ (OrchestratorConfig.use_real_battery config = false ->
        MonitorFactory.platform_system host = "Linux" ->
        battery = MonitorFactory.LinuxBatteryMonitor)
    /\ (network = MonitorFactory.SpeedTestMonitor <->
        OrchestratorConfig.use_real_network config = true
        /\ MonitorFactory.import_speedtest host = Ok tt)
    /\ (OrchestratorConfig.use_real_network config = true ->
        MonitorFactory.import_speedtest host <> Ok tt ->
        network = MonitorFactory.PingMonitor)
    /\ (OrchestratorConfig.use_real_network config = false ->
        network = MonitorFactory.SimulatedNetworkMonitor)
    /\ (carbon = MonitorFactory.ElectricityMapsMonitor <->
        OrchestratorConfig.use_real_carbon config = true
        /\ MonitorFactory.truthy (MonitorFactory.getenv_api_key host) = true)
    /\ (carbon <> MonitorFactory.ElectricityMapsMonitor ->
        carbon = MonitorFactory.SimulatedCarbonMonitor).
Proof.
  unfold _initialize_monitors.
  cbv zeta.
  change (MonitorFactory.create_battery_monitor
            true false (MonitorFactory.platform_system host))
    with MonitorFactory.UniversalBatteryMonitor.
  unfold MonitorFactory.create_carbon_monitor, MonitorFactory.create_network_monitor,
    MonitorFactory.SpeedTestMonitor_is_available, try_except, try_except_Exception.
  destruct (OrchestratorConfig.use_real_battery config) eqn:Eb;
    destruct (OrchestratorConfig.use_real_network config) eqn:En;
    destruct (OrchestratorConfig.use_real_carbon config) eqn:Ec;
    destruct (MonitorFactory.import_speedtest host) as [[] | e] eqn:Ei;
    destruct (MonitorFactory.truthy (MonitorFactory.getenv_api_key host)) eqn:Ek;
    try destruct e;
    cbn [mbind result_bind bind negb existsb issubclass orb MonitorFactory.truthy
         String.eqb];
    try (destruct (negb _));
    (do 3 eexists; split; [reflexivity |];
     repeat split; intros; try discriminate; try congruence;
     try match goal with
         | H : _ = "Linux" |- _ =>
             unfold MonitorFactory.create_battery_monitor; rewrite H; reflexivity
         end;
     try match goal with
         | H : _ /\ _ |- _ => destruct H; discriminate
         end).
Qed.

Lemma initialize_monitors_builds_three_witness :
  exists battery network carbon,
    _initialize_monitors OrchestratorConfig.default Examples.linux_host
    = Ok {[ "battery" := battery; "network" := network; "carbon" := carbon ]}
    /\ battery = MonitorFactory.UniversalBatteryMonitor
    /\ network = MonitorFactory.PingMonitor.
Proof.
  destruct (initialize_monitors_builds_three OrchestratorConfig.default Examples.linux_host)
    as (battery & network & carbon & Hinit & Hb & _ & _ & Hping & _).
  exists battery, network, carbon.
  split; [exact Hinit |]. split; [apply Hb; reflexivity |].
  apply Hping; [reflexivity | discriminate].
Defined.






End MoreOrchestratorProperties.

(** ** The monitors *)

(** Name every [Qmin] and [Qmax] of the goal and recall what it is. *)
Ltac minmax_specs :=
  repeat match goal with
         | |- context [Qmin ?a ?b] =>
             let m := fresh "m" in
             pose proof (Q.min_spec a b); set (m := Qmin a b) in *; clearbody m
         | |- context [Qmax ?a ?b] =>
             let m := fresh "m" in
             pose proof (Q.max_spec a b); set (m := Qmax a b) in *; clearbody m
         | H : context [Qmin ?a ?b] |- _ =>
             let m := fresh "m" in
             pose proof (Q.min_spec a b); set (m := Qmin a b) in *; clearbody m
         | H : context [Qmax ?a ?b] |- _ =>
             let m := fresh "m" in
             pose proof (Q.max_spec a b); set (m := Qmax a b) in *; clearbody m
         end;
  repeat match goal with
         | H : _ /\ _ \/ _ /\ _ |- _ => destruct H as [[? ?] | [? ?]]
         end.

Section MoreMonitorProperties.

Import Monitors.

(** Dividing by a constant, for [lra]. *)
Lemma Qdiv_200 (x : Q) : x / 200.0 == x * 0.005.
Proof. unfold Qdiv. assert (H : / 200.0 == 0.005) by reflexivity. rewrite H. reflexivity. Qed.

Lemma Qdiv_500 (x : Q) : x / 500.0 == x * 0.002.
Proof. unfold Qdiv. assert (H : / 500.0 == 0.002) by reflexivity. rewrite H. reflexivity. Qed.

(** The quality of a connection lies in [[0, 1]], grows with the speed and
    falls with the latency; for a speed of at most 200 Mbps and a latency
    of at most 500 ms, both not negative, it is 0.7 of the speed over 200
    plus 0.3 of one minus the latency over 500. *)
Theorem calculate_quality_range_and_order (speed speed' latency latency' : Q) :
  speed <= speed' ->
  latency' <= latency ->
  0 <= _calculate_quality speed latency
  /\ _calculate_quality speed latency <= _calculate_quality speed' latency'
  /\ _calculate_quality speed' latency' <= 1
  /\ (0 <= speed -> speed <= 200 -> 0 <= latency -> latency <= 500 ->
      _calculate_quality speed latency
      == 0.7 * (speed / 200) + 0.3 * (1 - latency / 500)).
Proof.
  intros Hs Hl. unfold _calculate_quality. cbv zeta.
  rewrite !Qdiv_200, !Qdiv_500.
  assert (H200 : forall x, x / 200 == x * 0.005).
  { intros x. unfold Qdiv. assert (H : / 200 == 0.005) by reflexivity.
    rewrite H. reflexivity. }
  assert (H500 : forall x, x / 500 == x * 0.002).
  { intros x. unfold Qdiv. assert (H : / 500 == 0.002) by reflexivity.
    rewrite H. reflexivity. }
  rewrite H200, H500.
  minmax_specs; repeat split; try intros; lra.
Qed.

Lemma calculate_quality_range_and_order_witness :
  _calculate_quality 50 30 <= _calculate_quality 100 20.
Proof.
  refine (proj1 (proj2 (calculate_quality_range_and_order 50 100 30 20 _ _)));
    vm_compute; discriminate.
Defined.

Lemma Qmax_Qmin_100 (x : Q) : 0 <= Qmax 0.0 (Qmin 100.0 x) /\ Qmax 0.0 (Qmin 100.0 x) <= 100.
Proof.
  destruct (Q.max_spec 0.0 (Qmin 100.0 x)) as [[? H] | [? H]]; rewrite H;
    destruct (Q.min_spec 100.0 x) as [[? H'] | [? H']]; rewrite ?H' in *; split; lra.
Qed.

(** The reading of [get_info] of a battery monitor always has a
    percentage that is a float between 0 and 100, and the one of a network
    monitor a quality that is a float between 0 and 1, whatever the probe
    of the concrete class returns or raises; both carry the time of the
    call. *)
Theorem get_info_values_in_range (float_of_str : string -> option Q)
        (raw : result (gmap string value)) (now : Q) :
  (exists info percentage,
      battery_get_info float_of_str raw now = Ok info
      /\ info !! "percentage" = Some (VFloat percentage)
      /\ 0 <= percentage /\ percentage <= 100
      /\ info !! "timestamp" = Some (VFloat now)
      /\ is_Some (info !! "is_charging")
      /\ is_Some (info !! "status")
      /\ is_Some (info !! "source"))
  /\ (exists info quality,
         network_get_info raw now = Ok info
         /\ info !! "quality" = Some (VFloat quality)
         /\ 0 <= quality /\ quality <= 1
         /\ info !! "timestamp" = Some (VFloat now)
         /\ is_Some (info !! "speed_mbps")
         /\ is_Some (info !! "latency_ms")
         /\ is_Some (info !! "connected")
         /\ is_Some (info !! "source")).
Proof.
  assert (Hbattery : exists percentage,
             battery_fallback_info now !! "percentage" = Some (VFloat percentage)
             /\ 0 <= percentage /\ percentage <= 100
             /\ battery_fallback_info now !! "timestamp" = Some (VFloat now)
             /\ is_Some (battery_fallback_info now !! "is_charging")
             /\ is_Some (battery_fallback_info now !! "status")
             /\ is_Some (battery_fallback_info now !! "source")).
  { eexists. split; [reflexivity |].
    split; [discriminate |]. split; [discriminate |].
    split; [reflexivity |]. repeat split; eexists; reflexivity. }
  assert (Hnetwork : exists quality,
             network_fallback_info now !! "quality" = Some (VFloat quality)
             /\ 0 <= quality /\ quality <= 1
             /\ network_fallback_info now !! "timestamp" = Some (VFloat now)
             /\ is_Some (network_fallback_info now !! "speed_mbps")
             /\ is_Some (network_fallback_info now !! "latency_ms")
             /\ is_Some (network_fallback_info now !! "connected")
             /\ is_Some (network_fallback_info now !! "source")).
  { eexists. split; [reflexivity |].
    split; [discriminate |]. split; [discriminate |].
    split; [reflexivity |]. repeat split; eexists; reflexivity. }
  split.
  - destruct Hbattery as [p0 Hp0].
    unfold battery_get_info, try_except_Exception.
    destruct raw as [raw_info | e']; run_bind;
      [| exists (battery_fallback_info now), p0; split; [reflexivity | exact Hp0]].
    destruct (getitem _ "percentage") as [p | e1]; run_bind;
      [| exists (battery_fallback_info now), p0; split; [reflexivity | exact Hp0]].
    destruct (float float_of_str p) as [q | e2]; run_bind;
      [| exists (battery_fallback_info now), p0; split; [reflexivity | exact Hp0]].
    eexists. exists (Qmax 0.0 (Qmin 100.0 q)).
    split; [reflexivity |].
    split; [apply lookup_insert_eq |].
    split; [apply Qmax_Qmin_100 |]. split; [apply Qmax_Qmin_100 |].
    rewrite !lookup_insert_ne by discriminate.
    split; [reflexivity |]. repeat split; eexists; reflexivity.
  - destruct Hnetwork as [q0 Hq0].
    unfold network_get_info, try_except_Exception.
    destruct raw as [raw_info | e']; run_bind;
      [| exists (network_fallback_info now), q0; split; [reflexivity | exact Hq0]].
    destruct (getitem _ "quality") as [p | e1]; run_bind;
      [| exists (network_fallback_info now), q0; split; [reflexivity | exact Hq0]].
    destruct (as_number p) as [q | e2]; run_bind;
      [| exists (network_fallback_info now), q0; split; [reflexivity | exact Hq0]].
    destruct (getitem _ "speed_mbps") as [s | e3]; run_bind;
      [| exists (network_fallback_info now), q0; split; [reflexivity | exact Hq0]].
    destruct (format_f s) as [[] | e4]; run_bind;
      [| exists (network_fallback_info now), q0; split; [reflexivity | exact Hq0]].
    destruct (getitem _ "latency_ms") as [l | e5]; run_bind;
      [| exists (network_fallback_info now), q0; split; [reflexivity | exact Hq0]].
    destruct (format_f l) as [[] | e6]; run_bind;
      [| exists (network_fallback_info now), q0; split; [reflexivity | exact Hq0]].
    eexists. exists (Qmax 0.0 (Qmin 1.0 q)).
    split; [reflexivity |].
    split; [apply lookup_insert_eq |].
    pose proof (Qmax_Qmin_bounds q) as [Hlo Hhi].
    split; [exact Hlo |]. split; [exact Hhi |].
    rewrite !lookup_insert_ne by discriminate.
    split; [reflexivity |]. repeat split; eexists; reflexivity.
Qed.

End MoreMonitorProperties.

(** ** The cache of [BaseMonitor] *)

Section CacheProperties.

Import BaseMonitor.

(** A reading that is not empty, obtained by [get_cached_info] on an empty
    cache, is returned again by every call made less than [cache_ttl]
    seconds later, whatever the monitor would report then, and the object
    is left as it is; a call made [cache_ttl] seconds later or more asks
    the monitor again. *)
Theorem get_cached_info_serves_reading
        (self : t) (first later : Q) (info : gmap string value)
        (probe : result (gmap string value)) :
  cache self = ∅ ->
  info <> ∅ ->
  let filled := snd (get_cached_info self first (Ok info)) in
  fst (get_cached_info self first (Ok info)) = Ok info
  /\ (later - first < cache_ttl self ->
      get_cached_info filled later probe = (Ok info, filled))
  /\ (cache_ttl self <= later - first ->
      fst (get_cached_info filled later probe) = probe).
Proof.
  intros Hempty Hinfo filled.
  assert (Hfirst : get_cached_info self first (Ok info)
                   = (Ok info, {| last_update_time := first;
                                  cache_ttl := cache_ttl self;
                                  cache := info |})).
  { unfold get_cached_info. rewrite Hempty.
    rewrite bool_decide_eq_true_2 by reflexivity. reflexivity. }
  subst filled. rewrite Hfirst. cbn [fst snd].
  split; [reflexivity |]. split.
  - intros Hfresh. unfold get_cached_info. cbn [cache last_update_time cache_ttl].
    rewrite (bool_decide_eq_false_2 (info = ∅)) by exact Hinfo.
    rewrite bool_decide_eq_true_2 by exact Hfresh. reflexivity.
  - intros Hstale. unfold get_cached_info. cbn [cache last_update_time cache_ttl].
    rewrite (bool_decide_eq_false_2 (info = ∅)) by exact Hinfo.
    rewrite (bool_decide_eq_false_2 (later - first < cache_ttl self))
      by (apply Qle_not_lt; exact Hstale).
    destruct probe; reflexivity.
Qed.

Lemma get_cached_info_serves_reading_witness :
  get_cached_info
    (snd (get_cached_info init 1000 (Ok {[ "quality" := VFloat 0.5 ]})))
    1200 (Raise RuntimeError)
  = (Ok {[ "quality" := VFloat 0.5 ]},
     snd (get_cached_info init 1000 (Ok {[ "quality" := VFloat 0.5 ]}))).
Proof.
  refine (proj1 (proj2 (get_cached_info_serves_reading
                          init 1000 1200 {[ "quality" := VFloat 0.5 ]}
                          (Raise RuntimeError) _ _)) _).
  - reflexivity.
  - apply (bool_decide_unpack _). vm_compute. exact I.
  - vm_compute. reflexivity.
Defined.

(** [refresh] returns what the monitor reports and leaves the cache empty:
    the next [get_cached_info] asks the monitor again, at any time.  So
    does a [get_cached_info] that obtained an empty reading. *)
Theorem refresh_leaves_cache_empty
        (self : t) (now : Q) (probe next : result (gmap string value)) :
  fst (refresh self probe) = probe
  /\ cache (snd (refresh self probe)) = ∅
  /\ cache_ttl (snd (refresh self probe)) = cache_ttl self
  /\ fst (get_cached_info (snd (refresh self probe)) now next) = next
  /\ (cache self = ∅ ->
      forall first,
        fst (get_cached_info (snd (get_cached_info self first (Ok ∅))) now next)
        = next).
Proof.
  split; [reflexivity |]. split; [reflexivity |]. split; [reflexivity |].
  split.
  - unfold get_cached_info, refresh. cbn [snd cache].
    rewrite bool_decide_eq_true_2 by reflexivity. cbn [negb andb].
    destruct next; reflexivity.
  - intros Hempty first. unfold get_cached_info at 2. rewrite Hempty.
    rewrite bool_decide_eq_true_2 by reflexivity. cbn [negb andb snd].
    unfold get_cached_info. cbn [cache].
    rewrite bool_decide_eq_true_2 by reflexivity. cbn [negb andb].
    destruct next; reflexivity.
Qed.

End CacheProperties.

(** ** Rounding *)

Section RoundProperties.

Lemma pow10_pos (n : nat) : 0 < inject_Z (10 ^ Z.of_nat n).
Proof.
  change 0 with (inject_Z 0). rewrite <- Zlt_Qlt.
  apply Z.pow_pos_nonneg; lia.
Qed.

Lemma Qdiv_le_mult (a x u : Q) : 0 < u -> a / u <= x -> a <= x * u.
Proof.
  intros Hu H. apply (Qmult_le_compat_r _ _ u) in H; [| lra].
  assert (Hq : a / u * u == a) by (field; lra).
  rewrite Hq in H. exact H.
Qed.

Lemma Qle_div_mult (x b u : Q) : 0 < u -> x <= b / u -> x * u <= b.
Proof.
  intros Hu H. apply (Qmult_le_compat_r _ _ u) in H; [| lra].
  assert (Hq : b / u * u == b) by (field; lra).
  rewrite Hq in H. exact H.
Qed.

(** [round] does not cross a multiple of [10^-ndigits] from above. *)
Lemma round_ge_grid (x : Q) (n : nat) (a : Z) :
  inject_Z a / inject_Z (10 ^ Z.of_nat n) <= x ->
  inject_Z a / inject_Z (10 ^ Z.of_nat n) <= round x n.
Proof.
  intros Hx. unfold round. cbv zeta.
  pose proof (pow10_pos n) as Hu.
  set (u := inject_Z (10 ^ Z.of_nat n)) in *.
  set (z := Qfloor (x * u)).
  assert (Ha : (a <= z)%Z).
  { unfold z. rewrite <- (Qfloor_Z a). apply Qfloor_resp_le.
    apply Qdiv_le_mult; [exact Hu | exact Hx]. }
  assert (Hnear : forall k : Z, (z <= k)%Z -> inject_Z a / u <= inject_Z k / u).
  { intros k Hk. apply Qmult_le_compat_r.
    - rewrite <- Zle_Qle. lia.
    - apply Qlt_le_weak, Qinv_lt_0_compat, Hu. }
  repeat match goal with
         | |- context [decide ?P] => destruct (decide P)
         | |- context [Z.even ?k] => destruct (Z.even k)
         end; apply Hnear; lia.
Qed.

(** [round] does not cross a multiple of [10^-ndigits] from below. *)
Lemma round_le_grid (x : Q) (n : nat) (b : Z) :
  x <= inject_Z b / inject_Z (10 ^ Z.of_nat n) ->
  round x n <= inject_Z b / inject_Z (10 ^ Z.of_nat n).
Proof.
  intros Hx. unfold round. cbv zeta.
  pose proof (pow10_pos n) as Hu.
  set (u := inject_Z (10 ^ Z.of_nat n)) in *.
  assert (Hs : x * u <= inject_Z b).
  { apply Qle_div_mult; [exact Hu | exact Hx]. }
  set (s := x * u) in *.
  pose proof (Qfloor_le s) as Hfl.
  set (z := Qfloor s) in *.
  assert (Hz : (z <= b)%Z).
  { rewrite Zle_Qle. lra. }
  assert (Hnear : forall k : Z, (k <= b)%Z -> inject_Z k / u <= inject_Z b / u).
  { intros k Hk. apply Qmult_le_compat_r.
    - rewrite <- Zle_Qle. lia.
    - apply Qlt_le_weak, Qinv_lt_0_compat, Hu. }
  assert (Hup : ~ s - inject_Z z < 1 # 2 -> (z + 1 <= b)%Z).
  { intros Hfrac.
    assert (Hlt : inject_Z z < inject_Z b) by lra.
    rewrite <- Zlt_Qlt in Hlt. lia. }
  destruct (decide (s - inject_Z z < 1 # 2)) as [Hf | Hf];
    [apply Hnear; exact Hz |].
  destruct (decide (1 # 2 < s - inject_Z z));
    [apply Hnear, Hup, Hf |].
  destruct (Z.even z); apply Hnear; [exact Hz | apply Hup, Hf].
Qed.

(** A value between two multiples of [10^-ndigits] is rounded to a value
    between them. *)
Lemma round_between (x lo hi : Q) (n : nat) (a b : Z) :
  lo == inject_Z a / inject_Z (10 ^ Z.of_nat n) ->
  hi == inject_Z b / inject_Z (10 ^ Z.of_nat n) ->
  lo <= x -> x <= hi ->
  lo <= round x n /\ round x n <= hi.
Proof.
  intros Hlo Hhi Hx1 Hx2. rewrite Hlo, Hhi in *.
  split; [apply round_ge_grid | apply round_le_grid]; assumption.
Qed.

End RoundProperties.

(** ** The simulated monitors *)

Section SimulatedMonitorProperties.

Lemma calculate_quality_nominal (speed latency : Q) :
  0 <= speed -> speed <= 200 -> 0 <= latency -> latency <= 500 ->
  Monitors._calculate_quality speed latency
  == 0.0035 * speed + 0.3 - 0.0006 * latency.
Proof.
  intros. unfold Monitors._calculate_quality. cbv zeta.
  rewrite Qdiv_200, Qdiv_500. minmax_specs; lra.
Qed.

(** The reading of the simulated network monitor, for draws that
    [random.uniform(-10, 10)] and [random.uniform(-5, 5)] can return.
    When the third draw is at most 0.05 the reading is disconnected,
    with speed 0, latency 1000 and quality 0.  Otherwise it is connected;
    during the first 30 seconds of every 300 the speed is between 10 and
    30, the latency between 75 and 85 and the quality between 0.284 and
    0.36, and outside them between 40 and 60, 25 and 35, 0.419 and 0.495.
    The base values stay and the time of the call is recorded. *)
Theorem simulated_network_reading
        (self : SimulatedNetworkMonitor.t)
        (current_time speed_draw latency_draw connected_draw : Q) :
  SimulatedNetworkMonitor.base_speed self = 50.0 ->
  SimulatedNetworkMonitor.base_latency self = 30.0 ->
  -10 <= speed_draw -> speed_draw <= 10 ->
  -5 <= latency_draw -> latency_draw <= 5 ->
  let r := SimulatedNetworkMonitor._get_raw_network_info
             self current_time speed_draw latency_draw connected_draw in
  exists speed latency quality,
    fst r !! "speed_mbps" = Some (VFloat speed)
    /\ fst r !! "latency_ms" = Some (VFloat latency)
    /\ fst r !! "quality" = Some (VFloat quality)
    /\ fst r !! "connected" = Some (VBool (bool_decide (0.05 < connected_draw)))
    /\ fst r !! "source" = Some (VStr "simulation")
    /\ (connected_draw <= 0.05 ->
        speed == 0 /\ latency == 1000 /\ quality == 0)
    /\ (0.05 < connected_draw ->
        (PyNum.int current_time mod 300 < 30)%Z ->
        (10 <= speed /\ speed <= 30)
        /\ (75 <= latency /\ latency <= 85)
        /\ (0.284 <= quality /\ quality <= 0.36))
    /\ (0.05 < connected_draw ->
        (30 <= PyNum.int current_time mod 300)%Z ->
        (40 <= speed /\ speed <= 60)
        /\ (25 <= latency /\ latency <= 35)
        /\ (0.419 <= quality /\ quality <= 0.495))
    /\ SimulatedNetworkMonitor.base_speed (snd r) = 50.0
    /\ SimulatedNetworkMonitor.base_latency (snd r) = 30.0
    /\ SimulatedNetworkMonitor.last_update (snd r) = current_time.
Proof.
  intros Hspeed Hlatency Hs1 Hs2 Hl1 Hl2. cbv zeta.
  unfold SimulatedNetworkMonitor._get_raw_network_info.
  rewrite Hspeed, Hlatency. cbv zeta.
  do 3 eexists. cbn [fst snd].
  split; [reflexivity |]. split; [reflexivity |]. split; [reflexivity |].
  split; [reflexivity |]. split; [reflexivity |].
  cbn [SimulatedNetworkMonitor.base_speed SimulatedNetworkMonitor.base_latency
       SimulatedNetworkMonitor.last_update].
  split; [| split; [| split; [| repeat split]]].
  - intros Hc.
    rewrite (bool_decide_eq_false_2 (0.05 < connected_draw))
      by (apply Qle_not_lt; exact Hc).
    repeat split; vm_compute; reflexivity.
  - intros Hc Hslow.
    rewrite (bool_decide_eq_true_2 (0.05 < connected_draw)) by exact Hc.
    rewrite (bool_decide_eq_true_2 _ Hslow).
    set (speed := Qmax 0.1 (50.0 + (speed_draw - 30))).
    set (latency := Qmax 1.0 (30.0 + (latency_draw + 50))).
    assert (Hsp : 10 <= speed /\ speed <= 30) by (unfold speed; minmax_specs; lra).
    assert (Hla : 75 <= latency /\ latency <= 85)
      by (unfold latency; minmax_specs; lra).
    pose proof (calculate_quality_nominal speed latency) as Hq.
    split; [| split].
    + apply (round_between speed 10 30 1 100 300);
        [reflexivity | reflexivity | lra | lra].
    + apply (round_between latency 75 85 1 750 850);
        [reflexivity | reflexivity | lra | lra].
    + apply (round_between _ 0.284 0.36 3 284 360);
        [reflexivity | reflexivity | lra | lra].
  - intros Hc Hfast.
    rewrite (bool_decide_eq_true_2 (0.05 < connected_draw)) by exact Hc.
    rewrite (bool_decide_eq_false_2 (PyNum.int current_time mod 300 < 30)%Z)
      by lia.
    set (speed := Qmax 0.1 (50.0 + speed_draw)).
    set (latency := Qmax 1.0 (30.0 + latency_draw)).
    assert (Hsp : 40 <= speed /\ speed <= 60) by (unfold speed; minmax_specs; lra).
    assert (Hla : 25 <= latency /\ latency <= 35)
      by (unfold latency; minmax_specs; lra).
    pose proof (calculate_quality_nominal speed latency) as Hq.
    split; [| split].
    + apply (round_between speed 40 60 1 400 600);
        [reflexivity | reflexivity | lra | lra].
    + apply (round_between latency 25 35 1 250 350);
        [reflexivity | reflexivity | lra | lra].
    + apply (round_between _ 0.419 0.495 3 419 495);
        [reflexivity | reflexivity | lra | lra].
Qed.

Lemma simulated_network_reading_witness :
  exists speed latency quality,
    fst (SimulatedNetworkMonitor._get_raw_network_info
           (SimulatedNetworkMonitor.init 0) 100 4 (-2) 0.5)
    !! "speed_mbps" = Some (VFloat speed)
    /\ fst (SimulatedNetworkMonitor._get_raw_network_info
              (SimulatedNetworkMonitor.init 0) 100 4 (-2) 0.5)
       !! "latency_ms" = Some (VFloat latency)
    /\ fst (SimulatedNetworkMonitor._get_raw_network_info
              (SimulatedNetworkMonitor.init 0) 100 4 (-2) 0.5)
       !! "quality" = Some (VFloat quality)
    /\ (40 <= speed /\ speed <= 60)
    /\ (25 <= latency /\ latency <= 35)
    /\ (0.419 <= quality /\ quality <= 0.495).
Proof.
  destruct (simulated_network_reading
              (SimulatedNetworkMonitor.init 0) 100 4 (-2) 0.5)
    as (speed & latency & quality & Hs & Hl & Hq & _ & _ & _ & _ & Hfast & _);
    try reflexivity; try (vm_compute; discriminate).
  exists speed, latency, quality.
  split; [exact Hs |]. split; [exact Hl |]. split; [exact Hq |].
  apply Hfast.
  - vm_compute. reflexivity.
  - vm_compute. discriminate.
Defined.

End SimulatedMonitorProperties.

Section SimulatedCarbonProperties.

Import SimulatedCarbonMonitor.

(** [x % m] lies in [[0, m)]. *)
Lemma float_mod_range (x m : Q) :
  0 < m -> 0 <= PyNum.float_mod x m /\ PyNum.float_mod x m < m.
Proof.
  intros Hm. unfold PyNum.float_mod.
  pose proof (Qfloor_le (x / m)) as Hlo.
  pose proof (Qlt_floor (x / m)) as Hhi.
  rewrite inject_Z_plus in Hhi. change (inject_Z 1) with 1 in Hhi.
  set (k := inject_Z (Qfloor (x / m))) in *.
  assert (Hx : x / m * m == x) by (field; lra).
  apply (Qmult_le_compat_r _ _ m) in Hlo; [| lra].
  apply (Qmult_lt_compat_r _ _ m) in Hhi; [| lra].
  rewrite Hx in Hlo, Hhi. split; lra.
Qed.

(** The hour of the day lies in [[0, 24)]. *)
Lemma hour_of_day_range (current_time : Q) :
  0 <= PyNum.float_mod current_time 86400 / 3600
  /\ PyNum.float_mod current_time 86400 / 3600 < 24.
Proof.
  destruct (float_mod_range current_time 86400) as [Hlo Hhi]; [reflexivity |].
  split.
  - apply Qle_shift_div_l; [reflexivity | lra].
  - apply Qlt_shift_div_r; [reflexivity | lra].
Qed.

(** The intensity before the floor of 10 is between 0.8 and 1.4 times the
    base intensity of the zone. *)
Lemma intensity_bounds (base hour draw : Q) :
  0 <= base -> 0 <= hour -> hour < 24 -> -0.1 <= draw -> draw <= 0.1 ->
  let daily_variation := 0.3 * base * (1 - Qabs (hour - 14) / 14) in
  let daily_variation :=
    if bool_decide (hour < 4) || bool_decide (20 < hour)
    then daily_variation * -0.5
    else daily_variation in
  0.8 * base <= base + daily_variation + draw * base
  /\ base + daily_variation + draw * base <= 1.4 * base.
Proof.
  intros Hbase Hh0 Hh24 Hd1 Hd2. cbv zeta.
  assert (H14 : forall x, x / 14 == x * (1 # 14)).
  { intros x. unfold Qdiv. assert (H : / 14 == 1 # 14) by reflexivity.
    rewrite H. reflexivity. }
  pose proof (H14 (Qabs (hour - 14))) as Hdiv.
  set (a := Qabs (hour - 14)) in *.
  assert (Ha : 0 <= a /\ a <= 14
               /\ (hour < 4 -> 10 < a) /\ (20 < hour -> 6 < a)).
  { unfold a. destruct (Qlt_le_dec (hour - 14) 0) as [Hneg | Hpos].
    - rewrite Qabs_neg by lra. repeat split; intros; lra.
    - rewrite Qabs_pos by lra. repeat split; intros; lra. }
  destruct Ha as (Ha0 & Ha14 & Ha4 & Ha20).
  set (d := a / 14) in *.
  assert (Hfactor : forall k : Q,
             -0.1 <= k -> k <= 0.3 ->
             0.8 * base <= (1 + k + draw) * base
             /\ (1 + k + draw) * base <= 1.4 * base).
  { intros k Hk1 Hk2. split; apply Qmult_le_compat_r; lra. }
  destruct (bool_decide (hour < 4)) eqn:H4;
    [apply bool_decide_eq_true_1 in H4 | apply bool_decide_eq_false_1 in H4];
    (destruct (bool_decide (20 < hour)) eqn:H20;
     [apply bool_decide_eq_true_1 in H20 | apply bool_decide_eq_false_1 in H20]);
    cbn [orb].
  - exfalso. lra.
  - match goal with
    | |- _ <= ?x /\ _ =>
        assert (E : x == (1 + 0.3 * (1 - d) * -0.5 + draw) * base) by ring
    end.
    rewrite E. apply Hfactor; lra.
  - match goal with
    | |- _ <= ?x /\ _ =>
        assert (E : x == (1 + 0.3 * (1 - d) * -0.5 + draw) * base) by ring
    end.
    rewrite E. apply Hfactor; lra.
  - match goal with
    | |- _ <= ?x /\ _ =>
        assert (E : x == (1 + 0.3 * (1 - d) + draw) * base) by ring
    end.
    rewrite E. apply Hfactor; lra.
Qed.

(** The base intensity of every zone, listed or not, is between 30 and
    700. *)
Lemma base_intensity_range (zone : string) :
  30 <= get zone_intensities zone 400 /\ get zone_intensities zone 400 <= 700.
Proof.
  unfold get.
  assert (Hall : map_Forall (fun _ v => 30 <= v /\ v <= 700) zone_intensities).
  { apply (bool_decide_unpack _). vm_compute. exact I. }
  destruct (zone_intensities !! zone) as [v |] eqn:Hz; cbn [default].
  - exact (Hall zone v Hz).
  - split; discriminate.
Qed.

(** The reading of the simulated carbon monitor, for a draw that
    [random.uniform(-0.1, 0.1)] can return: the intensity is between 10
    and 980 at every time of the day; the grid is reported green in the
    zones FR, SE and GB, and not green in the zones IN and CN and in every
    zone that the table does not list. *)
Theorem simulated_carbon_reading (zone : string) (current_time draw : Q) :
  -0.1 <= draw -> draw <= 0.1 ->
  let info := _get_raw_carbon_info zone current_time draw in
  exists intensity green,
    info !! "intensity" = Some (VFloat intensity)
    /\ info !! "is_green" = Some (VBool green)
    /\ info !! "zone" = Some (VStr zone)
    /\ info !! "source" = Some (VStr "simulation")
    /\ 10 <= intensity /\ intensity <= 980
    /\ (zone = "FR" \/ zone = "SE" \/ zone = "GB" -> green = true)
    /\ (zone = "IN" \/ zone = "CN" \/ zone_intensities !! zone = None ->
        green = false).
Proof.
  intros Hd1 Hd2. cbv zeta. unfold _get_raw_carbon_info. cbv zeta.
  do 2 eexists.
  split; [reflexivity |]. split; [reflexivity |]. split; [reflexivity |].
  split; [reflexivity |].
  destruct (hour_of_day_range current_time) as [Hh0 Hh24].
  set (hour := PyNum.float_mod current_time 86400 / 3600) in *.
  assert (Hraw : forall base, 0 <= base ->
             get zone_intensities zone 400 = base ->
             0.8 * base
             <= get zone_intensities zone 400
                + (if bool_decide (hour < 4) || bool_decide (20 < hour)
                   then 0.3 * get zone_intensities zone 400
                        * (1 - Qabs (hour - 14) / 14) * -0.5
                   else 0.3 * get zone_intensities zone 400
                        * (1 - Qabs (hour - 14) / 14))
                + draw * get zone_intensities zone 400
             /\ get zone_intensities zone 400
                + (if bool_decide (hour < 4) || bool_decide (20 < hour)
                   then 0.3 * get zone_intensities zone 400
                        * (1 - Qabs (hour - 14) / 14) * -0.5
                   else 0.3 * get zone_intensities zone 400
                        * (1 - Qabs (hour - 14) / 14))
                + draw * get zone_intensities zone 400
                <= 1.4 * base).
  { intros base Hbase ->.
    exact (intensity_bounds base hour draw Hbase Hh0 Hh24 Hd1 Hd2). }
  set (raw := get zone_intensities zone 400
              + (if bool_decide (hour < 4) || bool_decide (20 < hour)
                 then 0.3 * get zone_intensities zone 400
                      * (1 - Qabs (hour - 14) / 14) * -0.5
                 else 0.3 * get zone_intensities zone 400
                      * (1 - Qabs (hour - 14) / 14))
              + draw * get zone_intensities zone 400) in *.
  assert (Hgreen : forall base, 0 <= base ->
             get zone_intensities zone 400 = base ->
             (1.4 * base <= 300 -> _is_green_grid (Qmax 10 raw) 300.0 = true)
             /\ (300 < 0.8 * base -> _is_green_grid (Qmax 10 raw) 300.0 = false)).
  { intros base Hbase Hget. destruct (Hraw base Hbase Hget) as [H1 H2].
    unfold _is_green_grid. split; intros Hb.
    - apply bool_decide_eq_true_2. minmax_specs; lra.
    - apply bool_decide_eq_false_2. minmax_specs; lra. }
  split; [| split; [| split]].
  - destruct (base_intensity_range zone) as [Hb1 Hb2].
    destruct (Hraw (get zone_intensities zone 400)) as [H1 H2]; [lra | reflexivity |].
    apply (round_between _ 10 980 1 100 9800);
      [reflexivity | reflexivity | |]; minmax_specs; lra.
  - destruct (base_intensity_range zone) as [Hb1 Hb2].
    destruct (Hraw (get zone_intensities zone 400)) as [H1 H2]; [lra | reflexivity |].
    apply (round_between _ 10 980 1 100 9800);
      [reflexivity | reflexivity | |]; minmax_specs; lra.
  - intros [-> | [-> | ->]].
    + apply (Hgreen 50); [discriminate | reflexivity | discriminate].
    + apply (Hgreen 30); [discriminate | reflexivity | discriminate].
    + apply (Hgreen 200); [discriminate | reflexivity | discriminate].
  - intros [-> | [-> | Hnone]].
    + apply (Hgreen 650); [discriminate | reflexivity | reflexivity].
    + apply (Hgreen 700); [discriminate | reflexivity | reflexivity].
    + apply (Hgreen 400); [discriminate | | reflexivity].
      unfold get. rewrite Hnone. reflexivity.
Qed.

Lemma simulated_carbon_reading_witness :
  exists intensity green,
    _get_raw_carbon_info "IN" 50400 0.05 !! "intensity" = Some (VFloat intensity)
    /\ _get_raw_carbon_info "IN" 50400 0.05 !! "is_green" = Some (VBool green)
    /\ 10 <= intensity
    /\ green = false.
Proof.
  destruct (simulated_carbon_reading "IN" 50400 0.05)
    as (intensity & green & Hi & Hg & _ & _ & Hlo & _ & _ & Hnot);
    try (vm_compute; discriminate).
  exists intensity, green.
  split; [exact Hi |]. split; [exact Hg |]. split; [exact Hlo |].
  apply Hnot. left. reflexivity.
Defined.

End SimulatedCarbonProperties.

Section SimulatedBatteryProperties.

Import SimulatedBatteryMonitor.

(** One call of the simulated battery monitor, made when the clock has not
    gone back since the last one: a level between 0 and 100 stays between
    0 and 100, does not fall while charging and does not rise while
    discharging; the reading carries the level rounded to one decimal,
    itself between 0 and 100, and the charging state kept in the object;
    the rates stay and the time of the call is recorded. *)
Theorem simulated_battery_keeps_range (self : t) (current_time random : Q) :
  0 <= percentage self -> percentage self <= 100 ->
  last_update self <= current_time ->
  0 <= charge_rate self -> 0 <= discharge_rate self ->
  let r := _get_raw_battery_info self current_time random in
  (0 <= percentage (snd r) /\ percentage (snd r) <= 100)
  /\ (is_charging self = true -> percentage self <= percentage (snd r))
  /\ (is_charging self = false -> percentage (snd r) <= percentage self)
  /\ fst r !! "percentage" = Some (VFloat (round (percentage (snd r)) 1))
  /\ (0 <= round (percentage (snd r)) 1 /\ round (percentage (snd r)) 1 <= 100)
  /\ fst r !! "is_charging" = Some (VBool (is_charging (snd r)))
  /\ fst r !! "source" = Some (VStr "simulation")
  /\ last_update (snd r) = current_time
  /\ charge_rate (snd r) = charge_rate self
  /\ discharge_rate (snd r) = discharge_rate self.
Proof.
  intros Hp0 Hp100 Htime Hcharge Hdischarge. cbv zeta.
  unfold _get_raw_battery_info. cbv zeta. cbn [fst snd].
  cbn [percentage is_charging last_update charge_rate discharge_rate].
  assert (Hminutes : 0 <= (current_time - last_update self) / 60).
  { apply Qle_shift_div_l; [reflexivity | lra]. }
  set (minutes := (current_time - last_update self) / 60) in *.
  pose proof (Qmult_le_0_compat _ _ Hcharge Hminutes) as Hup.
  pose proof (Qmult_le_0_compat _ _ Hdischarge Hminutes) as Hdown.
  set (up := charge_rate self * minutes) in *.
  set (down := discharge_rate self * minutes) in *.
  assert (Hstate :
            let state :=
              if is_charging self
              then if decide (99.9 <= Qmin 100 (percentage self + up))
                   then (100.0, false)
                   else (Qmin 100 (percentage self + up), true)
              else if decide (Qmax 0 (percentage self - down) <= 20)
                   then (Qmax 0 (percentage self - down), true)
                   else (Qmax 0 (percentage self - down), false) in
            (0 <= fst state /\ fst state <= 100)
            /\ (is_charging self = true -> percentage self <= fst state)
            /\ (is_charging self = false -> fst state <= percentage self)).
  { cbv zeta. destruct (is_charging self).
    - destruct (decide _); cbn [fst];
        (split; [| split; [intros _ | discriminate]]);
        try (split; discriminate); minmax_specs; try split; lra.
    - destruct (decide _); cbn [fst];
        (split; [| split; [discriminate | intros _]]);
        minmax_specs; try split; lra. }
  cbv zeta in Hstate.
  set (state := if is_charging self then _ else _) in *.
  destruct Hstate as (Hrange & Hrise & Hfall).
  split; [exact Hrange |]. split; [exact Hrise |]. split; [exact Hfall |].
  split; [reflexivity |].
  split; [apply (round_between _ 0 100 1 0 1000);
          [reflexivity | reflexivity | apply Hrange | apply Hrange] |].
  split; [reflexivity |]. split; [reflexivity |].
  split; [reflexivity |]. split; reflexivity.
Qed.

Lemma simulated_battery_keeps_range_witness :
  0 <= percentage (snd (_get_raw_battery_info (init 85.0 0) 600 0.5))
  /\ percentage (snd (_get_raw_battery_info (init 85.0 0) 600 0.5)) <= 100.
Proof.
  refine (proj1 (simulated_battery_keeps_range (init 85.0 0) 600 0.5 _ _ _ _ _));
    vm_compute; discriminate.
Defined.

End SimulatedBatteryProperties.

Section UniversalBatteryProperties.

Import UniversalBatteryMonitor.

Lemma simulated_reading_source (s : SimulatedBatteryMonitor.t) (t r : Q) :
  fst (SimulatedBatteryMonitor._get_raw_battery_info s t r) !! "source"
  = Some (VStr "simulation").
Proof. reflexivity. Qed.

(** What a member of the list returns is the reading of the platform or a
    simulated one. *)
Lemma member_raw_reading (self : t) (env : Env) (m : member)
      (info : gmap string value) :
  fst (member_raw self env m) = Ok info ->
  platform_raw env = Ok info \/ info !! "source" = Some (VStr "simulation").
Proof.
  destruct m; cbn [member_raw fst]; intros H.
  - left. exact H.
  - right. injection H as <-. apply simulated_reading_source.
Qed.

Lemma try_other_monitors_reading (env : Env) (ms : list member) :
  forall (self : t) (info : gmap string value),
    fst (try_other_monitors self env ms) = Some info ->
    platform_raw env = Ok info \/ info !! "source" = Some (VStr "simulation").
Proof.
  induction ms as [| m rest IH]; intros self info; cbn [try_other_monitors].
  - discriminate.
  - destruct (negb (bool_decide (Some m = current_monitor self))
              && member_is_available env m); [| apply IH].
    destruct (fst (member_raw (set_current self (Some m)) env m)) as [i | e] eqn:Hraw.
    + cbn [fst]. intros [= <-]. exact (member_raw_reading _ _ _ _ Hraw).
    + apply IH.
Qed.

(** [_get_raw_battery_info] of the universal monitor never raises: it
    returns the reading of the platform monitor or a simulated one, in
    every state of the object and whatever the platform monitor does. *)
Theorem universal_battery_always_reads (self : t) (env : Env) :
  exists info,
    fst (_get_raw_battery_info self env) = Ok info
    /\ (platform_raw env = Ok info
        \/ info !! "source" = Some (VStr "simulation")).
Proof.
  unfold _get_raw_battery_info. cbv zeta.
  set (checked := match current_monitor self with
                  | None => is_available self env
                  | Some _ => (true, self)
                  end).
  destruct (fst checked); cbn [negb].
  - set (r := match current_monitor (snd checked) with
              | Some m => member_raw (snd checked) env m
              | None => (Raise AttributeError, snd checked)
              end).
    assert (Hr : forall info, fst r = Ok info ->
                 platform_raw env = Ok info
                 \/ info !! "source" = Some (VStr "simulation")).
    { intros info. unfold r. destruct (current_monitor (snd checked)) as [m |].
      - apply member_raw_reading.
      - discriminate. }
    destruct (fst r) as [info | e] eqn:Hfst.
    + exists info. split; [reflexivity | apply Hr; reflexivity].
    + pose proof (try_other_monitors_reading env (platform_monitors (snd r)) (snd r))
        as Hother.
      destruct (fst (try_other_monitors (snd r) env (platform_monitors (snd r))))
        as [info |].
      * exists info. split; [reflexivity | apply Hother; reflexivity].
      * eexists. split; [reflexivity |]. right. apply simulated_reading_source.
  - eexists. split; [reflexivity |]. right. apply simulated_reading_source.
Qed.

Lemma first_available_simulated (env : Env) (ms : list member) :
  Simulated ∈ ms -> is_Some (first_available env ms).
Proof.
  induction ms as [| m rest IH]; intros Hin.
  - inversion Hin.
  - cbn [first_available]. destruct (member_is_available env m) eqn:Hm;
      [eexists; reflexivity |].
    apply IH. apply elem_of_cons in Hin as [Heq | Hin]; [| exact Hin].
    subst m. discriminate.
Qed.

Lemma first_available_unavailable (env : Env) (ms : list member) :
  platform_is_available env = false ->
  Simulated ∈ ms -> first_available env ms = Some Simulated.
Proof.
  intros Hoff. induction ms as [| m rest IH]; intros Hin.
  - inversion Hin.
  - cbn [first_available]. destruct m; cbn [member_is_available].
    + rewrite Hoff. apply IH.
      apply elem_of_cons in Hin as [? | Hin]; [discriminate | exact Hin].
    + reflexivity.
Qed.

(** With the platform monitor current, the loop of the handler moves to
    the simulated monitor. *)
Lemma try_other_monitors_simulated (env : Env) (ms : list member) (self : t) :
  current_monitor self = Some Platform ->
  Simulated ∈ ms ->
  exists info self',
    try_other_monitors self env ms = (Some info, self')
    /\ info !! "source" = Some (VStr "simulation")
    /\ current_monitor self' = Some Simulated
    /\ platform_monitors self' = platform_monitors self.
Proof.
  intros Hcur. induction ms as [| m rest IH]; intros Hin.
  - inversion Hin.
  - cbn [try_other_monitors]. destruct m.
    + rewrite Hcur. rewrite bool_decide_eq_true_2 by reflexivity.
      cbn [negb andb]. apply IH.
      apply elem_of_cons in Hin as [? | Hin]; [discriminate | exact Hin].
    + rewrite Hcur. rewrite bool_decide_eq_false_2 by discriminate.
      cbn [negb andb member_is_available member_raw fst snd].
      do 2 eexists. split; [reflexivity |].
      split; [apply simulated_reading_source |]. split; reflexivity.
Qed.

(** A call with the simulated monitor current reads it and keeps it. *)
Lemma simulated_current_stays (self : t) (env : Env) :
  current_monitor self = Some Simulated ->
  (exists info,
      fst (_get_raw_battery_info self env) = Ok info
      /\ info !! "source" = Some (VStr "simulation"))
  /\ current_monitor (snd (_get_raw_battery_info self env)) = Some Simulated
  /\ platform_monitors (snd (_get_raw_battery_info self env))
     = platform_monitors self.
Proof.
  intros Hcur. unfold _get_raw_battery_info. cbv zeta.
  rewrite Hcur. cbn [fst snd negb]. rewrite Hcur.
  cbn [member_raw fst snd current_monitor platform_monitors].
  split; [| split; [exact Hcur | reflexivity]].
  eexists. split; [reflexivity | apply simulated_reading_source].
Qed.

(** Once the platform monitor has failed, or was not available at the
    first call, the universal monitor reads the simulated monitor, makes
    it the current one and keeps reading it at every later call, also when
    the platform monitor would answer then. *)
Theorem universal_battery_stays_simulated (self : t) (env later : Env) :
  Simulated ∈ platform_monitors self ->
  (exists e, platform_raw env = Raise e)
  \/ (current_monitor self = None /\ platform_is_available env = false) ->
  let r := _get_raw_battery_info self env in
  let r' := _get_raw_battery_info (snd r) later in
  (exists info, fst r = Ok info /\ info !! "source" = Some (VStr "simulation"))
  /\ current_monitor (snd r) = Some Simulated
  /\ (exists info, fst r' = Ok info /\ info !! "source" = Some (VStr "simulation"))
  /\ current_monitor (snd r') = Some Simulated.
Proof.
  intros Hin Hcase. cbv zeta.
  assert (Hfirst :
            (exists info, fst (_get_raw_battery_info self env) = Ok info
                          /\ info !! "source" = Some (VStr "simulation"))
            /\ current_monitor (snd (_get_raw_battery_info self env))
               = Some Simulated).
  { assert (Hplatform : forall s : t,
               current_monitor s = Some Platform ->
               platform_monitors s = platform_monitors self ->
               (exists e, platform_raw env = Raise e) ->
               (exists info, fst (_get_raw_battery_info s env) = Ok info
                             /\ info !! "source" = Some (VStr "simulation"))
               /\ current_monitor (snd (_get_raw_battery_info s env))
                  = Some Simulated).
    { intros s Hcur Hms [e He]. unfold _get_raw_battery_info. cbv zeta.
      rewrite Hcur. cbn [fst snd negb]. rewrite Hcur.
      cbn [member_raw fst snd]. rewrite He.
      destruct (try_other_monitors_simulated env (platform_monitors s) s Hcur)
        as (info & s' & Htry & Hsrc & Hcur' & _); [rewrite Hms; exact Hin |].
      rewrite Htry. cbn [fst snd].
      split; [exists info; split; [reflexivity | exact Hsrc] | exact Hcur']. }
    destruct (current_monitor self) as [[|] |] eqn:Hcur.
    - destruct Hcase as [Hfail | [Hnone _]]; [| discriminate].
      apply Hplatform; [exact Hcur | reflexivity | exact Hfail].
    - destruct (simulated_current_stays self env Hcur) as (H1 & H2 & _).
      split; assumption.
    - destruct (first_available env (platform_monitors self)) as [[|] |] eqn:Hav.
      + destruct Hcase as [Hfail | [_ Hoff]].
        * assert (Heq : _get_raw_battery_info self env
                        = _get_raw_battery_info (set_current self (Some Platform)) env).
          { unfold _get_raw_battery_info, is_available. cbv zeta.
            rewrite Hcur. cbn [set_current current_monitor platform_monitors].
            rewrite Hav. reflexivity. }
          rewrite Heq. apply Hplatform; [reflexivity | reflexivity | exact Hfail].
        * rewrite (first_available_unavailable env _ Hoff Hin) in Hav.
          discriminate.
      + assert (Heq : _get_raw_battery_info self env
                      = _get_raw_battery_info (set_current self (Some Simulated)) env).
        { unfold _get_raw_battery_info, is_available. cbv zeta.
          rewrite Hcur. cbn [set_current current_monitor platform_monitors].
          rewrite Hav. reflexivity. }
        rewrite Heq.
        destruct (simulated_current_stays (set_current self (Some Simulated)) env)
          as (H1 & H2 & _); [reflexivity |].
        split; assumption.
      + destruct (first_available_simulated env _ Hin) as [m Hm].
        rewrite Hm in Hav. discriminate. }
  destruct Hfirst as [Hread Hcur].
  split; [exact Hread |]. split; [exact Hcur |].
  destruct (simulated_current_stays _ later Hcur) as (H1 & H2 & _).
  split; assumption.
Qed.

Lemma universal_battery_stays_simulated_witness :
  current_monitor
    (snd (_get_raw_battery_info
            (snd (_get_raw_battery_info
                    (init "Linux" 0)
                    (mk_env true (Raise RuntimeError) 10 0.5 10 0.5)))
            (mk_env true (Ok {[ "percentage" := VFloat 40 ]}) 20 0.5 20 0.5)))
  = Some Simulated.
Proof.
  refine (proj2 (proj2 (proj2 (universal_battery_stays_simulated
                                 (init "Linux" 0)
                                 (mk_env true (Raise RuntimeError) 10 0.5 10 0.5)
                                 (mk_env true (Ok {[ "percentage" := VFloat 40 ]})
                                         20 0.5 20 0.5)
                                 _ _)))).
  - apply (bool_decide_unpack _). vm_compute. exact I.
  - left. eexists. reflexivity.
Defined.

End UniversalBatteryProperties.

(** ** Loading and validating the configuration *)

Section ConfigLoadingProperties.

Import DynamicGreenOrchestrator.

(** What [load_weights] leaves under every key: the keys are those of the
    weights it starts from, each with the value of the file if the file
    has the key. *)
Lemma load_weights_lookup (file_weights weights : gmap string Q) (k : string) :
  load_weights file_weights weights !! k
  = match weights !! k with
    | Some d => Some (default d (file_weights !! k))
    | None => None
    end.
Proof.
  unfold load_weights. revert k.
  apply (map_fold_weak_ind
           (fun acc m => forall k,
                acc !! k = match weights !! k with
                           | Some d => Some (default d (m !! k))
                           | None => None
                           end)).
  - intros k. rewrite lookup_empty. destruct (weights !! k); reflexivity.
  - intros i x m r Hi IH k.
    destruct (decide (k = i)) as [-> | Hne].
    + specialize (IH i). rewrite Hi in IH. rewrite lookup_insert_eq.
      destruct (weights !! i) as [d |] eqn:Hw.
      * rewrite bool_decide_eq_true_2 by (rewrite IH; eexists; reflexivity).
        rewrite lookup_insert_eq. reflexivity.
      * rewrite bool_decide_eq_false_2
          by (rewrite IH; intros [? ?]; discriminate).
        exact IH.
    + rewrite (lookup_insert_ne m) by congruence.
      destruct (bool_decide (is_Some (r !! i)));
        [rewrite lookup_insert_ne by congruence |]; apply IH.
Qed.

Lemma default_weights_lookup (k : string) :
  OrchestratorConfig.default_weights !! k
  = if bool_decide (k = "battery") then Some 0.4
    else if bool_decide (k = "network") then Some 0.3
    else if bool_decide (k = "carbon") then Some 0.3
    else None.
Proof.
  unfold OrchestratorConfig.default_weights.
  repeat case_bool_decide; subst; try reflexivity.
  rewrite !lookup_insert_ne by congruence.
  apply lookup_singleton_ne. congruence.
Qed.

(** The configuration that the orchestrator builds from a file.  Without a
    file it is the default one.  With any file, the weights have the keys
    [battery], [network] and [carbon] and no other: each takes the value
    of the file if the file gives one and keeps its default otherwise, and
    a weight that the file gives under another key is dropped; the version
    and the size of the history are the default ones; a monitor section
    without [enabled] switches the real monitor on. *)
Theorem create_config_from_data_fields (config_data : option ConfigData.t) :
  let config := _create_config_from_data config_data in
  let file_weights :=
    default ∅ ((config_data ≫= ConfigData.orchestrator) ≫= ConfigData.weights) in
  _create_config_from_data None = OrchestratorConfig.default
  /\ (forall k,
        OrchestratorConfig.weights config !! k
        = if bool_decide (k = "battery") then Some (get file_weights k 0.4)
          else if bool_decide (k = "network") then Some (get file_weights k 0.3)
          else if bool_decide (k = "carbon") then Some (get file_weights k 0.3)
          else None)
  /\ OrchestratorConfig.version config = "1.0.0"
  /\ OrchestratorConfig.decision_history_size config = 1000%Z
  /\ (forall monitors section,
        config_data ≫= ConfigData.monitors = Some monitors ->
        ConfigData.battery monitors = Some section ->
        ConfigData.enabled section = None ->
        OrchestratorConfig.use_real_battery config = true).
Proof.
  cbv zeta. split; [reflexivity |]. split; [| split; [reflexivity |
                                                   split; [reflexivity |]]].
  - intros k. unfold _create_config_from_data. cbv zeta.
    cbn [OrchestratorConfig.weights].
    destruct ((config_data ≫= ConfigData.orchestrator) ≫= ConfigData.weights)
      as [file_weights |]; cbn [default].
    + rewrite load_weights_lookup.
      change (OrchestratorConfig.weights OrchestratorConfig.default)
        with OrchestratorConfig.default_weights.
      rewrite default_weights_lookup. unfold get.
      repeat case_bool_decide; reflexivity.
    + change (OrchestratorConfig.weights OrchestratorConfig.default)
        with OrchestratorConfig.default_weights.
      rewrite default_weights_lookup. unfold get. rewrite lookup_empty.
      reflexivity.
  - intros monitors section Hm Hb He. unfold _create_config_from_data.
    cbv zeta. cbn [OrchestratorConfig.use_real_battery].
    rewrite Hm. cbn [mbind option_bind]. rewrite Hb, He. reflexivity.
Qed.

End ConfigLoadingProperties.

(** ** The configuration of a file, checked in binary64 *)

Section FileConfigProperties.

Import PrimFloat.
Import Float64.

#[local] Set Warnings "-inexact-float".








(** The order matters.  A file with the weights battery 0.1, carbon 0.1
    and network 0.799, in this order, passes [validate_config], which
    adds them in the order of the file to 0.99900000000000011; the
    configuration built from it holds them in the order of the defaults,
    where they add to 0.999, which is off 1.0 by more than 0.001 in
    binary64, and [validate] raises. *)
Example validate_config_order_matters :
  let config_data :=
    ConfigData.mk
      (Some (ConfigData.mk_orchestrator
               (Some [ ("battery", 0.1%float); ("carbon", 0.1%float);
                       ("network", 0.799%float) ])
               None None None))
      (Some (ConfigData.mk_monitors None None None))
      None in
  validate_config config_data = (true, [])
  /\ OrchestratorConfig.validate (_create_config_from_data (Some config_data))
     = Raise ValueError.
Proof. split; vm_compute; reflexivity. Qed.

End FileConfigProperties.

(** ** Monitor readings *)

Section ValidationProperties.

Import DynamicGreenOrchestrator Validation.

(** One turn of the loop of [validate_monitor_data] goes on exactly for
    an accepted reading. *)
Lemma validate_one_accepted (value : reading) :
  Spec.accepted_reading value ->
  negb (is_number value) = false /\ below_zero value || above_one value = false.
Proof.
  intros [-> | (q & -> & H0 & H1)]; cbn [is_number below_zero above_one negb orb].
  - split; reflexivity.
  - split; [reflexivity |].
    rewrite !(bool_decide_eq_false_2 (_ < _)) by lra. reflexivity.
Qed.

Lemma validate_one_refused (value : reading) :
  ~ Spec.accepted_reading value ->
  negb (is_number value) = true \/ below_zero value || above_one value = true.
Proof.
  intros Hno.
  destruct value as [q | [|] | |]; cbn [is_number below_zero above_one negb orb];
    [| right; reflexivity | right; reflexivity
     | exfalso; apply Hno; left; reflexivity | left; reflexivity].
  right.
  destruct (bool_decide (q < 0)) eqn:H0; [reflexivity |].
  destruct (bool_decide (1 < q)) eqn:H1; [reflexivity |].
  exfalso. apply Hno. right. exists q. split; [reflexivity |].
  apply bool_decide_eq_false_1, Qnot_lt_le in H0, H1. split; assumption.
Qed.

Lemma accepted_reading_dec (value : reading) :
  Spec.accepted_reading value \/ ~ Spec.accepted_reading value.
Proof.
  destruct value as [q | negative | |].
  - destruct (decide (0 <= q)) as [H0 |];
      [destruct (decide (q <= 1)) as [H1 |] |].
    + left. right. exists q. repeat split; assumption.
    + right. intros [H | (q' & [= <-] & _ & H)]; [discriminate | contradiction].
    + right. intros [H | (q' & [= <-] & H & _)]; [discriminate | contradiction].
  - right. intros [H | (q & H & _)]; discriminate.
  - left. left. reflexivity.
  - right. intros [H | (q & H & _)]; discriminate.
Qed.

Lemma validate_monitors_cons (monitor_values : gmap string reading)
      (monitor : string) (rest : list string) :
  validate_monitors monitor_values (monitor :: rest) = true <->
  (exists value, monitor_values !! monitor = Some value
                 /\ Spec.accepted_reading value)
  /\ validate_monitors monitor_values rest = true.
Proof.
  cbn [validate_monitors].
  destruct (monitor_values !! monitor) as [value |].
  - destruct (accepted_reading_dec value) as [Hyes | Hno].
    + destruct (validate_one_accepted value Hyes) as [-> ->].
      split; [intros H; split; [exists value; split; [reflexivity | exact Hyes] | exact H]
             | intros [_ H]; exact H].
    + split.
      * destruct (validate_one_refused value Hno) as [-> | H];
          [discriminate |].
        destruct (negb (is_number value)); [discriminate |].
        rewrite H. discriminate.
      * intros [(v & [= <-] & Hyes) _]. contradiction.
  - split; [discriminate | intros [(v & H & _) _]; discriminate].
Qed.

(** [validate_monitor_data] accepts a dictionary exactly when each of its
    three readings is a finite number between 0 and 1 or is NaN, which no
    comparison rules out; an infinity, a number outside the range, a value
    that is not a number and a missing reading are refused.  For three
    finite readings that it accepts, the score under the default weights
    is the weighted sum itself, 0.4 of the battery, 0.3 of the network and
    0.3 of one minus the carbon reading: nothing is clamped. *)
Theorem validated_readings_score (monitor_values : gmap string reading) :
  (validate_monitor_data monitor_values = true <->
   exists vb vn vc,
     monitor_values !! "battery" = Some vb
     /\ monitor_values !! "network" = Some vn
     /\ monitor_values !! "carbon" = Some vc
     /\ Spec.accepted_reading vb
     /\ Spec.accepted_reading vn
     /\ Spec.accepted_reading vc)
  /\ (forall b n c,
         monitor_values !! "battery" = Some (Finite b) ->
         monitor_values !! "network" = Some (Finite n) ->
         monitor_values !! "carbon" = Some (Finite c) ->
         validate_monitor_data monitor_values = true ->
         Spec.in_unit b /\ Spec.in_unit n /\ Spec.in_unit c
         /\ Scoring.calculate_sustainability_score
              (omap finite monitor_values) OrchestratorConfig.default_weights
            == 0.4 * b + 0.3 * n + 0.3 * (1 - c))
  /\ (forall monitor value,
         monitor ∈ [ "battery"; "network"; "carbon" ] ->
         monitor_values !! monitor = Some value ->
         value = NotNumber \/ (exists negative, value = Infinity negative) ->
         validate_monitor_data monitor_values = false).
Proof.
  assert (Hiff : validate_monitor_data monitor_values = true <->
                 exists vb vn vc,
                   monitor_values !! "battery" = Some vb
                   /\ monitor_values !! "network" = Some vn
                   /\ monitor_values !! "carbon" = Some vc
                   /\ Spec.accepted_reading vb
                   /\ Spec.accepted_reading vn
                   /\ Spec.accepted_reading vc).
  { unfold validate_monitor_data. rewrite !validate_monitors_cons.
    cbn [validate_monitors]. split.
    - intros ((vb & Hvb & Ab) & (vn & Hvn & An) & (vc & Hvc & Ac) & _).
      exists vb, vn, vc. repeat split; assumption.
    - intros (vb & vn & vc & Hvb & Hvn & Hvc & Ab & An & Ac).
      split; [exists vb; split; assumption |].
      split; [exists vn; split; assumption |].
      split; [exists vc; split; assumption | reflexivity]. }
  split; [exact Hiff |]. split.
  - intros b n c Hb Hn Hc Hvalid.
    apply Hiff in Hvalid.
    destruct Hvalid as (vb & vn & vc & Hvb & Hvn & Hvc & Ab & An & Ac).
    rewrite Hb in Hvb. rewrite Hn in Hvn. rewrite Hc in Hvc.
    injection Hvb as <-. injection Hvn as <-. injection Hvc as <-.
    assert (Hfin : forall q, Spec.accepted_reading (Finite q) -> Spec.in_unit q).
    { intros q [H | (q' & [= <-] & H)]; [discriminate | exact H]. }
    apply Hfin in Ab, An, Ac.
    split; [exact Ab |]. split; [exact An |]. split; [exact Ac |].
    destruct Ab as [Hb0 Hb1], An as [Hn0 Hn1], Ac as [Hc0 Hc1].
    unfold Scoring.calculate_sustainability_score, get. cbv zeta.
    rewrite !lookup_omap, Hb, Hn, Hc. cbn [mbind option_bind finite].
    cbn [default].
    assert (Hw : OrchestratorConfig.default_weights !! "battery" = Some 0.4
                 /\ OrchestratorConfig.default_weights !! "network" = Some 0.3
                 /\ OrchestratorConfig.default_weights !! "carbon" = Some 0.3)
      by (repeat split; reflexivity).
    destruct Hw as (-> & -> & ->). cbn [default]. unfold Datatypes.id.
    minmax_specs; lra.
  - intros monitor value Hin Hvalue Hbad.
    apply not_true_is_false. intros Hvalid. apply Hiff in Hvalid.
    destruct Hvalid as (vb & vn & vc & Hvb & Hvn & Hvc & Ab & An & Ac).
    assert (Hacc : Spec.accepted_reading value).
    { repeat (apply elem_of_cons in Hin as [-> | Hin]; [congruence |]).
      apply elem_of_nil in Hin. contradiction. }
    destruct Hacc as [-> | (q & -> & _)];
      destruct Hbad as [Hbad | [negative Hbad]]; discriminate.
Qed.

End ValidationProperties.

(** ** [create_all_monitors] *)

Section AllMonitorsProperties.

Import MonitorFactory.

(** [create_all_monitors] raises, with [ValueError], exactly when the
    carbon monitor is enabled, its [use_simulation] is given as false and
    neither the configuration nor the environment has an API key.
    Otherwise it returns a dictionary that has a monitor under [battery],
    [network] and [carbon] exactly for those that are not disabled; the
    carbon monitor is the simulated one when [use_simulation] is true or
    when there is no API key, and the one of Electricity Maps otherwise. *)
Theorem create_all_monitors_outcome (config : AllConfig) (host : Host) :
  let api_key :=
    if truthy (api_keys_electricity_maps config)
    then api_keys_electricity_maps config
    else getenv_api_key host in
  let no_carbon :=
    default true (carbon_enabled config) = true
    /\ carbon_use_simulation config = Some false
    /\ truthy api_key = false in
  (create_all_monitors config host = Raise ValueError <-> no_carbon)
  /\ (~ no_carbon ->
      exists monitors,
        create_all_monitors config host = Ok monitors
        /\ (is_Some (monitors !! "battery")
            <-> default true (battery_enabled config) = true)
        /\ (is_Some (monitors !! "network")
            <-> default true (network_enabled config) = true)
        /\ (is_Some (monitors !! "carbon")
            <-> default true (carbon_enabled config) = true)
        /\ (forall k, is_Some (monitors !! k) ->
                      k = "battery" \/ k = "network" \/ k = "carbon")
        /\ (default true (carbon_enabled config) = true ->
            monitors !! "carbon"
            = Some (if default false (carbon_use_simulation config)
                    then SimulatedCarbonMonitor
                    else if truthy api_key then ElectricityMapsMonitor
                         else SimulatedCarbonMonitor))).
Proof.
  cbv zeta. unfold create_all_monitors, create_carbon_monitor. cbv zeta.
  set (battery := create_battery_monitor _ _ _).
  set (network := create_network_monitor _ _ _ _).
  assert (Hkey : (if negb (truthy (api_keys_electricity_maps config))
                  then getenv_api_key host
                  else api_keys_electricity_maps config)
                 = (if truthy (api_keys_electricity_maps config)
                    then api_keys_electricity_maps config
                    else getenv_api_key host)).
  { destruct (truthy (api_keys_electricity_maps config)); reflexivity. }
  rewrite Hkey.
  set (api_key := if truthy (api_keys_electricity_maps config) then _ else _).
  destruct (default true (battery_enabled config));
    destruct (default true (network_enabled config));
    destruct (default true (carbon_enabled config));
    destruct (carbon_use_simulation config) as [[|] |]; cbn [default];
    destruct (truthy api_key); run_bind;
    (split;
     [split; [try discriminate; intros _; repeat split
             | intros (? & ? & ?); first [reflexivity | discriminate]]
     | intros Hno;
       first
         [ solve [exfalso; apply Hno; repeat split]
         | eexists; split; [reflexivity |];
           repeat split;
           rewrite ?lookup_insert_eq, ?lookup_insert_ne, ?lookup_empty
             by discriminate;
           try (intros; first [reflexivity | discriminate | eexists; reflexivity]);
           try (intros [? ?]; discriminate);
           try (intros k Hk;
                destruct (decide (k = "battery")); [auto |];
                destruct (decide (k = "network")); [auto |];
                destruct (decide (k = "carbon")); [auto |];
                rewrite ?lookup_insert_ne, ?lookup_empty in Hk by congruence;
                destruct Hk as [? Hk]; discriminate) ] ]).
Qed.

End AllMonitorsProperties.

(** ** The Linux battery monitor *)

Section LinuxBatteryProperties.

Import LinuxBatteryMonitor.

Variable path_exists : string -> bool.
Variable read : string -> result string.
Variables strip lower : string -> string.
Variable float_of_str : string -> option Q.
Variable re_search : string -> string -> option string.

Lemma sysfs_attempt_first (capacity : Q) :
  first_battery_has_capacity path_exists read strip float_of_str capacity ->
  sysfs_attempt path_exists read strip lower float_of_str
                "/sys/class/power_supply/BAT0"
  = if path_exists "/sys/class/power_supply/BAT0/status" then
      match read "/sys/class/power_supply/BAT0/status" with
      | Ok content =>
          Ok (Some {[ "percentage" := VFloat capacity;
                      "is_charging" :=
                        VBool (bool_decide (lower (strip content)
                                            ∈ [ "charging"; "full" ]));
                      "status" := VStr (lower (strip content));
                      "source" := VStr "sysfs_BAT0";
                      "path" := VStr "/sys/class/power_supply/BAT0" ]})
      | Raise e =>
          if existsb (issubclass e) [ OSError; ValueError ]
          then Ok None else Raise e
      end
    else Raise NameError.
Proof.
  intros (Hdir & Hpresent & Hcap & content & Hread & Hfloat).
  unfold sysfs_attempt. rewrite Hdir. cbn [negb].
  change (join "/sys/class/power_supply/BAT0" "capacity")
    with "/sys/class/power_supply/BAT0/capacity".
  change (join "/sys/class/power_supply/BAT0" "status")
    with "/sys/class/power_supply/BAT0/status".
  change (join "/sys/class/power_supply/BAT0" "present")
    with "/sys/class/power_supply/BAT0/present".
  change (basename "/sys/class/power_supply/BAT0") with "BAT0".
  cbv zeta.
  assert (Hp : (if path_exists "/sys/class/power_supply/BAT0/present"
                then content ← read "/sys/class/power_supply/BAT0/present";
                     Ok (String.eqb (strip content) "1")
                else Ok true) = Ok true).
  { destruct Hpresent as [-> | (c & Hc & Hs)]; [reflexivity |].
    destruct (path_exists "/sys/class/power_supply/BAT0/present");
      [| reflexivity].
    rewrite Hc, mbind_Ok, Hs. reflexivity. }
  rewrite Hp, mbind_Ok. cbn [negb]. rewrite Hcap, Hread, mbind_Ok.
  cbn [Monitors.float]. rewrite Hfloat, mbind_Ok.
  destruct (path_exists "/sys/class/power_supply/BAT0/status").
  - destruct (read "/sys/class/power_supply/BAT0/status") as [s | e].
    + rewrite mbind_Ok. reflexivity.
    + rewrite mbind_Raise. reflexivity.
  - reflexivity.
Qed.

(** [get_info] on a probe that returns a float percentage. *)
Lemma battery_get_info_float (raw : gmap string value) (now q : Q) :
  raw !! "percentage" = Some (VFloat q) ->
  Monitors.battery_get_info float_of_str (Ok raw) now
  = Ok (<["percentage" := VFloat (Qmax 0.0 (Qmin 100.0 q))]>
          {[ "percentage" := get raw "percentage" (VFloat 0.0);
             "is_charging" := get raw "is_charging" (VBool false);
             "status" := get raw "status" (VStr "unknown");
             "source" := get raw "source" (VStr "unknown");
             "timestamp" := VFloat now;
             "raw_data" := VDict raw ]}).
Proof.
  intros Hq. unfold Monitors.battery_get_info, try_except_Exception.
  rewrite mbind_Ok. cbv zeta.
  unfold getitem. rewrite lookup_insert_eq. rewrite mbind_Ok.
  unfold get. rewrite Hq. cbn [default Datatypes.id Monitors.float].
  rewrite mbind_Ok. reflexivity.
Qed.

(** On a Linux host whose first battery of sysfs has a capacity file, the
    reading depends on the status file.  Without one, [_read_from_sysfs]
    raises ([is_charging] is used without being bound), so does
    [_get_raw_battery_info], and [get_info] reports the fallback reading
    of 85 percent instead of the capacity.  With a status file that can be
    read and a capacity that is not negative, [get_info] reports the
    capacity limited to 100, charging exactly when the status is
    [charging] or [full], from the source [sysfs_BAT0]. *)
Theorem linux_battery_needs_status_file (capacity now : Q) :
  first_battery_has_capacity path_exists read strip float_of_str capacity ->
  (path_exists "/sys/class/power_supply/BAT0/status" = false ->
   _read_from_sysfs path_exists read strip lower float_of_str = Raise NameError
   /\ _get_raw_battery_info path_exists read strip lower float_of_str re_search
      = Raise NameError
   /\ get_info path_exists read strip lower float_of_str re_search now
      = Ok (Monitors.battery_fallback_info now)
   /\ Monitors.battery_fallback_info now !! "percentage" = Some (VFloat 85.0))
  /\ (forall content,
        path_exists "/sys/class/power_supply/BAT0/status" = true ->
        read "/sys/class/power_supply/BAT0/status" = Ok content ->
        0 <= capacity ->
        exists info,
          get_info path_exists read strip lower float_of_str re_search now
          = Ok info
          /\ info !! "percentage" = Some (VFloat (Qmax 0.0 (Qmin 100.0 capacity)))
          /\ info !! "is_charging"
             = Some (VBool (bool_decide (lower (strip content)
                                         ∈ [ "charging"; "full" ])))
          /\ info !! "status" = Some (VStr (lower (strip content)))
          /\ info !! "source" = Some (VStr "sysfs_BAT0")).
Proof.
  intros Hfirst. pose proof (sysfs_attempt_first capacity Hfirst) as Hattempt.
  split.
  - intros Hstatus. rewrite Hstatus in Hattempt.
    assert (Hsysfs : _read_from_sysfs path_exists read strip lower float_of_str
                     = Raise NameError).
    { unfold _read_from_sysfs. cbn [sysfs_loop]. rewrite Hattempt. reflexivity. }
    assert (Hraw : _get_raw_battery_info path_exists read strip lower
                                         float_of_str re_search
                   = Raise NameError).
    { unfold _get_raw_battery_info. rewrite Hsysfs, mbind_Raise. reflexivity. }
    split; [exact Hsysfs |]. split; [exact Hraw |].
    split; [| reflexivity].
    unfold get_info. rewrite Hraw. reflexivity.
  - intros content Hstatus Hread Hcap.
    rewrite Hstatus, Hread in Hattempt.
    assert (Hraw : _get_raw_battery_info path_exists read strip lower
                                         float_of_str re_search
                   = Ok {[ "percentage" := VFloat capacity;
                           "is_charging" :=
                             VBool (bool_decide (lower (strip content)
                                                 ∈ [ "charging"; "full" ]));
                           "status" := VStr (lower (strip content));
                           "source" := VStr "sysfs_BAT0";
                           "path" := VStr "/sys/class/power_supply/BAT0" ]}).
    { unfold _get_raw_battery_info, _read_from_sysfs.
      cbn [sysfs_loop]. rewrite Hattempt. rewrite mbind_Ok. cbv beta.
      unfold getitem. rewrite lookup_insert_eq. rewrite mbind_Ok. cbv beta.
      cbn [as_number]. rewrite mbind_Ok. cbv beta.
      destruct (decide (0 <= capacity)) as [_ | Hneg];
        [reflexivity | contradiction]. }
    unfold get_info. rewrite Hraw.
    rewrite (battery_get_info_float _ _ capacity) by apply lookup_insert_eq.
    eexists. split; [reflexivity |].
    split; [apply lookup_insert_eq |].
    rewrite !(lookup_insert_ne _ "percentage") by discriminate.
    split; [reflexivity |]. split; reflexivity.
Qed.

End LinuxBatteryProperties.

(** A laptop whose battery directory has a capacity file reading 67 and no
    status file: the monitor reports the fallback reading. *)
Lemma linux_battery_needs_status_file_witness :
  LinuxBatteryMonitor.get_info
    (fun path => bool_decide (path ∈ [ "/sys/class/power_supply/BAT0";
                                       "/sys/class/power_supply/BAT0/capacity" ]))
    (fun _ => Ok "67") (fun s => s) (fun s => s) (fun _ => Some 67)
    (fun _ _ => None) 0
  = Ok (Monitors.battery_fallback_info 0).
Proof.
  refine (proj1 (proj2 (proj2 (proj1
            (linux_battery_needs_status_file
               (fun path => bool_decide (path ∈ [ "/sys/class/power_supply/BAT0";
                                                  "/sys/class/power_supply/BAT0/capacity" ]))
               (fun _ => Ok "67") (fun s => s) (fun s => s) (fun _ => Some 67)
               (fun _ _ => None) 67 0 _) _)))).
  - split; [reflexivity |]. split; [left; reflexivity |].
    split; [reflexivity |]. exists "67". split; reflexivity.
  - reflexivity.
Defined.

(** ** The orchestrator after its construction *)

Section ConstructedOrchestratorProperties.

Import DynamicGreenOrchestrator.

(** The orchestrator as [__init__] leaves it: the configuration built
    from a file, monitors that are instances of the monitor classes, and
    an empty history.  Its first call of [make_decision] decides on the
    default readings: the battery, the network and the carbon reading of
    the decision are 0.5 and the score is between 0 and 1.  The mode is
    never EDGE_ONLY: it is CLOUD_ONLY exactly when [hard_edge_battery] is
    above 0.5, and otherwise HYBRID when the score is above the threshold
    and DEFERRED when it is not.  After the call the history holds
    exactly that decision, and so does [get_recent_decisions]. *)
Theorem constructed_orchestrator_never_edge
        (config_data : option ConfigData.t) (self : t) (now : Q) :
  config self = _create_config_from_data config_data ->
  (forall k m, monitors self !! k = Some m -> exists c, instance_of m c) ->
  decision_history self = [] ->
  exists d self',
    make_decision self now = Ok (d, self')
    /\ Decision.battery d = 0.5
    /\ Decision.network d = 0.5
    /\ Decision.carbon d = 0.5
    /\ Spec.in_unit (Decision.score d)
    /\ Decision.recommended_mode d <> EDGE_ONLY
    /\ (Decision.recommended_mode d = CLOUD_ONLY
        <-> 0.5 < OrchestratorConfig.hard_edge_battery (config self))
    /\ (Decision.recommended_mode d = HYBRID
        <-> OrchestratorConfig.hard_edge_battery (config self) <= 0.5
            /\ OrchestratorConfig.threshold (config self) < Decision.score d)
    /\ (Decision.recommended_mode d = DEFERRED
        <-> OrchestratorConfig.hard_edge_battery (config self) <= 0.5
            /\ Decision.score d <= OrchestratorConfig.threshold (config self))
    /\ decision_history self' = [d]
    /\ get_recent_decisions self' 10 = [d].
Proof.
  intros Hconfig Hinst Hhistory.
  assert (Hb : read_status (monitors self !! "battery")
                           "get_level" "read" "battery_level" = Ok 0.5).
  { apply read_status_instance; [apply Hinst |].
    apply (bool_decide_unpack _). vm_compute. exact I. }
  assert (Hn : read_status (monitors self !! "network")
                           "get_speed" "read" "network_quality" = Ok 0.5).
  { apply read_status_instance; [apply Hinst |].
    apply (bool_decide_unpack _). vm_compute. exact I. }
  assert (Hc : read_status (monitors self !! "carbon")
                           "get_carbon_intensity" "read" "carbon_intensity" = Ok 0.5).
  { apply read_status_instance; [apply Hinst |].
    apply (bool_decide_unpack _). vm_compute. exact I. }
  assert (U : Spec.in_unit 0.5) by (split; vm_compute; discriminate).
  destruct (make_decision_value self now 0.5 0.5 0.5 Hb Hn Hc U U U) as (r & _ & Hd).
  cbv zeta in Hd.
  set (score := Scoring.calculate_sustainability_score _ _) in *.
  assert (Hscore : Spec.in_unit score).
  { unfold score, Scoring.calculate_sustainability_score. cbv zeta.
    apply Qmax_Qmin_bounds. }
  eexists. eexists. split; [exact Hd |].
  cbn [Decision.battery Decision.network Decision.carbon Decision.score
       Decision.recommended_mode].
  split; [reflexivity |]. split; [reflexivity |]. split; [reflexivity |].
  split; [exact Hscore |].
  assert (Hmode :
            (determine_mode (config self) 0.5 0.5 score).1 <> EDGE_ONLY
            /\ ((determine_mode (config self) 0.5 0.5 score).1 = CLOUD_ONLY
                <-> 0.5 < OrchestratorConfig.hard_edge_battery (config self))
            /\ ((determine_mode (config self) 0.5 0.5 score).1 = HYBRID
                <-> OrchestratorConfig.hard_edge_battery (config self) <= 0.5
                    /\ OrchestratorConfig.threshold (config self) < score)
            /\ ((determine_mode (config self) 0.5 0.5 score).1 = DEFERRED
                <-> OrchestratorConfig.hard_edge_battery (config self) <= 0.5
                    /\ score <= OrchestratorConfig.threshold (config self))).
  { unfold determine_mode.
    destruct (decide (0.5 < OrchestratorConfig.hard_edge_battery (config self)))
      as [Hlow | Hhigh]; cbn [fst].
    - split; [discriminate |]. split; [split; auto |].
      split; split; try discriminate; intros [? _]; lra.
    - rewrite (bool_decide_eq_false_2 (0.7 < 0.5)) by (vm_compute; discriminate).
      rewrite andb_false_r.
      destruct (decide (OrchestratorConfig.threshold (config self) < score));
        cbn [fst].
      + split; [discriminate |]. split; [split; [discriminate | contradiction] |].
        split; [split; [intros _; split; [lra | assumption] | reflexivity] |].
        split; [discriminate | intros [_ ?]; lra].
      + split; [discriminate |]. split; [split; [discriminate | contradiction] |].
        split; [split; [discriminate | intros [_ ?]; contradiction] |].
        split; [intros _; split; lra | reflexivity]. }
  destruct Hmode as (H1 & H2 & H3 & H4).
  split; [exact H1 |]. split; [exact H2 |]. split; [exact H3 |]. split; [exact H4 |].
  assert (Hsize : OrchestratorConfig.decision_history_size (config self) = 1000%Z)
    by (rewrite Hconfig; reflexivity).
  assert (Hh : forall d, decision_history (append_history self d) = [d]).
  { intros d. unfold append_history. rewrite Hhistory, Hsize. reflexivity. }
  split; [apply Hh |].
  unfold get_recent_decisions. rewrite Hh. reflexivity.
Qed.

Lemma constructed_orchestrator_never_edge_witness :
  exists d self',
    make_decision (Examples.factory_orchestrator Examples.linux_host) 0 = Ok (d, self')
    /\ Decision.recommended_mode d <> EDGE_ONLY
    /\ decision_history self' = [d].
Proof.
  destruct (constructed_orchestrator_never_edge
              None (Examples.factory_orchestrator Examples.linux_host) 0
              eq_refl (factory_orchestrator_monitors Examples.linux_host) eq_refl)
    as (d & self' & Hd & _ & _ & _ & _ & Hmode & _ & _ & _ & Hh & _).
  exists d, self'. repeat split; assumption.
Defined.

End ConstructedOrchestratorProperties.
